(** * Bakery supply chain inventory simulator (app.py)

    A shallow embedding of [simulate_inventory_cost] and of the scan that
    looks for the setting closest to a 95% fill rate.

    Numbers.  Python [int]s are [Z].  Python [float]s are rationals in
    lowest terms, [Qc].  In the loop of the simulator their sums, differences
    and quotients are taken exactly; the properties stated of the loop are
    about comparisons and bounds.  Where a property depends on the rounding
    of binary64 the arithmetic is rounded by [b64], the rounding to the
    nearest double: in the gap of the scan, in [leadtime_variation_f64],
    the lead-time sample of line 51 with its arithmetic in binary64, and in
    the three replenishment steps that draw this sample.
    [hub_inventory] and [bakery_inventory] only ever receive [int]
    quantities, so they are [Z].

    Randomness.  The ambient generator [np.random] is a sequence
    [draws : nat -> Qc] of standard normal deviates together with a cursor;
    [np.random.normal(loc, scale)] consumes one deviate [z] and returns
    [loc + scale * z], and rejects a negative [scale].

    Exceptions.  [%] and [/] raise [ZeroDivisionError] on a zero divisor. *)

From Stdlib Require Import ZArith QArith Qcanon Qround Qcabs Qpower Lqa.
From Stdlib Require Import List Lia Bool.
From Stdlib Require Import PrimFloat FloatOps SpecFloat.
Import ListNotations.

Open Scope Qc_scope.
Open Scope Z_scope.

(** ** Exceptions and the generator monad *)

Inductive exn : Type := ZeroDivisionError | ValueError.

Inductive result (A : Type) : Type :=
| Ok (a : A)
| Raise (e : exn).

Arguments Ok {A} a.
Arguments Raise {A} e.

(** A computation reads the generator at a cursor and either returns a
    value with the advanced cursor or raises. *)
Definition M (A : Type) : Type := nat -> result (A * nat).

Definition ret {A : Type} (a : A) : M A := fun c => Ok (a, c).

Definition raise {A : Type} (e : exn) : M A := fun _ => Raise e.

Definition bind {A B : Type} (m : M A) (k : A -> M B) : M B :=
  fun c => match m c with
           | Ok (a, c') => k a c'
           | Raise e => Raise e
           end.

Notation "x <- m ;; k" := (bind m (fun x => k))
  (at level 61, m at next level, right associativity).

(** ** Python and numpy primitives *)

(** A Python [int] used where a [float] is. *)
Definition of_int (z : Z) : Qc := Q2Qc (inject_Z z).

(** A decimal literal [n / d]. *)
Definition lit (n : Z) (d : positive) : Qc := Q2Qc (n # d).

(** [a < b] on numbers. *)
Definition Qcltb (a b : Qc) : bool := negb (Qle_bool b a).

(** [max(a, b)]: the first argument unless the second is greater. *)
Definition py_max (a b : Qc) : Qc := if Qcltb a b then b else a.

(** [min(a, b)]: the first argument unless the second is smaller. *)
Definition py_min (a b : Qc) : Qc := if Qcltb b a then b else a.

(** [np.round]: nearest integer, halves to the even neighbour. *)
Definition np_round (x : Qc) : Z :=
  let f := Qfloor x in
  match Qccompare (x - of_int f) (lit 1 2) with
  | Lt => f
  | Gt => f + 1
  | Eq => if Z.even f then f else f + 1
  end.

(** ** Binary64 *)

(** [2 ^ k]. *)
Definition pow2 (k : Z) : Qc := Q2Qc (2 ^ k)%Q.

(** The binade of a positive number: [floor (log2 x)]. *)
Definition ilog2 (x : Qc) : Z :=
  let k := Z.log2 (Qnum x) - Z.log2 (Zpos (Qden x)) in
  if Qcltb x (pow2 k) then k - 1 else k.

(** The double nearest to [x], the one of even mantissa when two are equally
    near: what binary64 makes of the exact result [x] of an operation.  A
    double is [m * 2 ^ q] with [|m| < 2 ^ 53] and [q >= -1074]; overflow is
    left out, the numbers rounded here staying far below [2 ^ 1024]. *)
Definition b64 (x : Qc) : Qc :=
  if Qc_eq_bool x 0 then 0%Qc
  else let q := Z.max (ilog2 (Qcabs x) - 52) (-1074) in
       (of_int (np_round (x / pow2 q)%Qc) * pow2 q)%Qc.

(** [a + b], [a - b] and [a * b] on doubles. *)
Definition f64_add (a b : Qc) : Qc := b64 (a + b).
Definition f64_sub (a b : Qc) : Qc := b64 (a - b).
Definition f64_mul (a b : Qc) : Qc := b64 (a * b).

Definition Qcsum (l : list Qc) : Qc := fold_left Qcplus l 0%Qc.

(** [np.mean] of a list. *)
Definition np_mean (l : list Qc) : Qc :=
  (Qcsum l / of_int (Z.of_nat (length l)))%Qc.

(** [a % b] on ints. *)
Definition py_mod (a b : Z) : M Z :=
  if b =? 0 then raise ZeroDivisionError else ret (a mod b).

(** [a / b] on numbers. *)
Definition py_div (a b : Qc) : M Qc :=
  if Qc_eq_bool b 0 then raise ZeroDivisionError else ret (a / b)%Qc.

(** [range(a, b)]. *)
Definition range (a b : Z) : list Z :=
  map (fun i => a + Z.of_nat i) (seq 0 (Z.to_nat (b - a))).

(** ** Parameters *)

Definition n_periods : Z := 365.
Definition store_demand_mean : Z := 100.
Definition store_demand_std : Qc := of_int store_demand_mean * lit 2 10.
(** The literal [0.95] is the double nearest to 95/100. *)
Definition target_fill : Qc := b64 (lit 95 100).

(** The values read from the sliders. *)
Record sliders : Type := {
  h_store : Z;
  h_hub : Z;
  h_bakery : Z;
  lt_store : Z;
  lt_hub : Z;
  lt_bakery : Z
}.

(** The local variables of [simulate_inventory_cost]. *)
Record locals : Type := mkLocals {
  store_inv : list Qc;
  hub_inv : list Z;
  bakery_inv : list Z;
  store_inventory : Qc;
  hub_inventory : Z;
  bakery_inventory : Z;
  total_demand : Qc;
  fulfilled_demand : Qc;
  stockout_days : Z
}.

Definition initial : locals :=
  mkLocals [] [] [] 0%Qc 0 0 0%Qc 0%Qc 0.

(** The entry of [best_setting]. *)
Record setting : Type := mkSetting {
  freq_days : Z;
  fill_rate_pct : Qc;
  total_cost : Qc
}.

(** [min_gap] starts at [float('inf')]. *)
Inductive gap_bound : Type := Infinite | Finite (g : Qc).

Definition gap_lt (g : Qc) (b : gap_bound) : bool :=
  match b with
  | Infinite => true
  | Finite m => Qcltb g m
  end.

Section Simulator.

Variable draws : nat -> Qc.
Variable ui : sliders.

(** [np.random.normal(loc, scale)] *)
Definition normal (loc scale : Qc) : M Qc :=
  fun c => if Qcltb scale 0 then Raise ValueError
           else Ok ((loc + scale * draws c)%Qc, S c).

(** [np.random.normal(loc, scale)] with its arithmetic in binary64. *)
Definition normal_f64 (loc scale : Qc) : M Qc :=
  fun c => if Qcltb scale 0 then Raise ValueError
           else Ok (f64_add loc (f64_mul scale (draws c)), S c).

Section Run.

Variables store_days hub_days : Z.
Variable lead_var : Qc.

Definition leadtime_variation (base : Z) : M Z :=
  x <- normal (of_int base) (of_int base * lead_var) ;;
  ret (Z.max 1 (np_round x)).

(** Line 51 with its arithmetic in binary64: [base] becomes a double, the
    product [base * lead_var] is rounded, and so are the product and the sum
    inside [np.random.normal]. *)
Definition leadtime_variation_f64 (base : Z) : M Z :=
  x <- normal_f64 (b64 (of_int base)) (f64_mul (b64 (of_int base)) lead_var) ;;
  ret (Z.max 1 (np_round x)).

(** Lines 54-63: demand accrual and fulfilment at the store. *)
Definition fulfil (demand : Qc) (s : locals) : locals :=
  let total := (total_demand s + demand)%Qc in
  let fulfilled := py_min (store_inventory s) demand in
  let done := (fulfilled_demand s + fulfilled)%Qc in
  let outs := if Qcltb (store_inventory s) demand
              then stockout_days s + 1 else stockout_days s in
  mkLocals (store_inv s) (hub_inv s) (bakery_inv s)
           (store_inventory s - fulfilled)
           (hub_inventory s) (bakery_inventory s)
           total done outs.

(** Lines 65-70: the store pulls from the hub. *)
Definition store_replenishment (day : Z) (s : locals) : M locals :=
  r <- py_mod day store_days ;;
  if r =? 0 then
    store_lead <- leadtime_variation (lt_store ui) ;;
    let qty := store_demand_mean * store_lead in
    if hub_inventory s >=? qty then
      ret (mkLocals (store_inv s) (hub_inv s) (bakery_inv s)
                    (store_inventory s + of_int qty)
                    (hub_inventory s - qty) (bakery_inventory s)
                    (total_demand s) (fulfilled_demand s)
                    (stockout_days s))
    else ret s
  else ret s.

(** Lines 72-76: the hub pulls from the bakery. *)
Definition hub_replenishment (day : Z) (s : locals) : M locals :=
  r <- py_mod day hub_days ;;
  if r =? 0 then
    hub_lead <- leadtime_variation (lt_hub ui) ;;
    let qty := store_demand_mean * hub_lead in
    ret (mkLocals (store_inv s) (hub_inv s) (bakery_inv s)
                  (store_inventory s)
                  (hub_inventory s + qty) (bakery_inventory s - qty)
                  (total_demand s) (fulfilled_demand s)
                  (stockout_days s))
  else ret s.

(** Lines 78-80: the bakery produces. *)
Definition bakery_production (day : Z) (s : locals) : M locals :=
  r <- py_mod day hub_days ;;
  if r =? 0 then
    bakery_lead <- leadtime_variation (lt_bakery ui) ;;
    ret (mkLocals (store_inv s) (hub_inv s) (bakery_inv s)
                  (store_inventory s) (hub_inventory s)
                  (bakery_inventory s + store_demand_mean * bakery_lead)
                  (total_demand s) (fulfilled_demand s)
                  (stockout_days s))
  else ret s.

(** Lines 65-70 with the lead time sampled in binary64.  [qty] is an [int]
    and becomes a double when it is added to the level of the store. *)
Definition store_replenishment_f64 (day : Z) (s : locals) : M locals :=
  r <- py_mod day store_days ;;
  if r =? 0 then
    store_lead <- leadtime_variation_f64 (lt_store ui) ;;
    let qty := store_demand_mean * store_lead in
    if hub_inventory s >=? qty then
      ret (mkLocals (store_inv s) (hub_inv s) (bakery_inv s)
                    (f64_add (store_inventory s) (b64 (of_int qty)))
                    (hub_inventory s - qty) (bakery_inventory s)
                    (total_demand s) (fulfilled_demand s)
                    (stockout_days s))
    else ret s
  else ret s.

(** Lines 72-76 with the lead time sampled in binary64. *)
Definition hub_replenishment_f64 (day : Z) (s : locals) : M locals :=
  r <- py_mod day hub_days ;;
  if r =? 0 then
    hub_lead <- leadtime_variation_f64 (lt_hub ui) ;;
    let qty := store_demand_mean * hub_lead in
    ret (mkLocals (store_inv s) (hub_inv s) (bakery_inv s)
                  (store_inventory s)
                  (hub_inventory s + qty) (bakery_inventory s - qty)
                  (total_demand s) (fulfilled_demand s)
                  (stockout_days s))
  else ret s.

(** Lines 78-80 with the lead time sampled in binary64. *)
Definition bakery_production_f64 (day : Z) (s : locals) : M locals :=
  r <- py_mod day hub_days ;;
  if r =? 0 then
    bakery_lead <- leadtime_variation_f64 (lt_bakery ui) ;;
    ret (mkLocals (store_inv s) (hub_inv s) (bakery_inv s)
                  (store_inventory s) (hub_inventory s)
                  (bakery_inventory s + store_demand_mean * bakery_lead)
                  (total_demand s) (fulfilled_demand s)
                  (stockout_days s))
  else ret s.

(** Lines 82-84: the three traces receive the floored levels. *)
Definition record (s : locals) : locals :=
  mkLocals (store_inv s ++ [py_max 0 (store_inventory s)])
           (hub_inv s ++ [Z.max 0 (hub_inventory s)])
           (bakery_inv s ++ [Z.max 0 (bakery_inventory s)])
           (store_inventory s) (hub_inventory s) (bakery_inventory s)
           (total_demand s) (fulfilled_demand s) (stockout_days s).

(** The demand of a day: [max(0, np.random.normal(mean, std))]. *)
Definition draw_demand : M Qc :=
  x <- normal (of_int store_demand_mean) store_demand_std ;;
  ret (py_max 0 x).

(** One iteration of the loop of line 53. *)
Definition day_body (day : Z) (s : locals) : M locals :=
  demand <- draw_demand ;;
  s1 <- ret (fulfil demand s) ;;
  s2 <- store_replenishment day s1 ;;
  s3 <- hub_replenishment day s2 ;;
  s4 <- bakery_production day s3 ;;
  ret (record s4).

Fixpoint for_days (days : list Z) (s : locals) : M locals :=
  match days with
  | [] => ret s
  | day :: rest => s' <- day_body day s ;; for_days rest s'
  end.

(** The loop of lines 53-84 from the initial locals. *)
Definition simulate_loop : M locals :=
  for_days (range 0 n_periods) initial.

(** Lines 86-93: what the function returns. *)
Definition aggregate (s : locals) : M (Qc * Qc * Qc * Qc * Qc * Qc) :=
  let store_val := (np_mean (store_inv s) * of_int (h_store ui))%Qc in
  let hub_val :=
    (np_mean (map of_int (hub_inv s)) * of_int (h_hub ui))%Qc in
  let bakery_val :=
    (np_mean (map of_int (bakery_inv s)) * of_int (h_bakery ui))%Qc in
  service_level <- py_div (fulfilled_demand s) (total_demand s) ;;
  stockout_risk <-
    py_div (of_int (stockout_days s)) (of_int n_periods) ;;
  ret (store_val, hub_val, bakery_val,
       service_level, stockout_risk, total_demand s).

Definition simulate_inventory_cost : M (Qc * Qc * Qc * Qc * Qc * Qc) :=
  s <- simulate_loop ;; aggregate s.

End Run.

(** Lines 141-150: one iteration of the scan for the 95% fill rate. *)
Definition consider (store_day : Z) (level cost : Qc)
    (acc : gap_bound * option setting) : gap_bound * option setting :=
  let gap := Qcabs (f64_sub level target_fill) in
  if gap_lt gap (fst acc)
  then (Finite gap,
        Some (mkSetting store_day (level * of_int 100)%Qc cost))
  else acc.

Fixpoint scan (hub_days : Z) (cands : list Z)
    (acc : gap_bound * option setting) : M (gap_bound * option setting) :=
  match cands with
  | [] => ret acc
  | store_day :: rest =>
      r <- simulate_inventory_cost store_day hub_days (lit 2 10) ;;
      let '(s, h, b, level, _, _) := r in
      scan hub_days rest (consider store_day level (s + h + b)%Qc acc)
  end.

(** Lines 137-150. *)
Definition find_best_setting (hub_days : Z)
    : M (gap_bound * option setting) :=
  scan hub_days (range 1 8) (Infinite, None).

End Simulator.

(** ** The chart of the script *)

Section Chart.

Variable draws : nat -> Qc.
Variable ui : sliders.

(** Lines 121-127: the points of the service level against cost chart. *)
Fixpoint chart_points (hub_days : Z) (simulation_points : list Z)
    (costs levels : list Qc) : M (list Qc * list Qc) :=
  match simulation_points with
  | [] => ret (costs, levels)
  | freq :: rest =>
      r <- simulate_inventory_cost draws ui freq hub_days (lit 2 10) ;;
      let '(s, h, b, level, _, _) := r in
      chart_points hub_days rest
        (costs ++ [(s + h + b)%Qc]) (levels ++ [(level * of_int 100)%Qc])
  end.

End Chart.

(** * Vocabulary of the statements *)

(** Slider values at their defaults. *)
Definition demo_sliders : sliders := Build_sliders 20 18 15 1 2 3.

(** The lead time sampled from the deviate [z]. *)
Definition lead_of (lead_var : Qc) (base : Z) (z : Qc) : Z :=
  Z.max 1 (np_round (of_int base + of_int base * lead_var * z)%Qc).

(** The demand of the day whose deviate is [z]. *)
Definition demand_of (z : Qc) : Qc :=
  py_max 0 (of_int store_demand_mean + store_demand_std * z)%Qc.

(** The locals after [qty] moved from the hub to the store. *)
Definition store_moved (qty : Z) (s : locals) : locals :=
  mkLocals (store_inv s) (hub_inv s) (bakery_inv s)
           (store_inventory s + of_int qty)
           (hub_inventory s - qty) (bakery_inventory s)
           (total_demand s) (fulfilled_demand s) (stockout_days s).

(** The locals after [qty] moved from the hub to the store, the level of
    the store in binary64. *)
Definition store_moved_f64 (qty : Z) (s : locals) : locals :=
  mkLocals (store_inv s) (hub_inv s) (bakery_inv s)
           (f64_add (store_inventory s) (b64 (of_int qty)))
           (hub_inventory s - qty) (bakery_inventory s)
           (total_demand s) (fulfilled_demand s) (stockout_days s).

(** The locals after [qty] moved from the bakery to the hub. *)
Definition hub_moved (qty : Z) (s : locals) : locals :=
  mkLocals (store_inv s) (hub_inv s) (bakery_inv s)
           (store_inventory s)
           (hub_inventory s + qty) (bakery_inventory s - qty)
           (total_demand s) (fulfilled_demand s) (stockout_days s).

(** The locals after the bakery produced [qty]. *)
Definition bakery_made (qty : Z) (s : locals) : locals :=
  mkLocals (store_inv s) (hub_inv s) (bakery_inv s)
           (store_inventory s) (hub_inventory s)
           (bakery_inventory s + qty)
           (total_demand s) (fulfilled_demand s) (stockout_days s).

(** The scales handed to [np.random.normal] are not negative. *)
Definition scales_ok (ui : sliders) (lead_var : Qc) : Prop :=
  (0 <= of_int (lt_store ui) * lead_var)%Qc /\
  (0 <= of_int (lt_hub ui) * lead_var)%Qc /\
  (0 <= of_int (lt_bakery ui) * lead_var)%Qc.

(** Deviates under which the hub orders 3 days of demand on day 0 and the
    bakery produces 2: the bakery ends the day at -100. *)
Definition short_bakery_draws (n : nat) : Qc :=
  match n with
  | 2%nat => lit 5 2
  | 3%nat => of_int (-2)
  | _ => 0%Qc
  end.

(** The scales handed to [np.random.normal], computed in binary64, are not
    negative. *)
Definition scales_ok_f64 (ui : sliders) (lead_var : Qc) : Prop :=
  (0 <= f64_mul (b64 (of_int (lt_store ui))) lead_var)%Qc /\
  (0 <= f64_mul (b64 (of_int (lt_hub ui))) lead_var)%Qc /\
  (0 <= f64_mul (b64 (of_int (lt_bakery ui))) lead_var)%Qc.

(** Store and hub levels are not negative. *)
Definition nonneg_levels (s : locals) : Prop :=
  (0 <= store_inventory s)%Qc /\ 0 <= hub_inventory s.

(** Every recorded entry is not negative. *)
Definition nonneg_traces (s : locals) : Prop :=
  Forall (fun x => (0 <= x)%Qc) (store_inv s) /\
  Forall (fun x => 0 <= x) (hub_inv s) /\
  Forall (fun x => 0 <= x) (bakery_inv s).

(** A computation that, started at cursor [c], depends on the deviates
    [c .. c + k - 1] only and leaves the cursor within [c .. c + k]. *)
Definition reads {A : Type} (k : nat) (m : (nat -> Qc) -> M A) : Prop :=
  forall d1 d2 c,
    (forall n, (c <= n < c + k)%nat -> d1 n = d2 n) ->
    m d1 c = m d2 c /\
    (forall a c', m d1 c = Ok (a, c') -> (c <= c' <= c + k)%nat).

(** Deviates that are 0 up to the end of one run and 1 afterwards. *)
Definition zero_then_one (n : nat) : Qc :=
  if (n <? 1460)%nat then 0%Qc else 1%Qc.

(** What has been sold is between 0 and what has been asked for. *)
Definition sound_accounts (s : locals) : Prop :=
  (0 <= store_inventory s)%Qc /\
  (0 <= fulfilled_demand s)%Qc /\
  (fulfilled_demand s <= total_demand s)%Qc.

(** Deviates six standard deviations below the mean: every demand is 0. *)
Definition no_demand_draws (n : nat) : Qc := of_int (-6).

(** The distance of a fill rate to the target. *)
Definition gap_of (level : Qc) : Qc := Qcabs (f64_sub level target_fill).

(** The candidates of the scan, in the order of their runs: the interval, the
    fill rate and the total cost of each. *)
Fixpoint sweep (draws : nat -> Qc) (ui : sliders) (hub_days : Z)
    (cands : list Z) : M (list (Z * Qc * Qc)) :=
  match cands with
  | [] => ret []
  | store_day :: rest =>
      r <- simulate_inventory_cost draws ui store_day hub_days (lit 2 10) ;;
      let '(s, h, b, level, _, _) := r in
      rs <- sweep draws ui hub_days rest ;;
      ret ((store_day, level, (s + h + b)%Qc) :: rs)
  end.

(** The scan over candidates that are already computed. *)
Definition choose (rs : list (Z * Qc * Qc))
    (acc : gap_bound * option setting) : gap_bound * option setting :=
  fold_left (fun a r => consider (fst (fst r)) (snd (fst r)) (snd r) a) rs acc.

(** [acc] holds the first candidate of [rs] among those of least gap. *)
Definition first_best (rs : list (Z * Qc * Qc))
    (acc : gap_bound * option setting) : Prop :=
  exists i store_day level cost,
    nth_error rs i = Some (store_day, level, cost) /\
    acc = (Finite (gap_of level),
           Some (mkSetting store_day (level * of_int 100)%Qc cost)) /\
    (forall j dj lj cj,
        nth_error rs j = Some (dj, lj, cj) -> (gap_of level <= gap_of lj)%Qc) /\
    (forall j dj lj cj,
        (j < i)%nat -> nth_error rs j = Some (dj, lj, cj) ->
        (gap_of level < gap_of lj)%Qc).

(** The doubles, overflow left out. *)
Definition is_double (d : Qc) : Prop :=
  exists m q, Z.abs m <= 2 ^ 53 /\ -1074 <= q /\ d = (of_int m * pow2 q)%Qc.

(** The exponent [q] of the grid [m * 2 ^ q] on which [x] is rounded. *)
Definition grid_exponent (x : Qc) : Z :=
  Z.max (ilog2 (Qcabs x) - 52) (-1074).

(** The value of a primitive float of the kernel, a binary64 number. *)
Definition float_value (f : float) : option Q :=
  match Prim2SF f with
  | S754_zero _ => Some 0%Q
  | S754_finite s m e =>
      Some (Qred (Qmult (inject_Z (if s then Zneg m else Zpos m))
                        (Qpower 2 e)))
  | _ => None
  end.

(** The hub and the bakery hold whole lots of [store_demand_mean] units,
    and the hub holds no fewer than 0. *)
Definition whole_lots (s : locals) : Prop :=
  exists hub_lots bakery_lots,
    0 <= hub_lots /\
    hub_inventory s = store_demand_mean * hub_lots /\
    bakery_inventory s = store_demand_mean * bakery_lots.

(** The days of [days] that the interval divides. *)
Definition eligible (interval : Z) (days : list Z) : list Z :=
  filter (fun day => day mod interval =? 0) days.

(** The holding costs are not negative. *)
Definition costs_ok (ui : sliders) : Prop :=
  0 <= h_store ui /\ 0 <= h_hub ui /\ 0 <= h_bakery ui.

(** The ranges of the sliders of lines 28-36. *)
Definition sliders_in_range (ui : sliders) : Prop :=
  1 <= h_store ui <= 100 /\ 1 <= h_hub ui <= 100 /\ 1 <= h_bakery ui <= 100 /\
  1 <= lt_store ui <= 5 /\ 1 <= lt_hub ui <= 7 /\ 1 <= lt_bakery ui <= 10.

(** The run of the candidate at position [k] of [cands] completed without
    any demand, the runs of the candidates before it having returned: the
    cursor [c] is the one before the first run. *)
Definition run_without_demand (draws : nat -> Qc) (ui : sliders)
    (hub_days : Z) (cands : list Z) (c : nat) (k : nat) : Prop :=
  (k < length cands)%nat /\
  exists rs ck s ck',
    sweep draws ui hub_days (firstn k cands) c = Ok (rs, ck) /\
    simulate_loop draws ui (nth k cands 0) hub_days (lit 2 10) ck
    = Ok (s, ck') /\
    total_demand s = 0%Qc.

(** * Properties *)

(** ** Numbers *)

Lemma Qcltb_lt (a b : Qc) : Qcltb a b = true <-> (a < b)%Qc.
Proof.
  unfold Qcltb, Qclt. rewrite negb_true_iff.
  destruct (Qle_bool b a) eqn:E.
  - apply Qle_bool_iff in E. split; [discriminate | intro H; lra].
  - split; [intros _ | reflexivity].
    apply Qnot_le_lt. intro H. apply Qle_bool_iff in H. congruence.
Qed.

Lemma Qcltb_ge (a b : Qc) : Qcltb a b = false <-> (b <= a)%Qc.
Proof.
  unfold Qcltb, Qcle. rewrite negb_false_iff. apply Qle_bool_iff.
Qed.

Lemma Qc_eq_Qeq (a b : Qc) : a = b -> (a == b)%Q.
Proof. intros ->. reflexivity. Qed.

(** Goals on [Qc] are sent to [Q], where [lra] decides them. *)
Ltac qc_to_q :=
  repeat match goal with
         | H : Qcltb _ _ = true |- _ => apply Qcltb_lt in H
         | H : Qcltb _ _ = false |- _ => apply Qcltb_ge in H
         | |- @eq Qc _ _ => apply Qc_is_canon
         | H : @eq Qc _ _ |- _ => apply Qc_eq_Qeq in H
         end;
  unfold Qclt, Qcle, Qcminus, Qcdiv, Qcinv, Qcplus, Qcopp, Qcmult, of_int,
    lit in *;
  cbn [this Q2Qc] in *;
  rewrite ?Qred_correct in *.

Ltac hide_ints :=
  repeat match goal with
         | |- context [inject_Z ?z] =>
             let q := fresh "q" in set (q := inject_Z z) in *; clearbody q
         | H : context [inject_Z ?z] |- _ =>
             let q := fresh "q" in set (q := inject_Z z) in *; clearbody q
         end.

Ltac qc_lra := qc_to_q; first [lra | hide_ints; lra].

(** ** The monad *)

Lemma bind_Ok {A B : Type} (m : M A) (k : A -> M B) (c c' : nat) (a : A) :
  m c = Ok (a, c') -> bind m k c = k a c'.
Proof. unfold bind. intros ->. reflexivity. Qed.

Lemma bind_inv {A B : Type} (m : M A) (k : A -> M B) (c c' : nat) (b : B) :
  bind m k c = Ok (b, c') ->
  exists a c1, m c = Ok (a, c1) /\ k a c1 = Ok (b, c').
Proof.
  unfold bind. destruct (m c) as [[a c1] | e]; [| discriminate].
  intros H. exists a, c1. split; [reflexivity | exact H].
Qed.

Lemma py_mod_Ok (a b : Z) (c : nat) :
  b <> 0 -> py_mod a b c = Ok (a mod b, c).
Proof.
  intros Hb. unfold py_mod. destruct (Z.eqb_spec b 0); [contradiction | reflexivity].
Qed.

(** ** Lead times *)

Lemma leadtime_variation_Ok draws lead_var base c :
  (0 <= of_int base * lead_var)%Qc ->
  leadtime_variation draws lead_var base c
  = Ok (lead_of lead_var base (draws c), S c).
Proof.
  intros Hs. unfold leadtime_variation, normal, bind, ret.
  destruct (Qcltb (of_int base * lead_var) 0) eqn:E.
  - apply Qcltb_lt in E. exfalso. apply (Qcle_not_lt _ _ Hs E).
  - reflexivity.
Qed.

Lemma lead_of_pos lead_var base z : 1 <= lead_of lead_var base z.
Proof. unfold lead_of. apply Z.le_max_l. Qed.

(** ** The three replenishment steps *)

Section Steps.

Variable draws : nat -> Qc.
Variable ui : sliders.
Variables store_days hub_days : Z.
Variable lead_var : Qc.

Lemma store_replenishment_on day s c :
  store_days <> 0 -> day mod store_days = 0 ->
  (0 <= of_int (lt_store ui) * lead_var)%Qc ->
  store_replenishment draws ui store_days lead_var day s c
  = Ok (let qty := store_demand_mean
                   * lead_of lead_var (lt_store ui) (draws c) in
        if hub_inventory s >=? qty then store_moved qty s else s, S c).
Proof.
  intros Hd Hm Hs. unfold store_replenishment.
  rewrite (bind_Ok _ _ _ _ _ (py_mod_Ok day store_days c Hd)).
  rewrite Hm. cbn [Z.eqb].
  rewrite (bind_Ok _ _ _ _ _ (leadtime_variation_Ok draws lead_var _ c Hs)).
  cbv zeta.
  destruct (hub_inventory s >=? _); reflexivity.
Qed.

Lemma store_replenishment_off day s c :
  store_days <> 0 -> day mod store_days <> 0 ->
  store_replenishment draws ui store_days lead_var day s c = Ok (s, c).
Proof.
  intros Hd Hm. unfold store_replenishment.
  rewrite (bind_Ok _ _ _ _ _ (py_mod_Ok day store_days c Hd)).
  destruct (Z.eqb_spec (day mod store_days) 0); [contradiction | reflexivity].
Qed.

Lemma hub_replenishment_on day s c :
  hub_days <> 0 -> day mod hub_days = 0 ->
  (0 <= of_int (lt_hub ui) * lead_var)%Qc ->
  hub_replenishment draws ui hub_days lead_var day s c
  = Ok (hub_moved (store_demand_mean
                   * lead_of lead_var (lt_hub ui) (draws c)) s, S c).
Proof.
  intros Hd Hm Hs. unfold hub_replenishment.
  rewrite (bind_Ok _ _ _ _ _ (py_mod_Ok day hub_days c Hd)).
  rewrite Hm. cbn [Z.eqb].
  rewrite (bind_Ok _ _ _ _ _ (leadtime_variation_Ok draws lead_var _ c Hs)).
  reflexivity.
Qed.

Lemma hub_replenishment_off day s c :
  hub_days <> 0 -> day mod hub_days <> 0 ->
  hub_replenishment draws ui hub_days lead_var day s c = Ok (s, c).
Proof.
  intros Hd Hm. unfold hub_replenishment.
  rewrite (bind_Ok _ _ _ _ _ (py_mod_Ok day hub_days c Hd)).
  destruct (Z.eqb_spec (day mod hub_days) 0); [contradiction | reflexivity].
Qed.

Lemma bakery_production_on day s c :
  hub_days <> 0 -> day mod hub_days = 0 ->
  (0 <= of_int (lt_bakery ui) * lead_var)%Qc ->
  bakery_production draws ui hub_days lead_var day s c
  = Ok (bakery_made (store_demand_mean
                     * lead_of lead_var (lt_bakery ui) (draws c)) s, S c).
Proof.
  intros Hd Hm Hs. unfold bakery_production.
  rewrite (bind_Ok _ _ _ _ _ (py_mod_Ok day hub_days c Hd)).
  rewrite Hm. cbn [Z.eqb].
  rewrite (bind_Ok _ _ _ _ _ (leadtime_variation_Ok draws lead_var _ c Hs)).
  reflexivity.
Qed.

Lemma bakery_production_off day s c :
  hub_days <> 0 -> day mod hub_days <> 0 ->
  bakery_production draws ui hub_days lead_var day s c = Ok (s, c).
Proof.
  intros Hd Hm. unfold bakery_production.
  rewrite (bind_Ok _ _ _ _ _ (py_mod_Ok day hub_days c Hd)).
  destruct (Z.eqb_spec (day mod hub_days) 0); [contradiction | reflexivity].
Qed.

End Steps.

(** ** Store replenishment (C1) *)



(** ** Demand fulfilment (C2) *)

Lemma py_min_spec (a b : Qc) :
  (py_min a b <= a)%Qc /\ (py_min a b <= b)%Qc /\
  (py_min a b = a \/ py_min a b = b).
Proof.
  unfold py_min. destruct (Qcltb b a) eqn:E.
  - apply Qcltb_lt in E. repeat split; [qc_lra | apply Qcle_refl | now right].
  - apply Qcltb_ge in E. repeat split; [apply Qcle_refl | exact E | now left].
Qed.

Lemma py_max_spec (a b : Qc) :
  (a <= py_max a b)%Qc /\ (b <= py_max a b)%Qc /\
  (py_max a b = a \/ py_max a b = b).
Proof.
  unfold py_max. destruct (Qcltb a b) eqn:E.
  - apply Qcltb_lt in E. repeat split; [qc_lra | apply Qcle_refl | now right].
  - apply Qcltb_ge in E. repeat split; [apply Qcle_refl | exact E | now left].
Qed.

Lemma draw_demand_Ok draws c :
  draw_demand draws c = Ok (demand_of (draws c), S c).
Proof. reflexivity. Qed.

Lemma demand_of_nonneg z : (0 <= demand_of z)%Qc.
Proof. unfold demand_of. apply py_max_spec. Qed.


(** ** Hub replenishment and bakery production (C3) *)



(** ** Lead-time sampling (C5) *)

Lemma Qfloor_of_int (n : Z) : Qfloor (of_int n) = n.
Proof.
  unfold of_int. cbn [this Q2Qc].
  rewrite (Qfloor_comp _ _ (Qred_correct (inject_Z n))). apply Qfloor_Z.
Qed.

Lemma np_round_of_int (n : Z) : np_round (of_int n) = n.
Proof.
  unfold np_round. rewrite Qfloor_of_int.
  replace (Qccompare (of_int n - of_int n) (lit 1 2)) with Lt;
    [reflexivity | symmetry; apply (proj1 (Qclt_alt _ _)); qc_lra].
Qed.

(** [np_round] is a rounding to a nearest integer. *)
Lemma np_round_nearest (x : Qc) :
  (of_int (np_round x) - lit 1 2 <= x)%Qc /\
  (x <= of_int (np_round x) + lit 1 2)%Qc.
Proof.
  unfold np_round.
  pose proof (Qfloor_le x) as Hlo. pose proof (Qlt_floor x) as Hhi.
  set (f := Qfloor x) in *.
  assert (Hf1 : (inject_Z (f + 1) == inject_Z f + 1)%Q)
    by (rewrite inject_Z_plus; reflexivity).
  destruct (Qccompare (x - of_int f) (lit 1 2)) eqn:E.
  - apply (proj2 (Qceq_alt _ _)) in E. destruct (Z.even f); split; qc_lra.
  - apply (proj2 (Qclt_alt _ _)) in E. split; qc_lra.
  - apply (proj2 (Qcgt_alt _ _)) in E. split; qc_lra.
Qed.

Example np_round_halves :
  map np_round [lit 1 2; lit 3 2; lit 5 2; lit (-1) 2; lit (-3) 2; lit 7 4]
  = [0; 2; 2; 0; -2; 2].
Proof. vm_compute. reflexivity. Qed.

Lemma zero_scale (base : Z) (z : Qc) :
  (of_int base + of_int base * 0 * z)%Qc = of_int base.
Proof. qc_lra. Qed.

(** ** Powers of two *)

Lemma pow2_Q (k : Z) : (pow2 k == 2 ^ k)%Q.
Proof. unfold pow2. cbn [this Q2Qc]. apply Qred_correct. Qed.

Lemma pow2_pos (k : Z) : (0 < pow2 k)%Qc.
Proof.
  unfold Qclt. rewrite pow2_Q. apply Qpower_0_lt. reflexivity.
Qed.

Lemma pow2_add (a b : Z) : pow2 (a + b) = (pow2 a * pow2 b)%Qc.
Proof.
  apply Qc_is_canon. unfold Qcmult. cbn [this Q2Qc].
  rewrite Qred_correct, !pow2_Q. apply Qpower_plus. discriminate.
Qed.

Lemma pow2_0 : pow2 0 = 1%Qc.
Proof. apply Qc_is_canon. reflexivity. Qed.

Lemma pow2_lt (a b : Z) : a < b -> (pow2 a < pow2 b)%Qc.
Proof.
  intros H. unfold Qclt. rewrite !pow2_Q.
  apply Qpower_lt_compat_l; [exact H | reflexivity].
Qed.

Lemma pow2_le (a b : Z) : a <= b -> (pow2 a <= pow2 b)%Qc.
Proof.
  intros H. unfold Qcle. rewrite !pow2_Q.
  apply Qpower_le_compat_l; [exact H | discriminate].
Qed.

Lemma pow2_lt_inv (a b : Z) : (pow2 a < pow2 b)%Qc -> a < b.
Proof.
  intros H. destruct (Z.lt_ge_cases a b) as [L | G]; [exact L |].
  apply pow2_le in G. exfalso. apply (Qcle_not_lt _ _ G H).
Qed.

Lemma pow2_of_int (k : Z) : 0 <= k -> pow2 k = of_int (2 ^ k).
Proof.
  intros H. apply Qc_is_canon. unfold of_int. cbn [this Q2Qc].
  rewrite Qred_correct, pow2_Q, Zpower_Qpower by exact H. reflexivity.
Qed.

Lemma pow2_inv (k : Z) : (pow2 k * pow2 (- k))%Qc = 1%Qc.
Proof. rewrite <- pow2_add, Z.add_opp_diag_r. apply pow2_0. Qed.

Lemma pow2_nz (k : Z) : pow2 k <> 0%Qc.
Proof.
  intros H. pose proof (pow2_pos k) as P. rewrite H in P.
  apply (Qclt_not_eq _ _ P). reflexivity.
Qed.

Lemma div_pow2 (x : Qc) (k : Z) : (x / pow2 k)%Qc = (x * pow2 (- k))%Qc.
Proof.
  unfold Qcdiv. f_equal.
  pose proof (pow2_inv k) as E. pose proof (pow2_nz k) as N.
  revert E N. generalize (pow2 k) (pow2 (- k)). intros a b E N.
  rewrite <- (Qcmult_1_r (/ a)), <- E, Qcmult_assoc, Qcmult_inv_l by exact N.
  apply Qcmult_1_l.
Qed.

(** ** The binade of a positive number *)

Lemma Qc_as_fraction (x : Qc) :
  (x == inject_Z (Qnum x) / inject_Z (Zpos (Qden x)))%Q.
Proof. destruct x as [[n d] c]. cbn. apply Qmake_Qdiv. Qed.

Lemma ilog2_bounds (x : Qc) :
  (0 < x)%Qc ->
  let k := Z.log2 (Qnum x) - Z.log2 (Zpos (Qden x)) in
  (pow2 (k - 1) < x)%Qc /\ (x < pow2 (k + 1))%Qc.
Proof.
  intros Hx k.
  assert (Hn : 0 < Qnum x).
  { unfold Qclt, Qlt in Hx. cbn in Hx. lia. }
  pose proof (Z.log2_spec _ Hn) as (N1 & N2).
  pose proof (Z.log2_spec (Zpos (Qden x)) ltac:(lia)) as (D1 & D2).
  pose proof (Z.log2_nonneg (Qnum x)) as A0.
  pose proof (Z.log2_nonneg (Zpos (Qden x))) as B0.
  set (a := Z.log2 (Qnum x)) in *. set (b := Z.log2 (Zpos (Qden x))) in *.
  assert (P : forall u v : Z, 0 <= u -> 0 <= v ->
              (pow2 (u - v) == inject_Z (2 ^ u) / inject_Z (2 ^ v))%Q).
  { intros u v Hu Hv. rewrite pow2_Q, !Zpower_Qpower by assumption.
    apply Qpower_minus. discriminate. }
  unfold Qclt. rewrite (Qc_as_fraction x).
  assert (Dp : (0 < inject_Z (Zpos (Qden x)))%Q) by reflexivity.
  split.
  - replace (k - 1) with (a - (b + 1)) by (unfold k; lia).
    rewrite P by lia.
    apply Qlt_shift_div_l; [exact Dp |].
    unfold Qdiv. rewrite <- Qmult_assoc, (Qmult_comm (/ _)), Qmult_assoc.
    apply Qlt_shift_div_r; [rewrite <- (Zlt_Qlt 0); lia |].
    rewrite <- !inject_Z_mult, <- Zlt_Qlt. nia.
  - replace (k + 1) with (a + 1 - b) by (unfold k; lia).
    rewrite P by lia.
    apply Qlt_shift_div_r; [exact Dp |].
    unfold Qdiv. rewrite <- Qmult_assoc, (Qmult_comm (/ _)), Qmult_assoc.
    apply Qlt_shift_div_l; [rewrite <- (Zlt_Qlt 0); lia |].
    rewrite <- !inject_Z_mult, <- Zlt_Qlt. nia.
Qed.

Lemma ilog2_spec (x : Qc) :
  (0 < x)%Qc ->
  (pow2 (ilog2 x) <= x)%Qc /\ (x < pow2 (ilog2 x + 1))%Qc.
Proof.
  intros Hx. destruct (ilog2_bounds x Hx) as (L & U).
  unfold ilog2.
  destruct (Qcltb x (pow2 (Z.log2 (Qnum x) - Z.log2 (Z.pos (Qden x)))))
    eqn:E.
  - apply Qcltb_lt in E. split; [apply Qclt_le_weak; exact L |].
    replace (_ - 1 + 1) with (Z.log2 (Qnum x) - Z.log2 (Z.pos (Qden x)))
      by lia.
    exact E.
  - apply Qcltb_ge in E. split; [exact E | exact U].
Qed.

(** ** Rounding to an integer *)

Lemma of_int_le_1 (a b : Z) : a + 1 <= b -> (1 <= of_int b - of_int a)%Qc.
Proof.
  intros H. unfold Qcle, Qcminus, Qcplus, Qcopp, of_int. cbn [this Q2Qc].
  rewrite !Qred_correct, <- inject_Z_opp, <- inject_Z_plus.
  change 1%Q with (inject_Z 1). rewrite <- Zle_Qle. lia.
Qed.

Lemma Qcabs_cases (x : Qc) :
  ((0 <= x)%Qc /\ Qcabs x = x) \/ ((x <= 0)%Qc /\ Qcabs x = (- x)%Qc).
Proof.
  destruct (Qclt_le_dec x 0) as [L | G].
  - right. apply Qclt_le_weak in L. split; [exact L | apply Qcabs_neg; exact L].
  - left. split; [exact G | apply Qcabs_pos; exact G].
Qed.

Lemma np_round_half (y : Qc) :
  (Qcabs (of_int (np_round y) - y) <= lit 1 2)%Qc.
Proof.
  destruct (np_round_nearest y) as (L & U).
  apply Qcabs_Qcle_condition. split; qc_lra.
Qed.

Lemma np_round_tie_even (y : Qc) :
  Qcabs (of_int (np_round y) - y) = lit 1 2 -> Z.even (np_round y) = true.
Proof.
  unfold np_round.
  pose proof (Qfloor_le y) as Hlo. pose proof (Qlt_floor y) as Hhi.
  set (f := Qfloor y) in *.
  assert (Hf1 : (inject_Z (f + 1) == inject_Z f + 1)%Q)
    by (rewrite inject_Z_plus; reflexivity).
  destruct (Qccompare (y - of_int f) (lit 1 2)) eqn:E.
  - intros _. destruct (Z.even f) eqn:Ev; [exact Ev |].
    rewrite Z.even_add, Ev. reflexivity.
  - apply (proj2 (Qclt_alt _ _)) in E. intros H.
    destruct (Qcabs_cases (of_int f - y)) as [(S & A) | (S & A)];
      rewrite A in H; exfalso; qc_lra.
  - apply (proj2 (Qcgt_alt _ _)) in E. intros H.
    destruct (Qcabs_cases (of_int (f + 1) - y)) as [(S & A) | (S & A)];
      rewrite A in H; exfalso; qc_lra.
Qed.

(** No integer is nearer than the rounded one. *)
Lemma np_round_best (y : Qc) (k : Z) :
  (Qcabs (of_int (np_round y) - y) <= Qcabs (of_int k - y))%Qc.
Proof.
  pose proof (np_round_half y) as H.
  set (m := np_round y) in *.
  destruct (Z.eq_dec k m) as [-> | N]; [apply Qcle_refl |].
  apply (Qcle_trans _ _ _ H).
  assert (D : (1 <= Qcabs (of_int k - of_int m))%Qc).
  { destruct (Z.lt_ge_cases k m) as [L | G].
    - rewrite Qcabs_Qcminus.
      apply (Qcle_trans _ (of_int m - of_int k)); [| apply Qcle_Qcabs].
      pose proof (of_int_le_1 k m) as P. apply P. lia.
    - apply (Qcle_trans _ (of_int k - of_int m)); [| apply Qcle_Qcabs].
      pose proof (of_int_le_1 m k) as P. apply P. lia. }
  pose proof (Qcabs_triangle (of_int k - y) (y - of_int m)) as T.
  replace (of_int k - y + (y - of_int m))%Qc with (of_int k - of_int m)%Qc
    in T by ring.
  rewrite (Qcabs_Qcminus y) in T.
  revert H D T.
  generalize (Qcabs (of_int m - y)) (Qcabs (of_int k - y))
             (Qcabs (of_int k - of_int m)).
  intros a b d H D T. qc_lra.
Qed.

(** ** Binary64 rounding *)

Lemma of_int_mul (a b : Z) : of_int (a * b) = (of_int a * of_int b)%Qc.
Proof.
  apply Qc_is_canon. unfold of_int, Qcmult. cbn [this Q2Qc].
  rewrite !Qred_correct. rewrite inject_Z_mult. reflexivity.
Qed.

Lemma of_int_opp (a : Z) : of_int (- a) = (- of_int a)%Qc.
Proof.
  apply Qc_is_canon. unfold of_int, Qcopp. cbn [this Q2Qc].
  rewrite !Qred_correct. rewrite inject_Z_opp. reflexivity.
Qed.

Lemma of_int_lt_inv (a b : Z) : (of_int a < of_int b)%Qc -> a < b.
Proof.
  unfold Qclt, of_int. cbn [this Q2Qc]. rewrite !Qred_correct.
  rewrite <- Zlt_Qlt. auto.
Qed.

Lemma of_int_add (a b : Z) : of_int (a + b) = (of_int a + of_int b)%Qc.
Proof.
  apply Qc_is_canon. unfold of_int, Qcplus. cbn [this Q2Qc].
  rewrite !Qred_correct. rewrite inject_Z_plus. reflexivity.
Qed.

Lemma of_int_add_1 (a : Z) : of_int (a + 1) = (of_int a + 1)%Qc.
Proof. apply of_int_add. Qed.

Lemma of_int_le_Z (a b : Z) : a <= b -> (of_int a <= of_int b)%Qc.
Proof.
  intros H. unfold Qcle, of_int. cbn [this Q2Qc].
  rewrite !Qred_correct. rewrite <- Zle_Qle. exact H.
Qed.

Lemma of_int_le_0 (a : Z) : 0 <= a -> (0 <= of_int a)%Qc.
Proof.
  intros H. unfold Qcle, of_int. cbn [this Q2Qc]. rewrite !Qred_correct.
  change 0%Q with (inject_Z 0). rewrite <- Zle_Qle. exact H.
Qed.

Lemma of_int_le_neg (a : Z) : a <= 0 -> (of_int a <= 0)%Qc.
Proof.
  intros H. unfold Qcle, of_int. cbn [this Q2Qc]. rewrite !Qred_correct.
  change 0%Q with (inject_Z 0). rewrite <- Zle_Qle. exact H.
Qed.

Lemma of_int_abs (a : Z) : Qcabs (of_int a) = of_int (Z.abs a).
Proof.
  destruct (Z.abs_spec a) as [(H & ->) | (H & ->)].
  - apply Qcabs_pos. apply (of_int_le_0 a H).
  - rewrite of_int_opp. apply Qcabs_neg.
    apply (of_int_le_neg a). lia.
Qed.

Lemma undo_div_pow2 (x : Qc) (q : Z) : (x / pow2 q * pow2 q)%Qc = x.
Proof.
  rewrite div_pow2, <- Qcmult_assoc, (Qcmult_comm (pow2 (- q))), pow2_inv.
  apply Qcmult_1_r.
Qed.

Lemma Qcabs_pow2 (q : Z) : Qcabs (pow2 q) = pow2 q.
Proof. apply Qcabs_pos. apply Qclt_le_weak. apply pow2_pos. Qed.

Lemma Qcmult_le_pos_r (a b c : Qc) :
  (0 <= c)%Qc -> (a <= b)%Qc -> (a * c <= b * c)%Qc.
Proof. intros Hc H. apply Qcmult_le_compat_r; assumption. Qed.

(** The distance from [x] to the point [k * 2^q] of the grid of step
    [2^q], in units of that step. *)
Lemma grid_distance (x : Qc) (q k : Z) :
  Qcabs (of_int k * pow2 q - x)
  = (Qcabs (of_int k - x / pow2 q) * pow2 q)%Qc.
Proof.
  transitivity (Qcabs ((of_int k - x / pow2 q) * pow2 q)).
  - f_equal. rewrite <- (undo_div_pow2 x q) at 1. ring.
  - rewrite Qcabs_Qcmult, Qcabs_pow2. reflexivity.
Qed.

Lemma b64_zero : b64 0 = 0%Qc.
Proof. reflexivity. Qed.

Lemma b64_unfold (x : Qc) :
  x <> 0%Qc ->
  b64 x = (of_int (np_round (x / pow2 (grid_exponent x)))
           * pow2 (grid_exponent x))%Qc.
Proof.
  intros H. unfold b64, Qc_eq_bool.
  destruct (Qc_eq_dec x 0); [contradiction | reflexivity].
Qed.

Lemma Qcabs_pos_nz (x : Qc) : x <> 0%Qc -> (0 < Qcabs x)%Qc.
Proof.
  intros H. destruct (Qcle_lt_or_eq _ _ (Qcabs_nonneg x)) as [L | E];
    [exact L |].
  symmetry in E. apply Qcabs_null in E. contradiction.
Qed.

Lemma mantissa_bounds (x : Qc) (e q m : Z) :
  (pow2 e <= Qcabs x)%Qc -> (Qcabs x < pow2 (e + 1))%Qc ->
  (Qcabs (of_int m - x / pow2 q) <= lit 1 2)%Qc ->
  e - 52 <= q ->
  Z.abs m <= 2 ^ 53 /\ (q = e - 52 -> 2 ^ 52 <= Z.abs m).
Proof.
  intros L U Hh Hq.
  assert (Ey : Qcabs (x / pow2 q) = (Qcabs x * pow2 (- q))%Qc).
  { rewrite div_pow2, Qcabs_Qcmult, Qcabs_pow2. reflexivity. }
  revert Hh Ey. generalize (x / pow2 q)%Qc. intros y Hh Ey.
  pose proof (Qcabs_triangle (of_int m - y) y) as T1.
  replace (of_int m - y + y)%Qc with (of_int m) in T1 by ring.
  pose proof (Qcabs_triangle (y - of_int m) (of_int m)) as T2.
  replace (y - of_int m + of_int m)%Qc with y in T2 by ring.
  rewrite (Qcabs_Qcminus y) in T2.
  rewrite of_int_abs in T1, T2. rewrite Ey in T1, T2.
  split.
  - assert (B : (Qcabs x * pow2 (- q) < pow2 53)%Qc).
    { apply (Qclt_le_trans _ (pow2 (e + 1) * pow2 (- q))).
      - apply Qcmult_lt_compat_r; [apply pow2_pos | exact U].
      - rewrite <- pow2_add. apply pow2_le. lia. }
    assert (C : (of_int (Z.abs m) < pow2 53 + 1)%Qc).
    { revert Hh T1 B.
      generalize (Qcabs (of_int m - y)) (Qcabs x * pow2 (- q))%Qc
                 (of_int (Z.abs m)) (pow2 53).
      intros a b c d Hh T1 B. qc_lra. }
    rewrite (pow2_of_int 53), <- of_int_add_1 in C by lia.
    apply of_int_lt_inv in C. lia.
  - intros Eq.
    assert (B : (pow2 52 <= Qcabs x * pow2 (- q))%Qc).
    { apply (Qcle_trans _ (pow2 e * pow2 (- q))).
      - rewrite <- pow2_add. apply pow2_le. lia.
      - apply Qcmult_le_compat_r;
          [exact L | apply Qclt_le_weak; apply pow2_pos]. }
    assert (C : (pow2 52 + - (1) < of_int (Z.abs m))%Qc).
    { revert Hh T2 B.
      generalize (Qcabs (of_int m - y)) (Qcabs x * pow2 (- q))%Qc
                 (of_int (Z.abs m)) (pow2 52).
      intros a b c d Hh T2 B. qc_lra. }
    rewrite (pow2_of_int 52) in C by lia.
    change (- (1))%Qc with (of_int (- (1))) in C.
    rewrite <- of_int_add in C.
    apply of_int_lt_inv in C. lia.
Qed.

(** The integer that [b64] rounds to lies within the 53 bits. *)
Lemma b64_mantissa (x : Qc) :
  x <> 0%Qc ->
  Z.abs (np_round (x / pow2 (grid_exponent x))) <= 2 ^ 53 /\
  (grid_exponent x = ilog2 (Qcabs x) - 52 ->
   2 ^ 52 <= Z.abs (np_round (x / pow2 (grid_exponent x)))).
Proof.
  intros Hx.
  destruct (ilog2_spec _ (Qcabs_pos_nz x Hx)) as (L & U).
  apply (mantissa_bounds x (ilog2 (Qcabs x))); try assumption.
  - apply np_round_half.
  - unfold grid_exponent. lia.
Qed.

(** [b64 x] is a double. *)
Lemma b64_is_double (x : Qc) : is_double (b64 x).
Proof.
  destruct (Qc_eq_dec x 0) as [-> | Hx].
  - exists 0, 0. repeat split; try lia.
  - destruct (b64_mantissa x Hx) as (B & _).
    eexists _, _. split; [exact B |]. split; [| apply b64_unfold; exact Hx].
    unfold grid_exponent. lia.
Qed.

(** On the grid of step [2 ^ q], with at least the 53 bits of [x] above
    [q], no double is nearer to [x] than the grid point nearest to it. *)
Lemma nearest_on_grid (x : Qc) (e q m : Z) (d : Qc) :
  (pow2 e <= Qcabs x)%Qc ->
  q = Z.max (e - 52) (-1074) ->
  (forall k, (Qcabs (of_int m * pow2 q - x)
              <= Qcabs (of_int k * pow2 q - x))%Qc) ->
  is_double d ->
  (Qcabs (of_int m * pow2 q - x) <= Qcabs (d - x))%Qc.
Proof.
  intros L Hq G (m' & q' & Hm' & Hq' & ->).
  destruct (Z.le_gt_cases q q') as [Hge | Hlt].
  - replace q' with ((q' - q) + q) by lia.
    rewrite pow2_add, Qcmult_assoc, (pow2_of_int (q' - q)) by lia.
    rewrite <- of_int_mul. apply G.
  - assert (Eq : q = e - 52) by lia.
    assert (Hd : (Qcabs (of_int m' * pow2 q') <= pow2 e)%Qc).
    { rewrite Qcabs_Qcmult, Qcabs_pow2, of_int_abs.
      apply (Qcle_trans _ (of_int (2 ^ 53) * pow2 q')).
      - apply Qcmult_le_compat_r;
          [apply of_int_le_Z; exact Hm'
          | apply Qclt_le_weak; apply pow2_pos].
      - rewrite <- pow2_of_int, <- pow2_add by lia.
        apply pow2_le. lia. }
    assert (Pe : pow2 e = (of_int (2 ^ 52) * pow2 q)%Qc).
    { rewrite <- pow2_of_int, <- pow2_add by lia. f_equal. lia. }
    pose proof (G (2 ^ 52)) as G1. pose proof (G (- 2 ^ 52)) as G2.
    rewrite of_int_opp in G2.
    replace (- of_int (2 ^ 52) * pow2 q)%Qc with (- pow2 e)%Qc in G2
      by (rewrite Pe; ring).
    rewrite <- Pe in G1. clear G Pe.
    pose proof (Qcle_Qcabs (of_int m' * pow2 q')) as T.
    pose proof (Qcle_Qcabs (- (of_int m' * pow2 q'))) as T'.
    rewrite Qcabs_opp in T'.
    pose proof (Qcle_Qcabs (of_int m' * pow2 q' - x)) as D1.
    pose proof (Qcle_Qcabs (- (of_int m' * pow2 q' - x))) as D2.
    rewrite Qcabs_opp in D2.
    revert L Hd G1 G2 T T' D1 D2.
    generalize (of_int m * pow2 q)%Qc (of_int m' * pow2 q')%Qc (pow2 e).
    clear. intros g d p L Hd G1 G2 T T' D1 D2.
    destruct (Qcabs_cases x) as [(S & A) | (S & A)]; rewrite A in L.
    + apply (Qcle_trans _ _ _ G1). clear G1 G2 T' D1 A.
      assert (P : (0 <= x - p)%Qc) by (clear - L; qc_lra).
      rewrite (Qcabs_Qcminus p x), (Qcabs_pos (x - p) P). clear P.
      revert T Hd D2. generalize (Qcabs d) (Qcabs (d - x)).
      intros a b T Hd D2. qc_lra.
    + apply (Qcle_trans _ _ _ G2). clear G1 G2 T D2 A.
      assert (P : (0 <= - p - x)%Qc) by (clear - L; qc_lra).
      rewrite (Qcabs_pos (- p - x) P). clear P.
      revert T' Hd D1. generalize (Qcabs d) (Qcabs (d - x)).
      intros a b T' Hd D1. qc_lra.
Qed.

(** No double is nearer to [x] than [b64 x]. *)
Lemma b64_nearest (x d : Qc) :
  is_double d -> (Qcabs (b64 x - x) <= Qcabs (d - x))%Qc.
Proof.
  intros Hd.
  destruct (Qc_eq_dec x 0) as [-> | Hx].
  - rewrite b64_zero.
    replace (0 - 0)%Qc with 0%Qc by ring. apply Qcabs_nonneg.
  - rewrite (b64_unfold x Hx).
    destruct (ilog2_spec _ (Qcabs_pos_nz x Hx)) as (L & _).
    apply (nearest_on_grid x (ilog2 (Qcabs x))); try assumption;
      [reflexivity |].
    intros k. rewrite !grid_distance.
    apply Qcmult_le_compat_r;
      [apply np_round_best | apply Qclt_le_weak; apply pow2_pos].
Qed.

Lemma Qcmult_cancel (a b c : Qc) :
  c <> 0%Qc -> (a * c)%Qc = (b * c)%Qc -> a = b.
Proof.
  intros Hc H.
  assert (E : ((a - b) * c)%Qc = 0%Qc).
  { replace ((a - b) * c)%Qc with (a * c - b * c)%Qc by ring.
    rewrite H. ring. }
  apply Qcmult_integral in E as [E | E]; [| contradiction].
  rewrite <- (Qcplus_0_l b), <- E. ring.
Qed.

(** Halfway between two neighbours of the grid, the even one is taken. *)
Lemma b64_tie_even (x : Qc) :
  x <> 0%Qc ->
  Qcabs (b64 x - x) = (pow2 (grid_exponent x) * lit 1 2)%Qc ->
  Z.even (np_round (x / pow2 (grid_exponent x))) = true.
Proof.
  intros Hx H. rewrite (b64_unfold x Hx), grid_distance in H.
  apply np_round_tie_even.
  rewrite (Qcmult_comm (pow2 _)) in H.
  apply (Qcmult_cancel _ _ (pow2 (grid_exponent x)));
    [apply pow2_nz | exact H].
Qed.

(** A double is left as it is. *)
Lemma b64_of_double (d : Qc) : is_double d -> b64 d = d.
Proof.
  intros H. pose proof (b64_nearest d d H) as N.
  replace (d - d)%Qc with 0%Qc in N by ring.
  rewrite (Qcabs_pos 0 (Qcle_refl 0)) in N.
  assert (E : Qcabs (b64 d - d) = 0%Qc)
    by (apply Qcle_antisym; [exact N | apply Qcabs_nonneg]).
  apply Qcabs_null in E.
  rewrite <- (Qcplus_0_l d) at 2. rewrite <- E. ring.
Qed.

Lemma int_is_double (n : Z) : Z.abs n <= 2 ^ 53 -> is_double (of_int n).
Proof.
  intros H. exists n, 0. split; [exact H | split; [lia |]].
  rewrite pow2_0. symmetry. apply Qcmult_1_r.
Qed.

(** ** Agreement with the binary64 floats of the kernel *)

(** [b64] and the operations built on it give the values that the
    primitive floats give: the target of the scan, the scale
    [3 * 0.2], the sample [3 + 3 * 0.2 * (-2.5)] and the gaps of the
    fill rates 1.0 and 0.9. *)
Example b64_agrees_target :
  float_value (95 / 100)%float = Some (this (b64 (lit 95 100))).
Proof. vm_compute. reflexivity. Qed.

Example b64_agrees_scale :
  float_value (3 * (2 / 10))%float
  = Some (this (f64_mul (of_int 3) (b64 (lit 2 10)))).
Proof. vm_compute. reflexivity. Qed.

Example b64_agrees_sample :
  float_value (3 + 3 * (2 / 10) * (-5 / 2))%float
  = Some (this (f64_add (of_int 3)
                  (f64_mul (f64_mul (of_int 3) (b64 (lit 2 10))) (lit (-5) 2)))).
Proof. vm_compute. reflexivity. Qed.

Example b64_agrees_gaps :
  float_value (abs (1 - 95 / 100))%float
  = Some (this (Qcabs (f64_sub 1 (b64 (lit 95 100))))) /\
  float_value (abs (9 / 10 - 95 / 100))%float
  = Some (this (Qcabs (f64_sub (b64 (lit 9 10)) (b64 (lit 95 100))))).
Proof. split; vm_compute; reflexivity. Qed.

Section DayBody.

Variable draws : nat -> Qc.
Variable ui : sliders.
Variables store_days hub_days : Z.
Variable lead_var : Qc.
Hypothesis store_days_nz : store_days <> 0.
Hypothesis hub_days_nz : hub_days <> 0.
Hypothesis scales : scales_ok ui lead_var.

Lemma day_body_unfold day s c :
  day_body draws ui store_days hub_days lead_var day s c
  = (s2 <- store_replenishment draws ui store_days lead_var day
             (fulfil (demand_of (draws c)) s) ;;
     s3 <- hub_replenishment draws ui hub_days lead_var day s2 ;;
     s4 <- bakery_production draws ui hub_days lead_var day s3 ;;
     ret (record s4)) (S c).
Proof. reflexivity. Qed.

(** The day on which both intervals fall reads four deviates: the demand,
    then one for each of the three lead times. *)
Lemma day_body_both day s c :
  day mod store_days = 0 -> day mod hub_days = 0 ->
  day_body draws ui store_days hub_days lead_var day s c
  = Ok (let s1 := fulfil (demand_of (draws c)) s in
        let q1 := store_demand_mean
                  * lead_of lead_var (lt_store ui) (draws (1 + c)%nat) in
        let s2 := if hub_inventory s1 >=? q1 then store_moved q1 s1 else s1 in
        let q2 := store_demand_mean
                  * lead_of lead_var (lt_hub ui) (draws (2 + c)%nat) in
        let q3 := store_demand_mean
                  * lead_of lead_var (lt_bakery ui) (draws (3 + c)%nat) in
        record (bakery_made q3 (hub_moved q2 s2)), (4 + c)%nat).
Proof.
  intros Hs Hh. destruct scales as (S1 & S2 & S3).
  rewrite day_body_unfold.
  rewrite (bind_Ok _ _ _ _ _
             (store_replenishment_on draws ui store_days lead_var day _ _
                store_days_nz Hs S1)).
  rewrite (bind_Ok _ _ _ _ _
             (hub_replenishment_on draws ui hub_days lead_var day _ _
                hub_days_nz Hh S2)).
  rewrite (bind_Ok _ _ _ _ _
             (bakery_production_on draws ui hub_days lead_var day _ _
                hub_days_nz Hh S3)).
  reflexivity.
Qed.

End DayBody.

Lemma leadtime_variation_f64_Ok draws lead_var base c :
  (0 <= f64_mul (b64 (of_int base)) lead_var)%Qc ->
  leadtime_variation_f64 draws lead_var base c
  = Ok (Z.max 1 (np_round
                   (b64 (b64 (of_int base)
                         + b64 (b64 (b64 (of_int base) * lead_var)
                                * draws c)))%Qc),
        S c).
Proof.
  intros Hs. unfold leadtime_variation_f64, normal_f64, bind, ret.
  destruct (Qcltb (f64_mul (b64 (of_int base)) lead_var) 0) eqn:E.
  - apply Qcltb_lt in E. exfalso. apply (Qcle_not_lt _ _ Hs E).
  - reflexivity.
Qed.

Lemma leadtime_variation_f64_fixed draws base c :
  1 <= base <= 2 ^ 53 ->
  leadtime_variation_f64 draws 0%Qc base c = Ok (base, S c).
Proof.
  intros H.
  assert (D : b64 (of_int base) = of_int base)
    by (apply b64_of_double, int_is_double; lia).
  assert (Z0 : f64_mul (b64 (of_int base)) 0 = 0%Qc)
    by (unfold f64_mul; rewrite Qcmult_0_r; reflexivity).
  rewrite leadtime_variation_f64_Ok by (rewrite Z0; apply Qcle_refl).
  rewrite Qcmult_0_r, b64_zero, Qcmult_0_l, b64_zero, Qcplus_0_r, D, D.
  rewrite np_round_of_int. f_equal. f_equal. lia.
Qed.

Lemma py_mod_on {A : Type} (day interval : Z) (k : Z -> M A) (c : nat) :
  interval <> 0 ->
  (r <- py_mod day interval ;; k r) c = k (day mod interval) c.
Proof.
  intros H. unfold bind, py_mod.
  destruct (Z.eqb_spec interval 0) as [E | _]; [contradiction | reflexivity].
Qed.

Section Steps64.

Variable draws : nat -> Qc.
Variable ui : sliders.
Variables store_days hub_days : Z.
Variable lead_var : Qc.
Hypothesis store_days_nz : store_days <> 0.
Hypothesis hub_days_nz : hub_days <> 0.

Lemma store_replenishment_f64_on day s c n :
  day mod store_days = 0 ->
  leadtime_variation_f64 draws lead_var (lt_store ui) c = Ok (n, S c) ->
  store_replenishment_f64 draws ui store_days lead_var day s c
  = Ok (if hub_inventory s >=? store_demand_mean * n
        then store_moved_f64 (store_demand_mean * n) s else s, S c).
Proof.
  intros Hd Hn. unfold store_replenishment_f64.
  rewrite py_mod_on by exact store_days_nz. rewrite Hd. cbn [Z.eqb].
  rewrite (bind_Ok _ _ _ _ _ Hn).
  destruct (hub_inventory s >=? store_demand_mean * n); reflexivity.
Qed.

Lemma hub_replenishment_f64_on day s c n :
  day mod hub_days = 0 ->
  leadtime_variation_f64 draws lead_var (lt_hub ui) c = Ok (n, S c) ->
  hub_replenishment_f64 draws ui hub_days lead_var day s c
  = Ok (hub_moved (store_demand_mean * n) s, S c).
Proof.
  intros Hd Hn. unfold hub_replenishment_f64.
  rewrite py_mod_on by exact hub_days_nz. rewrite Hd. cbn [Z.eqb].
  rewrite (bind_Ok _ _ _ _ _ Hn). reflexivity.
Qed.

Lemma bakery_production_f64_on day s c n :
  day mod hub_days = 0 ->
  leadtime_variation_f64 draws lead_var (lt_bakery ui) c = Ok (n, S c) ->
  bakery_production_f64 draws ui hub_days lead_var day s c
  = Ok (bakery_made (store_demand_mean * n) s, S c).
Proof.
  intros Hd Hn. unfold bakery_production_f64.
  rewrite py_mod_on by exact hub_days_nz. rewrite Hd. cbn [Z.eqb].
  rewrite (bind_Ok _ _ _ _ _ Hn). reflexivity.
Qed.

Lemma store_replenishment_f64_off day s c :
  day mod store_days <> 0 ->
  store_replenishment_f64 draws ui store_days lead_var day s c = Ok (s, c).
Proof.
  intros Hd. unfold store_replenishment_f64.
  rewrite py_mod_on by exact store_days_nz.
  destruct (Z.eqb_spec (day mod store_days) 0); [contradiction | reflexivity].
Qed.

Lemma hub_replenishment_f64_off day s c :
  day mod hub_days <> 0 ->
  hub_replenishment_f64 draws ui hub_days lead_var day s c = Ok (s, c).
Proof.
  intros Hd. unfold hub_replenishment_f64.
  rewrite py_mod_on by exact hub_days_nz.
  destruct (Z.eqb_spec (day mod hub_days) 0); [contradiction | reflexivity].
Qed.

Lemma bakery_production_f64_off day s c :
  day mod hub_days <> 0 ->
  bakery_production_f64 draws ui hub_days lead_var day s c = Ok (s, c).
Proof.
  intros Hd. unfold bakery_production_f64.
  rewrite py_mod_on by exact hub_days_nz.
  destruct (Z.eqb_spec (day mod hub_days) 0); [contradiction | reflexivity].
Qed.

End Steps64.

(** C5. Line 51 in binary64: the sample is [max(1, round(x))] where [x] is
    [base + (base * lead_var) * z] for the next deviate [z] of the generator,
    each product and the sum rounded to the nearest double, and [round] goes
    to the nearest integer, halves to the even one.  The sample is an integer
    that is at least 1 and takes one deviate; a negative scale is refused
    with [ValueError].  With [lead_var = 0] it is the
    base itself, for every base from 1 to 2^53; the sliders stop at 10.
    With [lead_var = 0.2] and the deviate -2.5 the base 3 gives 1: the
    product [3 * 0.2] is rounded above 0.6 and the sum below 1.5.  Each of
    the three replenishment steps draws its own sample on a day on which its
    interval falls, from three successive deviates when both intervals
    fall, and draws nothing on any other day. *)
Theorem leadtime_variation_sample :
  forall draws lead_var,
    (forall base c,
        (0 <= b64 (b64 (of_int base) * lead_var))%Qc ->
        leadtime_variation_f64 draws lead_var base c
        = Ok (Z.max 1 (np_round
                         (b64 (b64 (of_int base)
                               + b64 (b64 (b64 (of_int base) * lead_var)
                                      * draws c)))%Qc),
              S c)) /\
    (forall x : Qc,
        is_double (b64 x) /\
        (forall d, is_double d ->
                   (Qcabs (b64 x - x) <= Qcabs (d - x))%Qc) /\
        (x <> 0%Qc ->
         Qcabs (b64 x - x) = (pow2 (grid_exponent x) * lit 1 2)%Qc ->
         exists m, b64 x = (of_int m * pow2 (grid_exponent x))%Qc /\
                   Z.even m = true)) /\
    (forall x : Qc,
        (Qcabs (of_int (np_round x) - x) <= lit 1 2)%Qc /\
        (forall k, (Qcabs (of_int (np_round x) - x)
                    <= Qcabs (of_int k - x))%Qc) /\
        (Qcabs (of_int (np_round x) - x) = lit 1 2 ->
         Z.even (np_round x) = true)) /\
    (forall base c,
        (b64 (b64 (of_int base) * lead_var) < 0)%Qc ->
        leadtime_variation_f64 draws lead_var base c = Raise ValueError) /\
    (forall base c n c',
        leadtime_variation_f64 draws lead_var base c = Ok (n, c') ->
        1 <= n /\ c' = S c) /\
    (forall base c,
        1 <= base <= 2 ^ 53 ->
        leadtime_variation_f64 draws 0%Qc base c = Ok (base, S c)) /\
    (forall c,
        draws c = lit (-5) 2 ->
        b64 (b64 (of_int 3) * b64 (lit 2 10))
        = lit 5404319552844596 9007199254740992 /\
        b64 (b64 (of_int 3)
             + b64 (b64 (b64 (of_int 3) * b64 (lit 2 10)) * draws c))
        = lit 6755399441055743 4503599627370496 /\
        leadtime_variation_f64 draws (b64 (lit 2 10)) 3 c = Ok (1, S c)) /\
    (forall ui store_days hub_days day s c,
        store_days <> 0 -> hub_days <> 0 -> scales_ok_f64 ui lead_var ->
        day mod store_days = 0 -> day mod hub_days = 0 ->
        exists to_store to_hub made,
          leadtime_variation_f64 draws lead_var (lt_store ui) c
          = Ok (to_store, (1 + c)%nat) /\
          leadtime_variation_f64 draws lead_var (lt_hub ui) (1 + c)%nat
          = Ok (to_hub, (2 + c)%nat) /\
          leadtime_variation_f64 draws lead_var (lt_bakery ui) (2 + c)%nat
          = Ok (made, (3 + c)%nat) /\
          let s2 := if hub_inventory s >=? store_demand_mean * to_store
                    then store_moved_f64 (store_demand_mean * to_store) s
                    else s in
          let s3 := hub_moved (store_demand_mean * to_hub) s2 in
          let s4 := bakery_made (store_demand_mean * made) s3 in
          store_replenishment_f64 draws ui store_days lead_var day s c
          = Ok (s2, (1 + c)%nat) /\
          hub_replenishment_f64 draws ui hub_days lead_var day s2 (1 + c)%nat
          = Ok (s3, (2 + c)%nat) /\
          bakery_production_f64 draws ui hub_days lead_var day s3 (2 + c)%nat
          = Ok (s4, (3 + c)%nat)) /\
    (forall ui store_days hub_days day s c,
        store_days <> 0 -> hub_days <> 0 ->
        (day mod store_days <> 0 ->
         store_replenishment_f64 draws ui store_days lead_var day s c
         = Ok (s, c)) /\
        (day mod hub_days <> 0 ->
         hub_replenishment_f64 draws ui hub_days lead_var day s c
         = Ok (s, c) /\
         bakery_production_f64 draws ui hub_days lead_var day s c
         = Ok (s, c))).
Proof.
  intros draws lead_var. repeat apply conj.
  - intros base c H. apply leadtime_variation_f64_Ok. exact H.
  - intros x. split; [apply b64_is_double | split].
    + intros d Hd. apply b64_nearest. exact Hd.
    + intros Hx Ht. eexists. split; [apply b64_unfold; exact Hx |].
      apply b64_tie_even; assumption.
  - intros x. split; [apply np_round_half | split].
    + apply np_round_best.
    + apply np_round_tie_even.
  - intros base c H. apply Qcltb_lt in H.
    unfold leadtime_variation_f64, normal_f64, bind, f64_mul.
    rewrite H. reflexivity.
  - intros base c n c' H.
    unfold leadtime_variation_f64, normal_f64, bind, ret in H.
    destruct (Qcltb (f64_mul (b64 (of_int base)) lead_var) 0);
      [discriminate |].
    injection H as <- <-. split; [apply Z.le_max_l | reflexivity].
  - intros base c Hb. apply leadtime_variation_f64_fixed. exact Hb.
  - intros c Hz. split; [| split].
    + apply Qc_is_canon. vm_compute. reflexivity.
    + rewrite Hz. apply Qc_is_canon. vm_compute. reflexivity.
    + rewrite leadtime_variation_f64_Ok by (vm_compute; discriminate).
      rewrite Hz. vm_compute. reflexivity.
  - intros ui store_days hub_days day s c Hs Hh (S1 & S2 & S3) Ms Mh.
    pose proof (leadtime_variation_f64_Ok draws lead_var (lt_store ui) c S1)
      as E1.
    pose proof (leadtime_variation_f64_Ok draws lead_var (lt_hub ui)
                  (1 + c)%nat S2) as E2.
    pose proof (leadtime_variation_f64_Ok draws lead_var (lt_bakery ui)
                  (2 + c)%nat S3) as E3.
    eexists _, _, _.
    split; [exact E1 | split; [exact E2 | split; [exact E3 |]]].
    cbv zeta. split; [| split].
    + apply (store_replenishment_f64_on draws ui store_days lead_var Hs
               day s c _ Ms E1).
    + apply (hub_replenishment_f64_on draws ui hub_days lead_var Hh
               day _ _ _ Mh E2).
    + apply (bakery_production_f64_on draws ui hub_days lead_var Hh
               day _ _ _ Mh E3).
  - intros ui store_days hub_days day s c Hs Hh. split; intros Hd.
    + apply store_replenishment_f64_off; assumption.
    + split; [apply hub_replenishment_f64_off
             | apply bakery_production_f64_off]; assumption.
Qed.

(** ** What a step can return *)

Section Cases.

Variable draws : nat -> Qc.
Variable ui : sliders.
Variables store_days hub_days : Z.
Variable lead_var : Qc.

Lemma leadtime_variation_inv base c n c' :
  leadtime_variation draws lead_var base c = Ok (n, c') ->
  n = lead_of lead_var base (draws c) /\ c' = S c.
Proof.
  unfold leadtime_variation, normal, bind, ret.
  destruct (Qcltb (of_int base * lead_var) 0); [discriminate |].
  intros H. injection H as <- <-. split; reflexivity.
Qed.

Lemma py_mod_inv a b c r c' :
  py_mod a b c = Ok (r, c') -> b <> 0 /\ r = a mod b /\ c' = c.
Proof.
  unfold py_mod. destruct (Z.eqb_spec b 0); [discriminate |].
  unfold ret. intros H. injection H as <- <-. auto.
Qed.

Lemma store_replenishment_cases day s c s' c' :
  store_replenishment draws ui store_days lead_var day s c = Ok (s', c') ->
  (s' = s /\ (c' = c \/ c' = S c)) \/
  (exists qty, store_demand_mean <= qty /\ qty <= hub_inventory s /\
               s' = store_moved qty s /\ c' = S c).
Proof.
  unfold store_replenishment. intros H.
  apply bind_inv in H as (r & c1 & Hr & H).
  apply py_mod_inv in Hr as (_ & -> & ->).
  destruct (day mod store_days =? 0).
  - apply bind_inv in H as (n & c2 & Hn & H).
    apply leadtime_variation_inv in Hn as (-> & ->).
    pose proof (lead_of_pos lead_var (lt_store ui) (draws c)) as Hp.
    destruct (Z.geb_spec (hub_inventory s)
                (store_demand_mean * lead_of lead_var (lt_store ui) (draws c)));
      unfold ret in H; injection H as <- <-.
    + right.
      exists (store_demand_mean * lead_of lead_var (lt_store ui) (draws c)).
      split; [unfold store_demand_mean; lia | auto].
    + left. auto.
  - unfold ret in H. injection H as <- <-. left. auto.
Qed.

Lemma hub_replenishment_cases day s c s' c' :
  hub_replenishment draws ui hub_days lead_var day s c = Ok (s', c') ->
  (s' = s /\ c' = c) \/
  (exists qty, store_demand_mean <= qty /\ s' = hub_moved qty s /\ c' = S c).
Proof.
  unfold hub_replenishment. intros H.
  apply bind_inv in H as (r & c1 & Hr & H).
  apply py_mod_inv in Hr as (_ & -> & ->).
  destruct (day mod hub_days =? 0).
  - apply bind_inv in H as (n & c2 & Hn & H).
    apply leadtime_variation_inv in Hn as (-> & ->).
    pose proof (lead_of_pos lead_var (lt_hub ui) (draws c)) as Hp.
    unfold ret in H; injection H as <- <-.
    right.
    exists (store_demand_mean * lead_of lead_var (lt_hub ui) (draws c)).
    split; [unfold store_demand_mean; lia | auto].
  - unfold ret in H. injection H as <- <-. left. auto.
Qed.

Lemma bakery_production_cases day s c s' c' :
  bakery_production draws ui hub_days lead_var day s c = Ok (s', c') ->
  (s' = s /\ c' = c) \/
  (exists qty, store_demand_mean <= qty /\ s' = bakery_made qty s /\ c' = S c).
Proof.
  unfold bakery_production. intros H.
  apply bind_inv in H as (r & c1 & Hr & H).
  apply py_mod_inv in Hr as (_ & -> & ->).
  destruct (day mod hub_days =? 0).
  - apply bind_inv in H as (n & c2 & Hn & H).
    apply leadtime_variation_inv in Hn as (-> & ->).
    pose proof (lead_of_pos lead_var (lt_bakery ui) (draws c)) as Hp.
    unfold ret in H; injection H as <- <-.
    right.
    exists (store_demand_mean * lead_of lead_var (lt_bakery ui) (draws c)).
    split; [unfold store_demand_mean; lia | auto].
  - unfold ret in H. injection H as <- <-. left. auto.
Qed.

(** A day that returns went through the four steps and the recording. *)
Lemma day_body_inv day s c s' c' :
  day_body draws ui store_days hub_days lead_var day s c = Ok (s', c') ->
  exists s2 c2 s3 c3 s4,
    store_replenishment draws ui store_days lead_var day
      (fulfil (demand_of (draws c)) s) (S c) = Ok (s2, c2) /\
    hub_replenishment draws ui hub_days lead_var day s2 c2 = Ok (s3, c3) /\
    bakery_production draws ui hub_days lead_var day s3 c3 = Ok (s4, c') /\
    s' = record s4.
Proof.
  intros H. change (day_body draws ui store_days hub_days lead_var day s c)
    with ((s2 <- store_replenishment draws ui store_days lead_var day
                   (fulfil (demand_of (draws c)) s) ;;
           s3 <- hub_replenishment draws ui hub_days lead_var day s2 ;;
           s4 <- bakery_production draws ui hub_days lead_var day s3 ;;
           ret (record s4)) (S c)) in H.
  apply bind_inv in H as (s2 & c2 & H2 & H).
  apply bind_inv in H as (s3 & c3 & H3 & H).
  apply bind_inv in H as (s4 & c4 & H4 & H).
  unfold ret in H. injection H as <- <-.
  exists s2, c2, s3, c3, s4. auto.
Qed.

(** A property of the locals that the four steps and the recording keep is
    kept by every day and by the loop. *)
Lemma for_days_preserves (P : locals -> Prop) :
  (forall demand s, (0 <= demand)%Qc -> P s -> P (fulfil demand s)) ->
  (forall qty s, store_demand_mean <= qty -> qty <= hub_inventory s ->
                 P s -> P (store_moved qty s)) ->
  (forall qty s, store_demand_mean <= qty -> P s -> P (hub_moved qty s)) ->
  (forall qty s, store_demand_mean <= qty -> P s -> P (bakery_made qty s)) ->
  (forall s, P s -> P (record s)) ->
  forall days s c s' c',
    P s ->
    for_days draws ui store_days hub_days lead_var days s c = Ok (s', c') ->
    P s'.
Proof.
  intros Hf Hs Hh Hb Hr days.
  induction days as [| day rest IH]; intros s c s' c' Ps H.
  - cbn in H. unfold ret in H. injection H as <- <-. exact Ps.
  - cbn [for_days] in H. apply bind_inv in H as (s1 & c1 & Hd & H).
    apply (IH s1 c1 s' c'); [| exact H].
    apply day_body_inv in Hd as (s2 & c2 & s3 & c3 & s4 & H2 & H3 & H4 & ->).
    apply Hr.
    apply bakery_production_cases in H4 as [(-> & _) | (q & Hq & -> & _)];
      [| apply Hb; [exact Hq |]];
      (apply hub_replenishment_cases in H3 as [(-> & _) | (q3 & Hq3 & -> & _)];
       [| apply Hh; [exact Hq3 |]]);
      (apply store_replenishment_cases in H2
         as [(-> & _) | (q2 & Hq2 & Hle & -> & _)];
       [| apply Hs; [exact Hq2 | exact Hle |]]);
      (apply Hf; [apply demand_of_nonneg | exact Ps]).
Qed.

End Cases.

(** ** Levels and traces (C4, C10) *)

Lemma of_int_le (a b : Z) : a <= b -> (of_int a <= of_int b)%Qc.
Proof.
  intros H. unfold Qcle, of_int. cbn [this Q2Qc].
  rewrite !Qred_correct. rewrite <- Zle_Qle. exact H.
Qed.

Lemma of_int_nonneg (a : Z) : 0 <= a -> (0 <= of_int a)%Qc.
Proof. intros H. apply (of_int_le 0 a H). Qed.

Lemma fulfil_levels demand s : nonneg_levels s -> nonneg_levels (fulfil demand s).
Proof.
  intros (Hs & Hh). split; [| exact Hh].
  cbn [fulfil store_inventory].
  destruct (py_min_spec (store_inventory s) demand) as (H1 & _).
  qc_lra.
Qed.

Lemma store_moved_levels qty s :
  store_demand_mean <= qty -> qty <= hub_inventory s ->
  nonneg_levels s -> nonneg_levels (store_moved qty s).
Proof.
  intros Hq Hle (Hs & Hh). split; cbn [store_moved store_inventory hub_inventory].
  - assert (H0 : (0 <= of_int qty)%Qc)
      by (apply of_int_nonneg; unfold store_demand_mean in Hq; lia).
    revert Hs H0. generalize (of_int qty) (store_inventory s).
    intros a b Hb Ha. qc_lra.
  - lia.
Qed.

Lemma hub_moved_levels qty s :
  store_demand_mean <= qty -> nonneg_levels s -> nonneg_levels (hub_moved qty s).
Proof.
  intros Hq (Hs & Hh). split; [exact Hs |].
  cbn [hub_moved hub_inventory]. unfold store_demand_mean in Hq. lia.
Qed.

Lemma bakery_made_levels qty s :
  store_demand_mean <= qty -> nonneg_levels s ->
  nonneg_levels (bakery_made qty s).
Proof. intros _ H. exact H. Qed.

Lemma record_levels s : nonneg_levels s -> nonneg_levels (record s).
Proof. intros H. exact H. Qed.

Lemma initial_levels : nonneg_levels initial.
Proof. split; [apply Qcle_refl | reflexivity]. Qed.

Lemma for_days_levels draws ui store_days hub_days lead_var days s c s' c' :
  nonneg_levels s ->
  for_days draws ui store_days hub_days lead_var days s c = Ok (s', c') ->
  nonneg_levels s'.
Proof.
  apply (for_days_preserves draws ui store_days hub_days lead_var nonneg_levels).
  - intros demand s0 _. apply fulfil_levels.
  - apply store_moved_levels.
  - apply hub_moved_levels.
  - apply bakery_made_levels.
  - apply record_levels.
Qed.

Lemma record_traces s : nonneg_traces s -> nonneg_traces (record s).
Proof.
  intros (H1 & H2 & H3).
  repeat split; cbn [record store_inv hub_inv bakery_inv];
    apply Forall_app; split; try assumption;
    constructor; try constructor.
  - apply py_max_spec.
  - apply Z.le_max_l.
  - apply Z.le_max_l.
Qed.

Lemma initial_traces : nonneg_traces initial.
Proof. repeat split; constructor. Qed.

Lemma for_days_traces draws ui store_days hub_days lead_var days s c s' c' :
  nonneg_traces s ->
  for_days draws ui store_days hub_days lead_var days s c = Ok (s', c') ->
  nonneg_traces s'.
Proof.
  apply (for_days_preserves draws ui store_days hub_days lead_var nonneg_traces);
    try (intros; assumption).
  apply record_traces.
Qed.

(** C4. The floor is in the recording and nowhere else: [record] appends
    [max(0, level)] of each tier, which is the level itself when the level
    is at least 0 and is 0 when it is not, and returns the three levels as
    they were, so every entry of every trace is at least 0 whatever the run,
    while the day that follows starts from the levels that were not
    floored.  In the run shown the bakery ends day 0 at -100 with 0
    recorded, and on day 7 the arithmetic goes on from -100: the level comes
    to 0, where a floored level would have come to 100. *)
Theorem floor_only_in_traces :
  (forall s,
      store_inv (record s) = store_inv s ++ [py_max 0 (store_inventory s)] /\
      hub_inv (record s) = hub_inv s ++ [Z.max 0 (hub_inventory s)] /\
      bakery_inv (record s) = bakery_inv s ++ [Z.max 0 (bakery_inventory s)] /\
      ((0 <= store_inventory s)%Qc ->
       py_max 0 (store_inventory s) = store_inventory s) /\
      ((store_inventory s <= 0)%Qc ->
       py_max 0 (store_inventory s) = 0%Qc) /\
      (0 <= hub_inventory s -> Z.max 0 (hub_inventory s) = hub_inventory s) /\
      (hub_inventory s <= 0 -> Z.max 0 (hub_inventory s) = 0) /\
      (0 <= bakery_inventory s ->
       Z.max 0 (bakery_inventory s) = bakery_inventory s) /\
      (bakery_inventory s <= 0 -> Z.max 0 (bakery_inventory s) = 0) /\
      (0 <= py_max 0 (store_inventory s))%Qc /\
      0 <= Z.max 0 (hub_inventory s) /\
      0 <= Z.max 0 (bakery_inventory s) /\
      store_inventory (record s) = store_inventory s /\
      hub_inventory (record s) = hub_inventory s /\
      bakery_inventory (record s) = bakery_inventory s) /\
  (forall draws ui store_days hub_days lead_var days c s c',
      for_days draws ui store_days hub_days lead_var days initial c
      = Ok (s, c') ->
      Forall (fun x => (0 <= x)%Qc) (store_inv s) /\
      Forall (fun x => 0 <= x) (hub_inv s) /\
      Forall (fun x => 0 <= x) (bakery_inv s)) /\
  (forall draws ui store_days hub_days lead_var day rest s c s1 c1,
      day_body draws ui store_days hub_days lead_var day s c = Ok (s1, c1) ->
      (exists s4, s1 = record s4 /\
                  bakery_inventory s1 = bakery_inventory s4 /\
                  hub_inventory s1 = hub_inventory s4 /\
                  store_inventory s1 = store_inventory s4) /\
      for_days draws ui store_days hub_days lead_var (day :: rest) s c
      = for_days draws ui store_days hub_days lead_var rest s1 c1) /\
  (exists s1 c1 s8 c8,
      day_body short_bakery_draws demo_sliders 1 7 (lit 2 10) 0 initial 0%nat
      = Ok (s1, c1) /\
      bakery_inventory s1 = -100 /\ bakery_inv s1 = 0 :: nil /\
      for_days short_bakery_draws demo_sliders 1 7 (lit 2 10) (range 1 8)
        s1 c1 = Ok (s8, c8) /\
      bakery_inventory s8 = 0 /\ bakery_inv s8 = repeat 0%Z 8).
Proof.
  split; [| split; [| split]].
  - intros s. do 3 (split; [reflexivity |]).
    split.
    { intros H. unfold py_max.
      destruct (Qcltb 0 (store_inventory s)) eqn:E; [reflexivity |].
      apply Qcltb_ge in E. apply Qcle_antisym; assumption. }
    split.
    { intros H. unfold py_max.
      destruct (Qcltb 0 (store_inventory s)) eqn:E; [| reflexivity].
      apply Qcltb_lt in E. destruct (Qcle_not_lt _ _ H E). }
    do 4 (split; [intros H; lia |]).
    split; [apply py_max_spec |].
    do 2 (split; [apply Z.le_max_l |]).
    repeat split.
  - intros draws ui store_days hub_days lead_var days c s c' H.
    apply (for_days_traces _ _ _ _ _ _ _ _ _ _ initial_traces H).
  - intros draws ui store_days hub_days lead_var day rest s c s1 c1 H.
    split.
    + apply day_body_inv in H as (s2 & c2 & s3 & c3 & s4 & _ & _ & _ & ->).
      exists s4. repeat split.
    + cbn [for_days]. apply bind_Ok. exact H.
  - do 4 eexists. split; [vm_compute; reflexivity |].
    split; [reflexivity |]. split; [reflexivity |].
    split; [vm_compute; reflexivity |].
    split; reflexivity.
Qed.

(** C10. The store and hub levels are at least 0 after every update of every
    run: the sale takes at most what the store holds and the store takes
    from the hub only what the hub holds, while the hub and the bakery only
    receive.  The bakery level is the one that can go below 0. *)
Theorem store_and_hub_levels_nonneg :
  (forall demand s, nonneg_levels s -> nonneg_levels (fulfil demand s)) /\
  (forall draws ui store_days lead_var day s c s' c',
      nonneg_levels s ->
      store_replenishment draws ui store_days lead_var day s c = Ok (s', c') ->
      nonneg_levels s') /\
  (forall draws ui hub_days lead_var day s c s' c',
      nonneg_levels s ->
      hub_replenishment draws ui hub_days lead_var day s c = Ok (s', c') ->
      nonneg_levels s') /\
  (forall draws ui hub_days lead_var day s c s' c',
      nonneg_levels s ->
      bakery_production draws ui hub_days lead_var day s c = Ok (s', c') ->
      nonneg_levels s') /\
  (forall s, nonneg_levels s -> nonneg_levels (record s)) /\
  (forall draws ui store_days hub_days lead_var days c s c',
      for_days draws ui store_days hub_days lead_var days initial c
      = Ok (s, c') ->
      (0 <= store_inventory s)%Qc /\ 0 <= hub_inventory s) /\
  (exists s c',
      day_body short_bakery_draws demo_sliders 1 7 (lit 2 10) 0 initial 0%nat
      = Ok (s, c') /\
      bakery_inventory s < 0).
Proof.
  repeat apply conj.
  - apply fulfil_levels.
  - intros draws ui store_days lead_var day s c s' c' Hs H.
    apply store_replenishment_cases in H
      as [(-> & _) | (q & Hq & Hle & -> & _)];
      [exact Hs | apply store_moved_levels; assumption].
  - intros draws ui hub_days lead_var day s c s' c' Hs H.
    apply hub_replenishment_cases in H as [(-> & _) | (q & Hq & -> & _)];
      [exact Hs | apply hub_moved_levels; assumption].
  - intros draws ui hub_days lead_var day s c s' c' Hs H.
    apply bakery_production_cases in H as [(-> & _) | (q & Hq & -> & _)];
      [exact Hs | apply bakery_made_levels; assumption].
  - apply record_levels.
  - intros draws ui store_days hub_days lead_var days c s c' H.
    apply (for_days_levels _ _ _ _ _ _ _ _ _ _ initial_levels H).
  - do 2 eexists. split; [vm_compute; reflexivity | reflexivity].
Qed.

(** ** The deviates a run depends on (C7) *)

Lemma reads_ret {A : Type} (a : A) : reads 0 (fun _ => ret a).
Proof.
  intros d1 d2 c _. split; [reflexivity |].
  unfold ret. intros a' c' H. injection H as <- <-. lia.
Qed.

Lemma reads_weaken {A : Type} (k k' : nat) (m : (nat -> Qc) -> M A) :
  (k <= k')%nat -> reads k m -> reads k' m.
Proof.
  intros Hk Hm d1 d2 c Hd.
  destruct (Hm d1 d2 c) as (E & B); [intros n Hn; apply Hd; lia |].
  split; [exact E |]. intros a c' H. specialize (B a c' H). lia.
Qed.

Lemma reads_bind {A B : Type} (k1 k2 : nat)
    (m : (nat -> Qc) -> M A) (f : A -> (nat -> Qc) -> M B) :
  reads k1 m -> (forall a, reads k2 (f a)) ->
  reads (k1 + k2) (fun d => bind (m d) (fun a => f a d)).
Proof.
  intros Hm Hf d1 d2 c Hd.
  destruct (Hm d1 d2 c) as (E & Bm); [intros n Hn; apply Hd; lia |].
  unfold bind. rewrite <- E.
  destruct (m d1 c) as [[a c1] | e]; [| split; [reflexivity | discriminate]].
  specialize (Bm a c1 eq_refl).
  destruct (Hf a d1 d2 c1) as (E2 & Bf); [intros n Hn; apply Hd; lia |].
  split; [exact E2 |]. intros b c' H. specialize (Bf b c' H). lia.
Qed.

Lemma reads_normal loc scale : reads 1 (fun d => normal d loc scale).
Proof.
  intros d1 d2 c Hd. unfold normal. rewrite (Hd c) by lia.
  split; [reflexivity |].
  destruct (Qcltb scale 0); [discriminate |].
  intros a c' H. injection H as <- <-. lia.
Qed.

Lemma reads_py_mod a b : reads 0 (fun _ => py_mod a b).
Proof.
  intros d1 d2 c _. split; [reflexivity |].
  intros r c' H. apply py_mod_inv in H as (_ & _ & ->). lia.
Qed.

Lemma reads_leadtime_variation lead_var base :
  reads 1 (fun d => leadtime_variation d lead_var base).
Proof.
  unfold leadtime_variation.
  apply (reads_bind 1 0).
  - apply reads_normal.
  - intros x. apply reads_ret.
Qed.

Lemma reads_store_replenishment ui store_days lead_var day s :
  reads 1 (fun d => store_replenishment d ui store_days lead_var day s).
Proof.
  unfold store_replenishment.
  apply (reads_bind 0 1).
  - apply reads_py_mod.
  - intros r. destruct (r =? 0).
    + apply (reads_bind 1 0).
      * apply reads_leadtime_variation.
      * intros l. destruct (_ >=? _); apply reads_ret.
    + apply (reads_weaken 0); [lia | apply reads_ret].
Qed.

Lemma reads_hub_replenishment ui hub_days lead_var day s :
  reads 1 (fun d => hub_replenishment d ui hub_days lead_var day s).
Proof.
  unfold hub_replenishment.
  apply (reads_bind 0 1).
  - apply reads_py_mod.
  - intros r. destruct (r =? 0).
    + apply (reads_bind 1 0).
      * apply reads_leadtime_variation.
      * intros l. apply reads_ret.
    + apply (reads_weaken 0); [lia | apply reads_ret].
Qed.

Lemma reads_bakery_production ui hub_days lead_var day s :
  reads 1 (fun d => bakery_production d ui hub_days lead_var day s).
Proof.
  unfold bakery_production.
  apply (reads_bind 0 1).
  - apply reads_py_mod.
  - intros r. destruct (r =? 0).
    + apply (reads_bind 1 0).
      * apply reads_leadtime_variation.
      * intros l. apply reads_ret.
    + apply (reads_weaken 0); [lia | apply reads_ret].
Qed.

Lemma reads_day_body ui store_days hub_days lead_var day s :
  reads 4 (fun d => day_body d ui store_days hub_days lead_var day s).
Proof.
  unfold day_body, draw_demand.
  apply (reads_bind 1 3).
  - apply (reads_bind 1 0).
    + apply reads_normal.
    + intros x. apply reads_ret.
  - intros demand.
    apply (reads_bind 0 3).
    + apply reads_ret.
    + intros s1.
      apply (reads_bind 1 2).
      * apply reads_store_replenishment.
      * intros s2.
        apply (reads_bind 1 1).
        -- apply reads_hub_replenishment.
        -- intros s3.
           apply (reads_bind 1 0).
           ++ apply reads_bakery_production.
           ++ intros s4. apply reads_ret.
Qed.

Lemma reads_for_days ui store_days hub_days lead_var days :
  forall s,
    reads (4 * length days)
          (fun d => for_days d ui store_days hub_days lead_var days s).
Proof.
  induction days as [| day rest IH]; intros s.
  - apply reads_ret.
  - cbn [for_days length].
    replace (4 * S (length rest))%nat with (4 + 4 * length rest)%nat by lia.
    apply (reads_bind 4 _).
    + apply reads_day_body.
    + exact IH.
Qed.

Lemma for_days_lengths draws ui store_days hub_days lead_var days :
  forall s c s' c',
    for_days draws ui store_days hub_days lead_var days s c = Ok (s', c') ->
    length (store_inv s') = (length (store_inv s) + length days)%nat /\
    length (hub_inv s') = (length (hub_inv s) + length days)%nat /\
    length (bakery_inv s') = (length (bakery_inv s) + length days)%nat.
Proof.
  induction days as [| day rest IH]; intros s c s' c' H.
  - cbn in H. unfold ret in H. injection H as <- <-. cbn. lia.
  - cbn [for_days] in H. apply bind_inv in H as (s1 & c1 & Hd & H).
    apply IH in H. cbn [length].
    apply day_body_inv in Hd as (s2 & c2 & s3 & c3 & s4 & H2 & H3 & H4 & ->).
    apply bakery_production_cases in H4 as [(-> & _) | (q4 & _ & -> & _)];
      apply hub_replenishment_cases in H3 as [(-> & _) | (q3 & _ & -> & _)];
      apply store_replenishment_cases in H2
        as [(-> & _) | (q2 & _ & _ & -> & _)];
      cbn [record store_moved hub_moved bakery_made fulfil
             store_inv hub_inv bakery_inv] in H;
      rewrite !length_app in H; cbn [length] in H; lia.
Qed.

(** C7. The run is a function of its parameters and of the deviates it
    reads: two runs with the same parameters whose generators give the same
    deviates over the 4 * 365 positions from the cursor on end with the same
    locals, traces included, and return the same six values; a run that
    returns has 365 entries in each of its three traces. *)
Theorem simulation_deterministic :
  forall d1 d2 ui store_days hub_days lead_var c,
    (forall n, (c <= n < c + 4 * 365)%nat -> d1 n = d2 n) ->
    simulate_loop d1 ui store_days hub_days lead_var c
    = simulate_loop d2 ui store_days hub_days lead_var c /\
    simulate_inventory_cost d1 ui store_days hub_days lead_var c
    = simulate_inventory_cost d2 ui store_days hub_days lead_var c /\
    (forall s c',
        simulate_loop d1 ui store_days hub_days lead_var c = Ok (s, c') ->
        length (store_inv s) = 365%nat /\
        length (hub_inv s) = 365%nat /\
        length (bakery_inv s) = 365%nat).
Proof.
  intros d1 d2 ui store_days hub_days lead_var c Hd.
  assert (E : simulate_loop d1 ui store_days hub_days lead_var c
              = simulate_loop d2 ui store_days hub_days lead_var c).
  { unfold simulate_loop.
    apply (reads_for_days ui store_days hub_days lead_var
             (range 0 n_periods) initial d1 d2 c).
    exact Hd. }
  split; [exact E | split].
  - unfold simulate_inventory_cost, bind. rewrite E. reflexivity.
  - intros s c' H. unfold simulate_loop in H.
    apply for_days_lengths in H. exact H.
Qed.

Lemma simulation_deterministic_witness :
  simulate_inventory_cost (fun _ => 0%Qc) demo_sliders 1 7 (lit 2 10) 0%nat
  = simulate_inventory_cost zero_then_one demo_sliders 1 7 (lit 2 10) 0%nat.
Proof.
  apply (simulation_deterministic (fun _ => 0%Qc) zero_then_one demo_sliders
           1 7 (lit 2 10) 0%nat).
  intros n Hn. unfold zero_then_one.
  destruct (Nat.ltb_spec n 1460); [reflexivity | lia].
Defined.

(** ** Service metrics (C6) *)

Lemma for_days_app draws ui store_days hub_days lead_var l1 l2 :
  forall s c,
    for_days draws ui store_days hub_days lead_var (l1 ++ l2) s c
    = (s' <- for_days draws ui store_days hub_days lead_var l1 s ;;
       for_days draws ui store_days hub_days lead_var l2 s') c.
Proof.
  induction l1 as [| day rest IH]; intros s c.
  - reflexivity.
  - cbn [app for_days]. unfold bind.
    destruct (day_body draws ui store_days hub_days lead_var day s c)
      as [[s1 c1] | e]; [| reflexivity].
    rewrite IH. reflexivity.
Qed.

Lemma map_seq_from {A : Type} (f : nat -> A) (k m : nat) :
  map f (seq k m) = map (fun i => f (k + i)%nat) (seq 0 m).
Proof.
  revert f k. induction m as [| m IH]; intros f k; [reflexivity |].
  cbn [seq map]. rewrite Nat.add_0_r. f_equal.
  rewrite (IH f (S k)), (IH (fun i => f (k + i)%nat) 1%nat).
  apply map_ext. intros i. f_equal. lia.
Qed.

Lemma range_split (a n b : Z) :
  a <= n < b -> range a b = range a n ++ n :: range (n + 1) b.
Proof.
  intros H. unfold range.
  replace (Z.to_nat (b - a))
    with (Z.to_nat (n - a) + S (Z.to_nat (b - (n + 1))))%nat by lia.
  rewrite seq_app, map_app. f_equal.
  cbn [seq map Nat.add]. f_equal; [lia |].
  rewrite map_seq_from. apply map_ext. intros i. lia.
Qed.

Lemma day_body_accounts draws ui store_days hub_days lead_var day s c s' c' :
  day_body draws ui store_days hub_days lead_var day s c = Ok (s', c') ->
  let s1 := fulfil (demand_of (draws c)) s in
  total_demand s' = total_demand s1 /\
  fulfilled_demand s' = fulfilled_demand s1 /\
  stockout_days s' = stockout_days s1.
Proof.
  intros H.
  apply day_body_inv in H as (s2 & c2 & s3 & c3 & s4 & H2 & H3 & H4 & ->).
  apply bakery_production_cases in H4 as [(-> & _) | (q4 & _ & -> & _)];
    apply hub_replenishment_cases in H3 as [(-> & _) | (q3 & _ & -> & _)];
    apply store_replenishment_cases in H2
      as [(-> & _) | (q2 & _ & _ & -> & _)];
    repeat split.
Qed.

Lemma fulfil_stockouts demand s :
  stockout_days s <= stockout_days (fulfil demand s) <= stockout_days s + 1.
Proof.
  cbn [fulfil stockout_days].
  destruct (Qcltb (store_inventory s) demand); lia.
Qed.

Lemma for_days_stockouts draws ui store_days hub_days lead_var days :
  forall s c s' c',
    for_days draws ui store_days hub_days lead_var days s c = Ok (s', c') ->
    stockout_days s <= stockout_days s'
    <= stockout_days s + Z.of_nat (length days).
Proof.
  induction days as [| day rest IH]; intros s c s' c' H.
  - cbn in H. unfold ret in H. injection H as <- <-. cbn. lia.
  - cbn [for_days] in H. apply bind_inv in H as (s1 & c1 & Hd & H).
    apply IH in H. apply day_body_accounts in Hd as (_ & _ & E).
    pose proof (fulfil_stockouts (demand_of (draws c)) s) as F.
    cbn [length]. lia.
Qed.

Lemma fulfil_accounts demand s :
  (0 <= demand)%Qc -> sound_accounts s -> sound_accounts (fulfil demand s).
Proof.
  intros Hd (Hs & H0 & Hle).
  destruct (py_min_spec (store_inventory s) demand) as (M1 & M2 & M3).
  assert (Hm : (0 <= py_min (store_inventory s) demand)%Qc)
    by (destruct M3 as [-> | ->]; assumption).
  unfold sound_accounts.
  cbn [fulfil store_inventory fulfilled_demand total_demand].
  revert M1 M2 Hm. generalize (py_min (store_inventory s) demand).
  intros m M1 M2 Hm. repeat split; qc_lra.
Qed.

Lemma for_days_accounts draws ui store_days hub_days lead_var days s c s' c' :
  sound_accounts s ->
  for_days draws ui store_days hub_days lead_var days s c = Ok (s', c') ->
  sound_accounts s'.
Proof.
  apply (for_days_preserves draws ui store_days hub_days lead_var
           sound_accounts).
  - apply fulfil_accounts.
  - intros qty s0 Hq _ (Hs & H). split; [| exact H].
    cbn [store_moved store_inventory].
    assert (H0 : (0 <= of_int qty)%Qc)
      by (apply of_int_nonneg; unfold store_demand_mean in Hq; lia).
    revert Hs H0. generalize (of_int qty) (store_inventory s0).
    intros a b Hb Ha. qc_lra.
  - intros qty s0 _ H. exact H.
  - intros qty s0 _ H. exact H.
  - intros s0 H. exact H.
Qed.

Lemma initial_accounts : sound_accounts initial.
Proof. repeat split; apply Qcle_refl. Qed.

Lemma py_div_inv a b c q c' :
  py_div a b c = Ok (q, c') -> b <> 0%Qc /\ q = (a / b)%Qc /\ c' = c.
Proof.
  unfold py_div, Qc_eq_bool.
  destruct (Qc_eq_dec b 0) as [E | N]; [discriminate |].
  unfold ret. intros H. injection H as <- <-. auto.
Qed.

Lemma aggregate_inv ui s c sv hv bv level risk total c' :
  aggregate ui s c = Ok (sv, hv, bv, level, risk, total, c') ->
  total_demand s <> 0%Qc /\
  level = (fulfilled_demand s / total_demand s)%Qc /\
  risk = (of_int (stockout_days s) / of_int n_periods)%Qc /\
  total = total_demand s.
Proof.
  unfold aggregate. intros H.
  apply bind_inv in H as (l & c1 & Hl & H).
  apply bind_inv in H as (r & c2 & Hr & H).
  apply py_div_inv in Hl as (Hn & -> & ->).
  apply py_div_inv in Hr as (_ & -> & ->).
  unfold ret in H. injection H as <- <- <- <- <- <- <-. auto.
Qed.

Lemma Qcdiv_unit_interval (a b : Qc) :
  (0 <= a)%Qc -> (a <= b)%Qc -> (0 < b)%Qc ->
  (0 <= a / b)%Qc /\ (a / b <= 1)%Qc.
Proof.
  intros H0 Hle Hb. qc_to_q. split.
  - apply Qmult_le_0_compat; [exact H0 |].
    apply Qinv_le_0_compat. lra.
  - apply (Qle_shift_div_r a b 1); lra.
Qed.

Lemma of_int_inj (a b : Z) : of_int a = of_int b -> a = b.
Proof.
  unfold of_int. intros H. apply Q2Qc_eq_iff in H.
  apply inject_Z_injective. exact H.
Qed.

Lemma Qcdiv_zero (a b : Qc) : b <> 0%Qc -> (a / b)%Qc = 0%Qc -> a = 0%Qc.
Proof.
  intros Hb H. rewrite <- (Qcmult_div_r a b Hb), H. apply Qcmult_0_r.
Qed.

Lemma of_int_365_nz : of_int n_periods <> 0%Qc.
Proof. intros H. apply (of_int_inj n_periods 0) in H. discriminate. Qed.

(** C6. A run that returns had a positive total demand and returns a fill
    rate and a stockout risk that both lie between 0 and 1; and when the
    returned stockout risk is 0, on no day of the run was the store
    inventory below the demand at the test that precedes the sale. *)
Theorem service_metrics_bounds :
  forall draws ui store_days hub_days lead_var c
         store_val hub_val bakery_val service_level stockout_risk total c',
    simulate_inventory_cost draws ui store_days hub_days lead_var c
    = Ok (store_val, hub_val, bakery_val, service_level, stockout_risk,
          total, c') ->
    (0 < total)%Qc /\
    ((0 <= service_level)%Qc /\ (service_level <= 1)%Qc) /\
    ((0 <= stockout_risk)%Qc /\ (stockout_risk <= 1)%Qc) /\
    (stockout_risk = 0%Qc ->
     forall day s_day c_day,
       0 <= day < n_periods ->
       for_days draws ui store_days hub_days lead_var (range 0 day) initial c
       = Ok (s_day, c_day) ->
       ~ (store_inventory s_day < demand_of (draws c_day))%Qc).
Proof.
  intros draws ui store_days hub_days lead_var c
         sv hv bv level risk total c' H.
  unfold simulate_inventory_cost in H.
  apply bind_inv in H as (s & c1 & Hloop & H).
  apply aggregate_inv in H as (Hnz & -> & -> & ->).
  unfold simulate_loop in Hloop.
  pose proof (for_days_accounts _ _ _ _ _ _ _ _ _ _ initial_accounts Hloop)
    as (_ & Hf & Hle).
  pose proof (for_days_stockouts _ _ _ _ _ _ _ _ _ _ Hloop) as Hs.
  change (stockout_days initial) with 0 in Hs.
  change (Z.of_nat (length (range 0 n_periods))) with n_periods in Hs.
  assert (Hpos : (0 < total_demand s)%Qc).
  { destruct (Qcle_lt_or_eq 0 (total_demand s)) as [L | E].
    - apply (Qcle_trans _ _ _ Hf Hle).
    - exact L.
    - congruence. }
  split; [exact Hpos |]. split; [| split].
  - apply Qcdiv_unit_interval; assumption.
  - apply Qcdiv_unit_interval.
    + apply of_int_nonneg. lia.
    + apply of_int_le. lia.
    + vm_compute. reflexivity.
  - intros Hrisk day s_day c_day Hday Hpre Hshort.
    apply (Qcdiv_zero _ _ of_int_365_nz) in Hrisk.
    apply (of_int_inj _ 0) in Hrisk.
    rewrite (range_split 0 day n_periods Hday), for_days_app in Hloop.
    rewrite (bind_Ok _ _ _ _ _ Hpre) in Hloop.
    cbn [for_days] in Hloop.
    apply bind_inv in Hloop as (s1 & c2 & Hd & Hrest).
    apply day_body_accounts in Hd as (_ & _ & E).
    apply for_days_stockouts in Hpre. apply for_days_stockouts in Hrest.
    change (stockout_days initial) with 0 in Hpre.
    apply Qcltb_lt in Hshort.
    cbn [fulfil stockout_days] in E. rewrite Hshort in E. lia.
Qed.

Lemma service_metrics_bounds_witness :
  exists store_val hub_val bakery_val service_level stockout_risk total c',
    simulate_inventory_cost (fun _ => 0%Qc) demo_sliders 1 7 (lit 2 10) 0%nat
    = Ok (store_val, hub_val, bakery_val, service_level, stockout_risk,
          total, c') /\
    (0 < total)%Qc /\
    ((0 <= service_level)%Qc /\ (service_level <= 1)%Qc) /\
    ((0 <= stockout_risk)%Qc /\ (stockout_risk <= 1)%Qc).
Proof.
  assert (E : { r | simulate_inventory_cost (fun _ => 0%Qc) demo_sliders 1 7
                      (lit 2 10) 0%nat = Ok r })
    by (vm_compute; eexists; reflexivity).
  destruct E as [[[[[[[sv hv] bv] level] risk] total] c'] E].
  exists sv, hv, bv, level, risk, total, c'.
  split; [exact E |].
  destruct (service_metrics_bounds _ _ _ _ _ _ _ _ _ _ _ _ _ E)
    as (H1 & H2 & H3 & _).
  auto.
Defined.

(** ** The division of the fill rate (C8) *)

Section Totality.

Variable draws : nat -> Qc.
Variable ui : sliders.
Variables store_days hub_days : Z.
Variable lead_var : Qc.
Hypothesis store_days_nz : store_days <> 0.
Hypothesis hub_days_nz : hub_days <> 0.
Hypothesis scales : scales_ok ui lead_var.

Lemma day_body_total day s c :
  exists s' c', day_body draws ui store_days hub_days lead_var day s c
                = Ok (s', c').
Proof.
  destruct scales as (S1 & S2 & S3).
  rewrite day_body_unfold.
  destruct (Z.eq_dec (day mod store_days) 0) as [Ms | Ms];
    [rewrite (bind_Ok _ _ _ _ _
                (store_replenishment_on draws ui store_days lead_var day _ _
                   store_days_nz Ms S1))
    | rewrite (bind_Ok _ _ _ _ _
                 (store_replenishment_off draws ui store_days lead_var day _ _
                    store_days_nz Ms))];
    (destruct (Z.eq_dec (day mod hub_days) 0) as [Mh | Mh];
     [rewrite (bind_Ok _ _ _ _ _
                 (hub_replenishment_on draws ui hub_days lead_var day _ _
                    hub_days_nz Mh S2));
      rewrite (bind_Ok _ _ _ _ _
                 (bakery_production_on draws ui hub_days lead_var day _ _
                    hub_days_nz Mh S3))
     | rewrite (bind_Ok _ _ _ _ _
                  (hub_replenishment_off draws ui hub_days lead_var day _ _
                     hub_days_nz Mh));
       rewrite (bind_Ok _ _ _ _ _
                  (bakery_production_off draws ui hub_days lead_var day _ _
                     hub_days_nz Mh))]);
    do 2 eexists; reflexivity.
Qed.

Lemma for_days_total days :
  forall s c, exists s' c',
    for_days draws ui store_days hub_days lead_var days s c = Ok (s', c').
Proof.
  induction days as [| day rest IH]; intros s c.
  - exists s, c. reflexivity.
  - destruct (day_body_total day s c) as (s1 & c1 & H1).
    destruct (IH s1 c1) as (s' & c' & H').
    exists s', c'. cbn [for_days].
    rewrite (bind_Ok _ _ _ _ _ H1). exact H'.
Qed.

End Totality.

Lemma for_days_total_demand draws ui store_days hub_days lead_var days s c s' c' :
  for_days draws ui store_days hub_days lead_var days s c = Ok (s', c') ->
  (total_demand s <= total_demand s')%Qc.
Proof.
  apply (for_days_preserves draws ui store_days hub_days lead_var
           (fun x => (total_demand s <= total_demand x)%Qc));
    try (intros; assumption).
  - intros demand x Hd Hx. cbn [fulfil total_demand].
    revert Hx. generalize (total_demand s) (total_demand x).
    intros a b Hx. qc_lra.
  - apply Qcle_refl.
Qed.

Lemma aggregate_zero ui s c :
  total_demand s = 0%Qc -> aggregate ui s c = Raise ZeroDivisionError.
Proof.
  intros H. unfold aggregate, bind, py_div. rewrite H. reflexivity.
Qed.

Lemma aggregate_nonzero ui s c :
  total_demand s <> 0%Qc ->
  exists store_val hub_val bakery_val stockout_risk,
    aggregate ui s c
    = Ok (store_val, hub_val, bakery_val,
          (fulfilled_demand s / total_demand s)%Qc, stockout_risk,
          total_demand s, c).
Proof.
  intros H. unfold aggregate, bind, py_div, Qc_eq_bool.
  destruct (Qc_eq_dec (total_demand s) 0) as [E | _]; [contradiction |].
  destruct (Qc_eq_dec (of_int n_periods) 0) as [E | _];
    [destruct (of_int_365_nz E) |].
  unfold ret. do 4 eexists. reflexivity.
Qed.

(** C8, as the code has it.  With intervals other than 0 and scales that are
    not negative the loop completes, and the call raises
    [ZeroDivisionError] exactly when the total demand of the whole run is 0;
    a run in which the demand of at least one day is positive has a
    positive total demand and returns the fill rate
    [fulfilled_demand / total_demand].  There is no guard: with a total
    demand of 0 the division raises and nothing is returned. *)
Theorem fill_rate_division :
  forall draws ui store_days hub_days lead_var c,
    store_days <> 0 -> hub_days <> 0 -> scales_ok ui lead_var ->
    exists s c',
      simulate_loop draws ui store_days hub_days lead_var c = Ok (s, c') /\
      (total_demand s = 0%Qc <->
       simulate_inventory_cost draws ui store_days hub_days lead_var c
       = Raise ZeroDivisionError) /\
      (total_demand s <> 0%Qc ->
       exists store_val hub_val bakery_val stockout_risk,
         simulate_inventory_cost draws ui store_days hub_days lead_var c
         = Ok (store_val, hub_val, bakery_val,
               (fulfilled_demand s / total_demand s)%Qc, stockout_risk,
               total_demand s, c')) /\
      (forall day s_day c_day,
          0 <= day < n_periods ->
          for_days draws ui store_days hub_days lead_var (range 0 day)
            initial c = Ok (s_day, c_day) ->
          (0 < demand_of (draws c_day))%Qc ->
          (0 < total_demand s)%Qc).
Proof.
  intros draws ui store_days hub_days lead_var c Hs Hh Hsc.
  destruct (for_days_total draws ui store_days hub_days lead_var Hs Hh Hsc
              (range 0 n_periods) initial c) as (s & c' & Hloop).
  exists s, c'. fold (simulate_loop draws ui store_days hub_days lead_var c)
    in Hloop.
  split; [exact Hloop |].
  unfold simulate_inventory_cost. rewrite (bind_Ok _ _ _ _ _ Hloop).
  split; [| split].
  - split.
    + apply aggregate_zero.
    + intros H. destruct (Qc_eq_dec (total_demand s) 0) as [E | N];
        [exact E |].
      destruct (aggregate_nonzero ui s c' N) as (a & b & d & e & E).
      congruence.
  - apply aggregate_nonzero.
  - intros day s_day c_day Hday Hpre Hpos.
    unfold simulate_loop in Hloop.
    rewrite (range_split 0 day n_periods Hday), for_days_app in Hloop.
    rewrite (bind_Ok _ _ _ _ _ Hpre) in Hloop.
    cbn [for_days] in Hloop.
    apply bind_inv in Hloop as (s1 & c2 & Hd & Hrest).
    apply day_body_accounts in Hd as (E & _ & _).
    apply for_days_total_demand in Hpre.
    apply for_days_total_demand in Hrest.
    cbn [fulfil total_demand] in E. rewrite E in Hrest.
    change (total_demand initial) with 0%Qc in Hpre.
    revert Hpre Hrest Hpos.
    generalize (total_demand s_day) (demand_of (draws c_day)) (total_demand s).
    intros a b d Ha Hd Hb. qc_lra.
Qed.

Lemma fill_rate_division_witness :
  exists s c',
    simulate_loop (fun _ => 0%Qc) demo_sliders 1 7 (lit 2 10) 0%nat
    = Ok (s, c') /\
    (total_demand s <> 0%Qc ->
     exists store_val hub_val bakery_val stockout_risk,
       simulate_inventory_cost (fun _ => 0%Qc) demo_sliders 1 7 (lit 2 10)
         0%nat
       = Ok (store_val, hub_val, bakery_val,
             (fulfilled_demand s / total_demand s)%Qc, stockout_risk,
             total_demand s, c')).
Proof.
  destruct (fill_rate_division (fun _ => 0%Qc) demo_sliders 1 7 (lit 2 10)
              0%nat) as (s & c' & H1 & _ & H3 & _).
  - discriminate.
  - discriminate.
  - repeat split; vm_compute; discriminate.
  - exists s, c'. split; [exact H1 | exact H3].
Defined.

(** C8 as stated fails: when no day has a positive demand the total demand
    is 0 and the call raises [ZeroDivisionError]; no fill rate of 1 and no
    flag comes back. *)
Lemma fill_rate_unguarded :
  (exists s c',
      simulate_loop no_demand_draws demo_sliders 1 7 (lit 2 10) 0%nat
      = Ok (s, c') /\ total_demand s = 0%Qc) /\
  simulate_inventory_cost no_demand_draws demo_sliders 1 7 (lit 2 10) 0%nat
  = Raise ZeroDivisionError.
Proof.
  split.
  - assert (E : { r | simulate_loop no_demand_draws demo_sliders 1 7
                        (lit 2 10) 0%nat = Ok r })
      by (vm_compute; eexists; reflexivity).
    destruct E as [[s c'] E]. exists s, c'. split; [exact E |].
    assert (Z : total_demand s = 0%Qc \/ total_demand s <> 0%Qc)
      by (destruct (Qc_eq_dec (total_demand s) 0); auto).
    destruct Z as [Z | N]; [exact Z |].
    destruct (aggregate_nonzero demo_sliders s c' N) as (a & b & d & e & A).
    assert (R : simulate_inventory_cost no_demand_draws demo_sliders 1 7
                  (lit 2 10) 0%nat = Raise ZeroDivisionError)
      by (vm_compute; reflexivity).
    unfold simulate_inventory_cost in R.
    rewrite (bind_Ok _ _ _ _ _ E) in R. congruence.
  - vm_compute. reflexivity.
Qed.

(** ** The scan for the 95% fill rate (C9) *)

Lemma scan_sweep draws ui hub_days cands :
  forall acc c,
    scan draws ui hub_days cands acc c
    = (rs <- sweep draws ui hub_days cands ;; ret (choose rs acc)) c.
Proof.
  induction cands as [| store_day rest IH]; intros acc c.
  - reflexivity.
  - cbn [scan sweep]. unfold bind.
    destruct (simulate_inventory_cost draws ui store_day hub_days (lit 2 10) c)
      as [[[[[[[s h] b] level] risk] total] c1] | e]; [| reflexivity].
    rewrite IH. unfold bind.
    destruct (sweep draws ui hub_days rest c1) as [[rs c2] | e];
      reflexivity.
Qed.

Lemma choose_snoc rs r acc :
  choose (rs ++ [r]) acc
  = consider (fst (fst r)) (snd (fst r)) (snd r) (choose rs acc).
Proof. unfold choose. rewrite fold_left_app. reflexivity. Qed.

Lemma choose_first_best rs :
  rs <> [] -> first_best rs (choose rs (Infinite, None)).
Proof.
  induction rs as [| [[d l] k] rs IH] using rev_ind; [congruence |].
  intros _. rewrite choose_snoc. cbn [fst snd].
  destruct rs as [| r0 rs0].
  - unfold choose, consider. cbn [fold_left fst gap_lt]. fold (gap_of l).
    exists 0%nat, d, l, k. repeat split.
    + intros [| j] dj lj cj H; cbn in H.
      * injection H as <- <- <-. apply Qcle_refl.
      * destruct j; discriminate.
    + intros j dj lj cj Hj. lia.
  - destruct IH as (i & di & li & ki & Hi & Hacc & Hmin & Hfirst);
      [discriminate |].
    set (rs := r0 :: rs0) in *. rewrite Hacc.
    assert (Hlen : (i < length rs)%nat)
      by (apply nth_error_Some; congruence).
    unfold consider. cbn [fst gap_lt]. fold (gap_of l).
    destruct (Qcltb (gap_of l) (gap_of li)) eqn:E.
    + apply Qcltb_lt in E.
      exists (length rs), d, l, k. repeat split.
      * rewrite nth_error_app2, Nat.sub_diag by lia. reflexivity.
      * intros j dj lj cj Hj.
        destruct (Nat.lt_ge_cases j (length rs)) as [Lt | Ge].
        -- rewrite nth_error_app1 in Hj by exact Lt.
           apply Qclt_le_weak.
           apply (Qclt_le_trans _ _ _ E (Hmin j dj lj cj Hj)).
        -- rewrite nth_error_app2 in Hj by exact Ge.
           destruct (j - length rs)%nat as [| m]; cbn in Hj.
           ++ injection Hj as <- <- <-. apply Qcle_refl.
           ++ destruct m; discriminate.
      * intros j dj lj cj Lt Hj.
        rewrite nth_error_app1 in Hj by exact Lt.
        apply (Qclt_le_trans _ _ _ E (Hmin j dj lj cj Hj)).
    + apply Qcltb_ge in E.
      exists i, di, li, ki. repeat split.
      * rewrite nth_error_app1 by exact Hlen. exact Hi.
      * intros j dj lj cj Hj.
        destruct (Nat.lt_ge_cases j (length rs)) as [Lt | Ge].
        -- rewrite nth_error_app1 in Hj by exact Lt.
           apply (Hmin j dj lj cj Hj).
        -- rewrite nth_error_app2 in Hj by exact Ge.
           destruct (j - length rs)%nat as [| m]; cbn in Hj.
           ++ injection Hj as <- <- <-. exact E.
           ++ destruct m; discriminate.
      * intros j dj lj cj Lt Hj.
        rewrite nth_error_app1 in Hj by lia.
        apply (Hfirst j dj lj cj Lt Hj).
Qed.

Lemma sweep_days draws ui hub_days cands :
  forall c rs c',
    sweep draws ui hub_days cands c = Ok (rs, c') ->
    map (fun r => fst (fst r)) rs = cands.
Proof.
  induction cands as [| store_day rest IH]; intros c rs c' H.
  - cbn in H. unfold ret in H. injection H as <- <-. reflexivity.
  - cbn [sweep] in H. apply bind_inv in H as (r & c1 & Hr & H).
    destruct r as [[[[[s h] b] level] risk] total].
    apply bind_inv in H as (rs1 & c2 & Hs & H).
    unfold ret in H. injection H as <- <-.
    cbn [map fst]. f_equal. apply (IH _ _ _ Hs).
Qed.



(** * Further properties of the simulator, the chart and the scan *)

(** ** The shape of a day *)

Lemma store_moved_zero s : store_moved 0 s = s.
Proof.
  destruct s. unfold store_moved. cbn.
  f_equal; [| lia].
  change (of_int 0) with 0%Qc. apply Qcplus_0_r.
Qed.

Lemma hub_moved_zero s : hub_moved 0 s = s.
Proof. destruct s. unfold hub_moved. cbn. f_equal; lia. Qed.

Lemma bakery_made_zero s : bakery_made 0 s = s.
Proof. destruct s. unfold bakery_made. cbn. f_equal; lia. Qed.

Section Shape.

Variable draws : nat -> Qc.
Variable ui : sliders.
Variables store_days hub_days : Z.
Variable lead_var : Qc.

Lemma store_replenishment_lots day s c s' c' :
  store_replenishment draws ui store_days lead_var day s c = Ok (s', c') ->
  exists lots,
    0 <= lots /\
    (lots = 0 \/ store_demand_mean * lots <= hub_inventory s) /\
    s' = store_moved (store_demand_mean * lots) s.
Proof.
  unfold store_replenishment. intros H.
  apply bind_inv in H as (r & c1 & Hr & H).
  apply py_mod_inv in Hr as (_ & -> & ->).
  destruct (day mod store_days =? 0).
  - apply bind_inv in H as (n & c2 & Hn & H).
    apply leadtime_variation_inv in Hn as (-> & ->).
    pose proof (lead_of_pos lead_var (lt_store ui) (draws c)) as Hp.
    destruct (Z.geb_spec (hub_inventory s)
                (store_demand_mean * lead_of lead_var (lt_store ui) (draws c)));
      unfold ret in H; injection H as <- <-.
    + exists (lead_of lead_var (lt_store ui) (draws c)).
      split; [lia | split; [right; assumption | reflexivity]].
    + exists 0. rewrite Z.mul_0_r, store_moved_zero. auto with zarith.
  - unfold ret in H. injection H as <- <-.
    exists 0. rewrite Z.mul_0_r, store_moved_zero. auto with zarith.
Qed.

Lemma hub_replenishment_lots day s c s' c' :
  hub_replenishment draws ui hub_days lead_var day s c = Ok (s', c') ->
  exists lots, 0 <= lots /\ s' = hub_moved (store_demand_mean * lots) s.
Proof.
  unfold hub_replenishment. intros H.
  apply bind_inv in H as (r & c1 & Hr & H).
  apply py_mod_inv in Hr as (_ & -> & ->).
  destruct (day mod hub_days =? 0).
  - apply bind_inv in H as (n & c2 & Hn & H).
    apply leadtime_variation_inv in Hn as (-> & ->).
    pose proof (lead_of_pos lead_var (lt_hub ui) (draws c)) as Hp.
    unfold ret in H; injection H as <- <-.
    exists (lead_of lead_var (lt_hub ui) (draws c)).
    split; [lia | reflexivity].
  - unfold ret in H. injection H as <- <-.
    exists 0. rewrite Z.mul_0_r, hub_moved_zero. auto with zarith.
Qed.

Lemma bakery_production_lots day s c s' c' :
  bakery_production draws ui hub_days lead_var day s c = Ok (s', c') ->
  exists lots, 0 <= lots /\ s' = bakery_made (store_demand_mean * lots) s.
Proof.
  unfold bakery_production. intros H.
  apply bind_inv in H as (r & c1 & Hr & H).
  apply py_mod_inv in Hr as (_ & -> & ->).
  destruct (day mod hub_days =? 0).
  - apply bind_inv in H as (n & c2 & Hn & H).
    apply leadtime_variation_inv in Hn as (-> & ->).
    pose proof (lead_of_pos lead_var (lt_bakery ui) (draws c)) as Hp.
    unfold ret in H; injection H as <- <-.
    exists (lead_of lead_var (lt_bakery ui) (draws c)).
    split; [lia | reflexivity].
  - unfold ret in H. injection H as <- <-.
    exists 0. rewrite Z.mul_0_r, bakery_made_zero. auto with zarith.
Qed.

(** A day that returns sold what it could, moved whole lots of
    [store_demand_mean] between the tiers and recorded the levels. *)
Lemma day_body_shape day s c s' c' :
  day_body draws ui store_days hub_days lead_var day s c = Ok (s', c') ->
  exists to_store to_hub made,
    0 <= to_store /\ 0 <= to_hub /\ 0 <= made /\
    (to_store = 0 \/ store_demand_mean * to_store <= hub_inventory s) /\
    s' = record
           (bakery_made (store_demand_mean * made)
              (hub_moved (store_demand_mean * to_hub)
                 (store_moved (store_demand_mean * to_store)
                    (fulfil (demand_of (draws c)) s)))).
Proof.
  intros H.
  apply day_body_inv in H as (s2 & c2 & s3 & c3 & s4 & H2 & H3 & H4 & ->).
  apply store_replenishment_lots in H2 as (a & Ha & Hle & ->).
  apply hub_replenishment_lots in H3 as (b & Hb & ->).
  apply bakery_production_lots in H4 as (m & Hm & ->).
  exists a, b, m. repeat split; assumption.
Qed.

End Shape.

(** ** The stock of the hub and of the bakery *)

Lemma whole_lots_day draws ui store_days hub_days lead_var day s c s' c' :
  whole_lots s ->
  day_body draws ui store_days hub_days lead_var day s c = Ok (s', c') ->
  whole_lots s'.
Proof.
  intros (h & b & Hh & Eh & Eb) H.
  apply day_body_shape in H as (a & t & m & Ha & Ht & Hm & Hle & ->).
  cbn [record bakery_made hub_moved store_moved fulfil hub_inventory
         bakery_inventory] in *.
  exists (h - a + t), (b - t + m). unfold whole_lots.
  cbn [record bakery_made hub_moved store_moved fulfil hub_inventory
         bakery_inventory].
  rewrite Eh, Eb in *. unfold store_demand_mean in *.
  repeat split; lia.
Qed.

Lemma whole_lots_for_days draws ui store_days hub_days lead_var days :
  forall s c s' c',
    whole_lots s ->
    for_days draws ui store_days hub_days lead_var days s c = Ok (s', c') ->
    whole_lots s'.
Proof.
  induction days as [| day rest IH]; intros s c s' c' Hs H.
  - cbn in H. unfold ret in H. injection H as <- <-. exact Hs.
  - cbn [for_days] in H. apply bind_inv in H as (s1 & c1 & Hd & H).
    apply (IH s1 c1 s' c'); [| exact H].
    apply (whole_lots_day _ _ _ _ _ _ _ _ _ _ Hs Hd).
Qed.

(** X1. The hub and the bakery hold whole lots of [store_demand_mean] = 100
    units.  The sale and the recording leave both levels as they are; the
    store step takes a whole number of lots from the hub, no more than the
    hub holds; the hub step moves a whole number of lots from the bakery to
    the hub; the bakery step adds a whole number of lots to the bakery.  At
    the end of any run both levels are multiples of 100, and the level of
    the hub is not negative. *)
Theorem upstream_whole_lots :
  store_demand_mean = 100 /\
  (forall demand s,
      hub_inventory (fulfil demand s) = hub_inventory s /\
      bakery_inventory (fulfil demand s) = bakery_inventory s) /\
  (forall draws ui store_days lead_var day s c s' c',
      store_replenishment draws ui store_days lead_var day s c = Ok (s', c') ->
      exists lots,
        0 <= lots /\
        (lots = 0 \/ store_demand_mean * lots <= hub_inventory s) /\
        hub_inventory s' = hub_inventory s - store_demand_mean * lots /\
        bakery_inventory s' = bakery_inventory s) /\
  (forall draws ui hub_days lead_var day s c s' c',
      hub_replenishment draws ui hub_days lead_var day s c = Ok (s', c') ->
      exists lots,
        0 <= lots /\
        hub_inventory s' = hub_inventory s + store_demand_mean * lots /\
        bakery_inventory s' = bakery_inventory s - store_demand_mean * lots) /\
  (forall draws ui hub_days lead_var day s c s' c',
      bakery_production draws ui hub_days lead_var day s c = Ok (s', c') ->
      exists lots,
        0 <= lots /\
        hub_inventory s' = hub_inventory s /\
        bakery_inventory s' = bakery_inventory s + store_demand_mean * lots) /\
  (forall s,
      hub_inventory (record s) = hub_inventory s /\
      bakery_inventory (record s) = bakery_inventory s) /\
  (forall draws ui store_days hub_days lead_var days c s c',
      for_days draws ui store_days hub_days lead_var days initial c
      = Ok (s, c') ->
      exists hub_lots bakery_lots,
        0 <= hub_lots /\
        hub_inventory s = 100 * hub_lots /\
        bakery_inventory s = 100 * bakery_lots).
Proof.
  split; [reflexivity |]. split; [intros; split; reflexivity |].
  split; [| split; [| split; [| split; [intros; split; reflexivity |]]]].
  - intros draws ui store_days lead_var day s c s' c' H.
    apply store_replenishment_lots in H as (a & Ha & Hle & ->).
    exists a. repeat split; assumption.
  - intros draws ui hub_days lead_var day s c s' c' H.
    apply hub_replenishment_lots in H as (b & Hb & ->).
    exists b. repeat split; assumption.
  - intros draws ui hub_days lead_var day s c s' c' H.
    apply bakery_production_lots in H as (m & Hm & ->).
    exists m. repeat split; assumption.
  - intros draws ui store_days hub_days lead_var days c s c' H.
    apply whole_lots_for_days in H; [exact H |].
    exists 0, 0. repeat split; lia.
Qed.

(** ** Arguments that make the call raise *)

Lemma range_from_zero : range 0 n_periods = 0 :: range 1 n_periods.
Proof. apply (range_split 0 0 n_periods). unfold n_periods. lia. Qed.

Lemma simulate_first_day_raises draws ui store_days hub_days lead_var c e :
  day_body draws ui store_days hub_days lead_var 0 initial c = Raise e ->
  simulate_inventory_cost draws ui store_days hub_days lead_var c = Raise e.
Proof.
  intros H. unfold simulate_inventory_cost, simulate_loop.
  rewrite range_from_zero. cbn [for_days]. unfold bind. rewrite H.
  reflexivity.
Qed.

Lemma zero_store_interval_day draws ui hub_days lead_var day s c :
  day_body draws ui 0 hub_days lead_var day s c = Raise ZeroDivisionError.
Proof. reflexivity. Qed.

Lemma zero_hub_interval_day draws ui store_days lead_var s c :
  store_days <> 0 ->
  (0 <= of_int (lt_store ui) * lead_var)%Qc ->
  day_body draws ui store_days 0 lead_var 0 s c = Raise ZeroDivisionError.
Proof.
  intros Hs Hsc. rewrite day_body_unfold.
  rewrite (bind_Ok _ _ _ _ _
             (store_replenishment_on draws ui store_days lead_var 0 _ _
                Hs (Z.mod_0_l store_days Hs) Hsc)).
  reflexivity.
Qed.

Lemma lit_scale_nonneg (base : Z) :
  0 <= base -> (0 <= of_int base * lit 2 10)%Qc.
Proof.
  intros H. apply of_int_nonneg in H. revert H.
  generalize (of_int base). intros b H.
  unfold Qcle, Qcmult, lit in *. cbn [this Q2Qc] in *.
  rewrite !Qred_correct. apply Qmult_le_0_compat; [exact H |].
  discriminate.
Qed.

(** X2. An interval of 0 makes the call raise [ZeroDivisionError] on day 0,
    at the [%] of the store step or, when the store interval is not 0, at
    the [%] of the hub step; the scan, which passes the store intervals 1 to
    7 itself, raises in the same way on a hub interval of 0. *)
Theorem zero_interval_raises :
  (forall draws ui hub_days lead_var c,
      simulate_inventory_cost draws ui 0 hub_days lead_var c
      = Raise ZeroDivisionError) /\
  (forall draws ui store_days lead_var c,
      store_days <> 0 ->
      (0 <= of_int (lt_store ui) * lead_var)%Qc ->
      simulate_inventory_cost draws ui store_days 0 lead_var c
      = Raise ZeroDivisionError) /\
  (forall draws ui c,
      0 <= lt_store ui ->
      find_best_setting draws ui 0 c = Raise ZeroDivisionError).
Proof.
  split; [| split].
  - intros draws ui hub_days lead_var c.
    apply simulate_first_day_raises. apply zero_store_interval_day.
  - intros draws ui store_days lead_var c Hs Hsc.
    apply simulate_first_day_raises.
    apply zero_hub_interval_day; assumption.
  - intros draws ui c Hlt. unfold find_best_setting.
    change (range 1 8) with (1 :: range 2 8). cbn [scan]. unfold bind.
    rewrite (simulate_first_day_raises draws ui 1 0 (lit 2 10) c
               ZeroDivisionError); [reflexivity |].
    apply zero_hub_interval_day; [discriminate |].
    apply lit_scale_nonneg. exact Hlt.
Qed.

(** X3. A negative scale is refused by the generator: with a store interval
    other than 0 and a store lead time whose scale [lt_store * lead_var] is
    negative, the call raises [ValueError] on day 0. *)
Theorem negative_scale_raises :
  forall draws ui store_days hub_days lead_var c,
    store_days <> 0 ->
    (of_int (lt_store ui) * lead_var < 0)%Qc ->
    simulate_inventory_cost draws ui store_days hub_days lead_var c
    = Raise ValueError.
Proof.
  intros draws ui store_days hub_days lead_var c Hs Hsc.
  apply simulate_first_day_raises. rewrite day_body_unfold.
  unfold bind at 1. unfold store_replenishment.
  rewrite (bind_Ok _ _ _ _ _ (py_mod_Ok 0 store_days (S c) Hs)).
  rewrite (Z.mod_0_l store_days Hs). cbn [Z.eqb].
  unfold bind, leadtime_variation, bind, normal.
  apply Qcltb_lt in Hsc. rewrite Hsc. reflexivity.
Qed.

Lemma negative_scale_raises_witness :
  simulate_inventory_cost (fun _ => 0%Qc) demo_sliders 1 7 (lit (-1) 10) 0%nat
  = Raise ValueError.
Proof.
  apply (negative_scale_raises (fun _ => 0%Qc) demo_sliders 1 7 (lit (-1) 10)
           0%nat); [discriminate | vm_compute; reflexivity].
Defined.

(** ** The first two days *)

Lemma py_min_empty (d : Qc) : (0 <= d)%Qc -> py_min 0 d = 0%Qc.
Proof.
  intros H. unfold py_min. destruct (Qcltb d 0) eqn:E; [| reflexivity].
  apply Qcltb_lt in E. destruct (Qcle_not_lt _ _ H E).
Qed.

Lemma day_from_empty_store draws ui store_days hub_days lead_var day s c s' c' :
  store_inventory s = 0%Qc ->
  day_body draws ui store_days hub_days lead_var day s c = Ok (s', c') ->
  fulfilled_demand s' = fulfilled_demand s /\
  total_demand s' = (total_demand s + demand_of (draws c))%Qc /\
  stockout_days s'
  = stockout_days s + (if Qcltb 0 (demand_of (draws c)) then 1 else 0) /\
  (hub_inventory s = 0 -> store_inventory s' = 0%Qc).
Proof.
  intros Hs H.
  pose proof (day_body_accounts _ _ _ _ _ _ _ _ _ _ H) as (Et & Ef & Eo).
  cbn [fulfil total_demand fulfilled_demand stockout_days] in Et, Ef, Eo.
  rewrite Hs in Ef, Eo.
  rewrite (py_min_empty _ (demand_of_nonneg (draws c))) in Ef.
  rewrite Qcplus_0_r in Ef.
  split; [exact Ef | split; [exact Et | split]].
  - rewrite Eo. destruct (Qcltb 0 (demand_of (draws c))); lia.
  - intros Hh. apply day_body_shape in H
      as (a & b & m & Ha & _ & _ & Hle & ->).
    cbn [record bakery_made hub_moved store_moved fulfil store_inventory
           hub_inventory] in *.
    assert (a = 0) as ->
      by (destruct Hle as [E | L]; [exact E |];
          unfold store_demand_mean in L; lia).
    rewrite Hs, (py_min_empty _ (demand_of_nonneg (draws c))).
    vm_compute. apply Qc_is_canon. reflexivity.
Qed.

Lemma for_days_deficit draws ui store_days hub_days lead_var days s c s' c' :
  for_days draws ui store_days hub_days lead_var days s c = Ok (s', c') ->
  (total_demand s - fulfilled_demand s
   <= total_demand s' - fulfilled_demand s')%Qc.
Proof.
  apply (for_days_preserves draws ui store_days hub_days lead_var
           (fun x => (total_demand s - fulfilled_demand s
                      <= total_demand x - fulfilled_demand x)%Qc));
    try (intros; assumption).
  - intros demand x _ Hx.
    cbn [fulfil total_demand fulfilled_demand].
    destruct (py_min_spec (store_inventory x) demand) as (_ & M & _).
    revert Hx M.
    generalize (py_min (store_inventory x) demand) (total_demand s)
               (fulfilled_demand s) (total_demand x) (fulfilled_demand x).
    intros m a b t f Hx M. qc_lra.
  - apply Qcle_refl.
Qed.

Lemma of_int_pos (a : Z) : 0 < a -> (0 < of_int a)%Qc.
Proof.
  intros H. unfold Qclt, of_int. cbn [this Q2Qc].
  rewrite !Qred_correct. change 0%Q with (inject_Z 0).
  rewrite <- Zlt_Qlt. exact H.
Qed.

Lemma Qcdiv_pos (a b : Qc) : (0 < a)%Qc -> (0 < b)%Qc -> (0 < a / b)%Qc.
Proof.
  intros Ha Hb. qc_to_q.
  apply Qmult_lt_0_compat; [exact Ha |]. apply Qinv_lt_0_compat. exact Hb.
Qed.

Lemma Qcdiv_lt_one (a b : Qc) : (a < b)%Qc -> (0 < b)%Qc -> (a / b < 1)%Qc.
Proof.
  intros Hab Hb. qc_to_q.
  apply (Qlt_shift_div_r a b 1); lra.
Qed.

(** X4. Nothing is sold on days 0 and 1, whatever the parameters and the
    deviates: the store starts empty, the hub is empty at the store step of
    day 0, and the sale of day 1 comes before its store step.  So a run that
    had demand on one of these two days counts a stockout day there, and
    when it returns its stockout risk is above 0. *)
Theorem first_two_days_unsold :
  forall draws ui store_days hub_days lead_var c s2 c2,
    for_days draws ui store_days hub_days lead_var (range 0 2) initial c
    = Ok (s2, c2) ->
    fulfilled_demand s2 = 0%Qc /\
    ((0 < total_demand s2)%Qc -> 1 <= stockout_days s2) /\
    (forall store_val hub_val bakery_val service_level stockout_risk total c',
        simulate_inventory_cost draws ui store_days hub_days lead_var c
        = Ok (store_val, hub_val, bakery_val, service_level, stockout_risk,
              total, c') ->
        (0 < total_demand s2)%Qc ->
        (0 < stockout_risk)%Qc).
Proof.
  intros draws ui store_days hub_days lead_var c s2 c2 H2.
  pose proof H2 as H.
  change (range 0 2) with [0; 1] in H. cbn [for_days] in H.
  apply bind_inv in H as (s1 & c1 & D0 & H).
  apply bind_inv in H as (s2' & c2' & D1 & H).
  unfold ret in H. injection H as -> ->.
  apply day_from_empty_store in D0 as (F0 & T0 & O0 & S0); [| reflexivity].
  specialize (S0 eq_refl).
  apply day_from_empty_store in D1 as (F1 & T1 & O1 & _); [| exact S0].
  assert (Hf : fulfilled_demand s2 = 0%Qc) by (rewrite F1, F0; reflexivity).
  assert (Hout : (0 < total_demand s2)%Qc -> 1 <= stockout_days s2).
  { intros Hpos. rewrite O1, O0. change (stockout_days initial) with 0.
    destruct (Qcltb 0 (demand_of (draws c))) eqn:E0;
      destruct (Qcltb 0 (demand_of (draws c1))) eqn:E1; try lia.
    exfalso. apply Qcltb_ge in E0. apply Qcltb_ge in E1.
    rewrite T1, T0 in Hpos. change (total_demand initial) with 0%Qc in Hpos.
    revert E0 E1 Hpos.
    generalize (demand_of (draws c)) (demand_of (draws c1)).
    intros d0 d1 E0 E1 Hpos. qc_lra. }
  split; [exact Hf |]. split; [exact Hout |].
  intros sv hv bv level risk total c' Hrun Hpos.
  unfold simulate_inventory_cost in Hrun.
  apply bind_inv in Hrun as (s & c3 & Hloop & Hagg).
  apply aggregate_inv in Hagg as (Hnz & -> & -> & ->).
  unfold simulate_loop in Hloop.
  change (range 0 n_periods) with (range 0 2 ++ range 2 n_periods) in Hloop.
  rewrite for_days_app, (bind_Ok _ _ _ _ _ H2) in Hloop.
  pose proof (for_days_stockouts _ _ _ _ _ _ _ _ _ _ Hloop) as (Hmono & _).
  apply Qcdiv_pos; [| vm_compute; reflexivity].
  apply of_int_pos. specialize (Hout Hpos). lia.
Qed.

Lemma first_two_days_unsold_witness :
  exists s2 c2,
    for_days (fun _ => 0%Qc) demo_sliders 1 7 (lit 2 10) (range 0 2) initial
      0%nat = Ok (s2, c2) /\
    fulfilled_demand s2 = 0%Qc /\ 1 <= stockout_days s2.
Proof.
  assert (E : { r | for_days (fun _ => 0%Qc) demo_sliders 1 7 (lit 2 10)
                      (range 0 2) initial 0%nat = Ok r })
    by (vm_compute; eexists; reflexivity).
  destruct E as [[s2 c2] E]. exists s2, c2. split; [exact E |].
  destruct (first_two_days_unsold _ _ _ _ _ _ _ _ E) as (H & Hs & _).
  split; [exact H |]. apply Hs.
  vm_compute in E. injection E as <- _. vm_compute. reflexivity.
Defined.

(** ** What the traces hold *)

Lemma py_max_nonneg (x : Qc) : (0 <= x)%Qc -> py_max 0 x = x.
Proof.
  intros H. unfold py_max. destruct (Qcltb 0 x) eqn:E; [reflexivity |].
  apply Qcltb_ge in E. apply Qcle_antisym; assumption.
Qed.

Lemma for_days_trace_grows draws ui store_days hub_days lead_var days :
  forall s c s' c',
    for_days draws ui store_days hub_days lead_var days s c = Ok (s', c') ->
    exists ts th tb,
      store_inv s' = store_inv s ++ ts /\
      hub_inv s' = hub_inv s ++ th /\
      bakery_inv s' = bakery_inv s ++ tb.
Proof.
  induction days as [| day rest IH]; intros s c s' c' H.
  - cbn in H. unfold ret in H. injection H as <- <-.
    exists [], [], []. rewrite !app_nil_r. auto.
  - cbn [for_days] in H. apply bind_inv in H as (s1 & c1 & Hd & H).
    apply IH in H as (ts & th & tb & E1 & E2 & E3).
    apply day_body_shape in Hd as (a & b & m & _ & _ & _ & _ & ->).
    cbn [record bakery_made hub_moved store_moved fulfil
           store_inv hub_inv bakery_inv] in E1, E2, E3.
    rewrite <- app_assoc in E1, E2, E3.
    eexists _, _, _. split; [exact E1 | split; [exact E2 | exact E3]].
Qed.

Lemma for_days_last_entry draws ui store_days hub_days lead_var days s c s' c' :
  nonneg_levels s -> days <> [] ->
  for_days draws ui store_days hub_days lead_var days s c = Ok (s', c') ->
  exists ps ph pb,
    store_inv s' = ps ++ [store_inventory s'] /\
    hub_inv s' = ph ++ [hub_inventory s'] /\
    bakery_inv s' = pb ++ [Z.max 0 (bakery_inventory s')].
Proof.
  intros Hlv Hne H.
  pose proof (for_days_levels _ _ _ _ _ _ _ _ _ _ Hlv H) as (L1 & L2).
  destruct days as [| d0 l] using rev_ind; [congruence |]. clear IHl.
  rewrite for_days_app in H. apply bind_inv in H as (s1 & c1 & _ & H).
  cbn [for_days] in H. apply bind_inv in H as (s2 & c2 & Hd & H).
  unfold ret in H. injection H as <- <-.
  apply day_body_inv in Hd as (x2 & y2 & x3 & y3 & s4 & _ & _ & _ & ->).
  cbn [record store_inv hub_inv bakery_inv store_inventory hub_inventory
         bakery_inventory] in *.
  rewrite (py_max_nonneg _ L1), (Z.max_r _ _ L2).
  eexists _, _, _. repeat split.
Qed.

(** X5. The traces of the store and of the hub hold the true levels: in any
    run, the entry of day [i] is the store level, and the hub level, with
    which day [i] ended, the floor changing neither; the entry of the bakery
    trace is the floored level. *)
Theorem store_and_hub_traces_exact :
  forall draws ui store_days hub_days lead_var pre post c s c',
    pre <> [] ->
    for_days draws ui store_days hub_days lead_var (pre ++ post) initial c
    = Ok (s, c') ->
    exists s_pre c_pre,
      for_days draws ui store_days hub_days lead_var pre initial c
      = Ok (s_pre, c_pre) /\
      nth_error (store_inv s) (length pre - 1) = Some (store_inventory s_pre) /\
      nth_error (hub_inv s) (length pre - 1) = Some (hub_inventory s_pre) /\
      nth_error (bakery_inv s) (length pre - 1)
      = Some (Z.max 0 (bakery_inventory s_pre)).
Proof.
  intros draws ui store_days hub_days lead_var pre post c s c' Hne H.
  rewrite for_days_app in H. apply bind_inv in H as (s1 & c1 & Hpre & Hpost).
  exists s1, c1. split; [exact Hpre |].
  pose proof (for_days_lengths _ _ _ _ _ _ _ _ _ _ Hpre) as (N1 & N2 & N3).
  cbn [initial store_inv hub_inv bakery_inv length Nat.add] in N1, N2, N3.
  destruct (for_days_last_entry _ _ _ _ _ _ _ _ _ _ initial_levels Hne Hpre)
    as (ps & ph & pb & E1 & E2 & E3).
  destruct (for_days_trace_grows _ _ _ _ _ _ _ _ _ _ Hpost)
    as (ts & th & tb & G1 & G2 & G3).
  rewrite E1 in N1, G1. rewrite E2 in N2, G2. rewrite E3 in N3, G3.
  rewrite length_app in N1, N2, N3. cbn [length] in N1, N2, N3.
  rewrite G1, G2, G3, <- !app_assoc.
  repeat split.
  - rewrite nth_error_app2 by lia.
    replace (length pre - 1 - length ps)%nat with 0%nat by lia. reflexivity.
  - rewrite nth_error_app2 by lia.
    replace (length pre - 1 - length ph)%nat with 0%nat by lia. reflexivity.
  - rewrite nth_error_app2 by lia.
    replace (length pre - 1 - length pb)%nat with 0%nat by lia. reflexivity.
Qed.

Lemma store_and_hub_traces_exact_witness :
  exists s s_pre,
    nth_error (hub_inv s) 0 = Some (hub_inventory s_pre) /\
    hub_inventory s_pre = 200.
Proof.
  assert (E : { r | for_days (fun _ => 0%Qc) demo_sliders 1 7 (lit 2 10)
                      ([0] ++ [1]) initial 0%nat = Ok r })
    by (vm_compute; eexists; reflexivity).
  destruct E as [[s c'] E].
  destruct (store_and_hub_traces_exact _ _ _ _ _ [0] [1] _ _ _
              ltac:(discriminate) E) as (s1 & c1 & Hpre & _ & Hh & _).
  exists s, s1. split; [exact Hh |].
  vm_compute in Hpre. injection Hpre as <- _. reflexivity.
Defined.

(** ** The deviates a run consumes *)

Section Cursor.

Variable draws : nat -> Qc.
Variable ui : sliders.
Variables store_days hub_days : Z.
Variable lead_var : Qc.

Lemma store_replenishment_cursor day s c s' c' :
  store_replenishment draws ui store_days lead_var day s c = Ok (s', c') ->
  c' = if day mod store_days =? 0 then S c else c.
Proof.
  unfold store_replenishment. intros H.
  apply bind_inv in H as (r & c1 & Hr & H).
  apply py_mod_inv in Hr as (_ & -> & ->).
  destruct (day mod store_days =? 0).
  - apply bind_inv in H as (n & c2 & Hn & H).
    apply leadtime_variation_inv in Hn as (_ & ->).
    destruct (_ >=? _); unfold ret in H; injection H as _ <-; reflexivity.
  - unfold ret in H. injection H as _ <-. reflexivity.
Qed.

Lemma hub_replenishment_cursor day s c s' c' :
  hub_replenishment draws ui hub_days lead_var day s c = Ok (s', c') ->
  c' = if day mod hub_days =? 0 then S c else c.
Proof.
  unfold hub_replenishment. intros H.
  apply bind_inv in H as (r & c1 & Hr & H).
  apply py_mod_inv in Hr as (_ & -> & ->).
  destruct (day mod hub_days =? 0).
  - apply bind_inv in H as (n & c2 & Hn & H).
    apply leadtime_variation_inv in Hn as (_ & ->).
    unfold ret in H; injection H as _ <-; reflexivity.
  - unfold ret in H. injection H as _ <-. reflexivity.
Qed.

Lemma bakery_production_cursor day s c s' c' :
  bakery_production draws ui hub_days lead_var day s c = Ok (s', c') ->
  c' = if day mod hub_days =? 0 then S c else c.
Proof.
  unfold bakery_production. intros H.
  apply bind_inv in H as (r & c1 & Hr & H).
  apply py_mod_inv in Hr as (_ & -> & ->).
  destruct (day mod hub_days =? 0).
  - apply bind_inv in H as (n & c2 & Hn & H).
    apply leadtime_variation_inv in Hn as (_ & ->).
    unfold ret in H; injection H as _ <-; reflexivity.
  - unfold ret in H. injection H as _ <-. reflexivity.
Qed.

Lemma day_body_cursor day s c s' c' :
  day_body draws ui store_days hub_days lead_var day s c = Ok (s', c') ->
  c' = (c + 1 + length (eligible store_days [day])
        + 2 * length (eligible hub_days [day]))%nat.
Proof.
  intros H.
  apply day_body_inv in H as (s2 & c2 & s3 & c3 & s4 & H2 & H3 & H4 & _).
  apply store_replenishment_cursor in H2.
  apply hub_replenishment_cursor in H3.
  apply bakery_production_cursor in H4.
  unfold eligible. cbn [filter].
  destruct (day mod store_days =? 0); destruct (day mod hub_days =? 0);
    cbn [length]; lia.
Qed.

Lemma for_days_cursor days :
  forall s c s' c',
    for_days draws ui store_days hub_days lead_var days s c = Ok (s', c') ->
    c' = (c + length days + length (eligible store_days days)
          + 2 * length (eligible hub_days days))%nat.
Proof.
  induction days as [| day rest IH]; intros s c s' c' H.
  - cbn in H. unfold ret in H. injection H as _ <-. cbn. lia.
  - cbn [for_days] in H. apply bind_inv in H as (s1 & c1 & Hd & H).
    apply IH in H. apply day_body_cursor in Hd.
    change (day :: rest) with ([day] ++ rest).
    unfold eligible in *. rewrite !filter_app, !length_app. cbn [length app].
    lia.
Qed.

End Cursor.

Lemma eligible_count (n k : Z) :
  0 < n -> 0 <= k ->
  Z.of_nat (length (eligible n (range 0 (k + 1)))) = k / n + 1.
Proof.
  intros Hn Hk. pattern k. apply natlike_ind; [| | exact Hk].
  - reflexivity.
  - intros x Hx IH.
    rewrite (range_split 0 (x + 1) (Z.succ x + 1)) by lia.
    replace (range (x + 1 + 1) (Z.succ x + 1)) with (@nil Z)
      by (unfold range; replace (Z.succ x + 1 - (x + 1 + 1)) with 0 by lia;
          reflexivity).
    unfold eligible in *. rewrite filter_app, length_app, Nat2Z.inj_add, IH.
    cbn [filter]. replace (Z.succ x) with (x + 1) by lia.
    pose proof (Z.div_mod x n ltac:(lia)) as Dx.
    pose proof (Z.mod_pos_bound x n Hn) as Bx.
    pose proof (Z.div_mod (x + 1) n ltac:(lia)) as Dy.
    pose proof (Z.mod_pos_bound (x + 1) n Hn) as By.
    set (q := x / n) in *. set (r := x mod n) in *.
    set (q' := (x + 1) / n) in *. set (r' := (x + 1) mod n) in *.
    assert (Hd : n * (q' - q) = 1 + r - r') by lia.
    assert (Hlo : -1 < q' - q) by nia.
    assert (Hhi : q' - q < 2) by nia.
    destruct (Z.eqb_spec r' 0) as [E | N]; cbn [length].
    + assert (q' - q <> 0) by nia. lia.
    + assert (q' - q <> 1) by nia. lia.
Qed.

(** X6. A call that returns has read the demand of each of the 365 days,
    one deviate on each day that the store interval divides and two on each
    day that the hub interval divides, and nothing else; day 0 being such a
    day for both, that is at least 368 and at most 1460 deviates; for
    positive intervals the number is
    [365 + (364 / store_days + 1) + 2 * (364 / hub_days + 1)]. *)
Theorem deviates_consumed :
  forall draws ui store_days hub_days lead_var c r c',
    simulate_inventory_cost draws ui store_days hub_days lead_var c
    = Ok (r, c') ->
    c' = (c + 365 + length (eligible store_days (range 0 n_periods))
          + 2 * length (eligible hub_days (range 0 n_periods)))%nat /\
    (c + 368 <= c' <= c + 1460)%nat /\
    (0 < store_days -> 0 < hub_days ->
     Z.of_nat c'
     = Z.of_nat c + 365 + (364 / store_days + 1) + 2 * (364 / hub_days + 1)).
Proof.
  intros draws ui store_days hub_days lead_var c r c' H.
  unfold simulate_inventory_cost in H.
  apply bind_inv in H as (s & c1 & Hloop & Hagg).
  assert (c' = c1) as ->.
  { unfold aggregate in Hagg.
    apply bind_inv in Hagg as (l & c2 & Hl & Hagg).
    apply bind_inv in Hagg as (k & c3 & Hk & Hagg).
    apply py_div_inv in Hl as (_ & _ & ->).
    apply py_div_inv in Hk as (_ & _ & ->).
    unfold ret in Hagg. injection Hagg as _ <-. reflexivity. }
  unfold simulate_loop in Hloop.
  pose proof (for_days_cursor _ _ _ _ _ _ _ _ _ _ Hloop) as E.
  change (length (range 0 n_periods)) with 365%nat in E.
  split; [exact E |]. split.
  - assert (B : forall n, (1 <= length (eligible n (range 0 n_periods))
                           <= 365)%nat).
    { intros n. split.
      - rewrite range_from_zero. unfold eligible. cbn [filter].
        replace (0 mod n) with 0 by (destruct n; reflexivity).
        cbn [Z.eqb length]. lia.
      - unfold eligible.
        pose proof (filter_length_le (fun day => day mod n =? 0)
                      (range 0 n_periods)) as L.
        change (length (range 0 n_periods)) with 365%nat in L. exact L. }
    pose proof (B store_days). pose proof (B hub_days). lia.
  - intros Hs Hh.
    pose proof (eligible_count store_days 364 Hs ltac:(lia)) as C1.
    pose proof (eligible_count hub_days 364 Hh ltac:(lia)) as C2.
    change (364 + 1) with n_periods in C1, C2. lia.
Qed.

Lemma deviates_consumed_witness :
  exists r,
    simulate_inventory_cost (fun _ => 0%Qc) demo_sliders 1 7 (lit 2 10) 0%nat
    = Ok (r, 836%nat).
Proof.
  assert (E : { x | simulate_inventory_cost (fun _ => 0%Qc) demo_sliders 1 7
                      (lit 2 10) 0%nat = Ok x })
    by (vm_compute; eexists; reflexivity).
  destruct E as [[r c'] E]. exists r.
  destruct (deviates_consumed _ _ _ _ _ _ _ _ E) as (_ & _ & H).
  specialize (H ltac:(reflexivity) ltac:(reflexivity)).
  replace 836%nat with c'; [exact E |].
  apply Nat2Z.inj. rewrite H. reflexivity.
Defined.

(** ** What a call returns *)

Lemma Qcsum_from_nonneg (l : list Qc) :
  forall acc, (0 <= acc)%Qc -> Forall (fun x => (0 <= x)%Qc) l ->
              (0 <= fold_left Qcplus l acc)%Qc.
Proof.
  induction l as [| x l IH]; intros acc Ha Hl; [exact Ha |].
  inversion Hl as [| ? ? Hx Hl']; subst. cbn [fold_left].
  apply IH; [| exact Hl']. qc_lra.
Qed.

Lemma Qcdiv_nonneg (a b : Qc) : (0 <= a)%Qc -> (0 <= b)%Qc -> (0 <= a / b)%Qc.
Proof.
  intros Ha Hb. qc_to_q.
  apply Qmult_le_0_compat; [exact Ha |]. apply Qinv_le_0_compat. exact Hb.
Qed.

Lemma Qcmult_nonneg (a b : Qc) : (0 <= a)%Qc -> (0 <= b)%Qc -> (0 <= a * b)%Qc.
Proof. intros Ha Hb. qc_to_q. apply Qmult_le_0_compat; assumption. Qed.

Lemma np_mean_nonneg (l : list Qc) :
  Forall (fun x => (0 <= x)%Qc) l -> (0 <= np_mean l)%Qc.
Proof.
  intros H. unfold np_mean, Qcsum. apply Qcdiv_nonneg.
  - apply Qcsum_from_nonneg; [apply Qcle_refl | exact H].
  - apply of_int_nonneg. lia.
Qed.

Lemma Forall_of_int (l : list Z) :
  Forall (fun x => 0 <= x) l -> Forall (fun x => (0 <= x)%Qc) (map of_int l).
Proof.
  intros H. apply Forall_map. revert H. apply Forall_impl.
  intros a Ha. apply of_int_nonneg. exact Ha.
Qed.

(** The bounds on the six values of a call that returns. *)
Lemma simulate_returns draws ui store_days hub_days lead_var c
    store_val hub_val bakery_val service_level stockout_risk total c' :
  simulate_inventory_cost draws ui store_days hub_days lead_var c
  = Ok (store_val, hub_val, bakery_val, service_level, stockout_risk,
        total, c') ->
  ((0 <= service_level)%Qc /\ (service_level <= 1)%Qc) /\
  (costs_ok ui ->
   (0 <= store_val)%Qc /\ (0 <= hub_val)%Qc /\ (0 <= bakery_val)%Qc).
Proof.
  intros H. unfold simulate_inventory_cost in H.
  apply bind_inv in H as (s & c1 & Hloop & H).
  unfold simulate_loop in Hloop.
  pose proof (for_days_accounts _ _ _ _ _ _ _ _ _ _ initial_accounts Hloop)
    as (_ & Hf & Hle).
  pose proof (for_days_traces _ _ _ _ _ _ _ _ _ _ initial_traces Hloop)
    as (T1 & T2 & T3).
  pose proof (aggregate_inv _ _ _ _ _ _ _ _ _ _ H) as (Hnz & -> & _ & _).
  split.
  - apply Qcdiv_unit_interval; try assumption.
    destruct (Qcle_lt_or_eq 0 (total_demand s)) as [L | E];
      [apply (Qcle_trans _ _ _ Hf Hle) | exact L | congruence].
  - intros (C1 & C2 & C3).
    unfold aggregate in H.
    apply bind_inv in H as (l & c2 & Hl & H).
    apply bind_inv in H as (k & c3 & Hk & H).
    unfold ret in H. injection H as <- <- <- _ _ _ _.
    repeat split; apply Qcmult_nonneg;
      try (apply of_int_nonneg; assumption);
      apply np_mean_nonneg; try assumption; apply Forall_of_int; assumption.
Qed.

(** X7. With holding costs that are not negative the three inventory values
    of a call that returns are not negative, and neither is their total. *)
Theorem inventory_values_nonneg :
  forall draws ui store_days hub_days lead_var c
         store_val hub_val bakery_val service_level stockout_risk total c',
    0 <= h_store ui -> 0 <= h_hub ui -> 0 <= h_bakery ui ->
    simulate_inventory_cost draws ui store_days hub_days lead_var c
    = Ok (store_val, hub_val, bakery_val, service_level, stockout_risk,
          total, c') ->
    (0 <= store_val)%Qc /\ (0 <= hub_val)%Qc /\ (0 <= bakery_val)%Qc /\
    (0 <= store_val + hub_val + bakery_val)%Qc.
Proof.
  intros draws ui store_days hub_days lead_var c sv hv bv level risk total c'
         C1 C2 C3 H.
  apply simulate_returns in H as (_ & H).
  destruct (H (conj C1 (conj C2 C3))) as (H1 & H2 & H3).
  repeat split; try assumption. qc_lra.
Qed.

Lemma inventory_values_nonneg_witness :
  exists store_val hub_val bakery_val service_level stockout_risk total c',
    simulate_inventory_cost (fun _ => 0%Qc) demo_sliders 1 7 (lit 2 10) 0%nat
    = Ok (store_val, hub_val, bakery_val, service_level, stockout_risk,
          total, c') /\
    (0 <= store_val + hub_val + bakery_val)%Qc.
Proof.
  assert (E : { r | simulate_inventory_cost (fun _ => 0%Qc) demo_sliders 1 7
                      (lit 2 10) 0%nat = Ok r })
    by (vm_compute; eexists; reflexivity).
  destruct E as [[[[[[[sv hv] bv] level] risk] total] c'] E].
  exists sv, hv, bv, level, risk, total, c'.
  split; [exact E |].
  assert (C1 : 0 <= h_store demo_sliders) by (cbn; lia).
  assert (C2 : 0 <= h_hub demo_sliders) by (cbn; lia).
  assert (C3 : 0 <= h_bakery demo_sliders) by (cbn; lia).
  destruct (inventory_values_nonneg _ _ _ _ _ _ _ _ _ _ _ _ _ C1 C2 C3 E)
    as (_ & _ & _ & H).
  exact H.
Defined.

(** ** The chart and the scan *)

Lemma pct_bounds (l : Qc) :
  (0 <= l)%Qc -> (l <= 1)%Qc ->
  (0 <= l * of_int 100)%Qc /\ (l * of_int 100 <= of_int 100)%Qc.
Proof.
  intros H0 H1. change (of_int 100) with (lit 100 1).
  split; qc_to_q; lra.
Qed.

Lemma chart_points_grow draws ui hub_days points :
  forall costs levels c costs' levels' c',
    chart_points draws ui hub_days points costs levels c
    = Ok (costs', levels', c') ->
    exists cs ls,
      costs' = costs ++ cs /\ levels' = levels ++ ls /\
      length cs = length points /\ length ls = length points /\
      Forall (fun l => (0 <= l)%Qc /\ (l <= of_int 100)%Qc) ls /\
      (costs_ok ui -> Forall (fun x => (0 <= x)%Qc) cs).
Proof.
  induction points as [| freq rest IH];
    intros costs levels c costs' levels' c' H.
  - cbn in H. unfold ret in H. injection H as <- <- <-.
    exists [], []. rewrite !app_nil_r. repeat split; constructor.
  - cbn [chart_points] in H. apply bind_inv in H as (r & c1 & Hr & H).
    destruct r as [[[[[s h] b] level] risk] total].
    apply IH in H as (cs & ls & -> & -> & Lc & Ll & Fl & Fc).
    apply simulate_returns in Hr as ((L0 & L1) & Hv).
    exists ((s + h + b)%Qc :: cs), ((level * of_int 100)%Qc :: ls).
    rewrite <- !app_assoc. cbn [app length].
    repeat split; try lia.
    + constructor; [apply pct_bounds; assumption | exact Fl].
    + intros Hc. destruct (Hv Hc) as (V1 & V2 & V3).
      constructor; [qc_lra | apply Fc; exact Hc].
Qed.

(** X8. When the loop of the chart returns, [costs] and [levels] hold seven
    entries each, one for each store interval from 1 to 7 in this order;
    every level is a percentage between 0 and 100, and every cost is at
    least 0 when the holding costs are. *)
Theorem chart_points_seven :
  forall draws ui hub_days c costs levels c',
    chart_points draws ui hub_days (range 1 8) [] [] c
    = Ok (costs, levels, c') ->
    length costs = 7%nat /\ length levels = 7%nat /\
    Forall (fun l => (0 <= l)%Qc /\ (l <= of_int 100)%Qc) levels /\
    (0 <= h_store ui -> 0 <= h_hub ui -> 0 <= h_bakery ui ->
     Forall (fun x => (0 <= x)%Qc) costs).
Proof.
  intros draws ui hub_days c costs levels c' H.
  apply chart_points_grow in H as (cs & ls & -> & -> & Lc & Ll & Fl & Fc).
  cbn [app]. repeat split; try assumption.
  intros C1 C2 C3. apply Fc. repeat split; assumption.
Qed.

Lemma chart_points_seven_witness :
  exists costs levels c',
    chart_points (fun _ => 0%Qc) demo_sliders 7 (range 1 8) [] [] 0%nat
    = Ok (costs, levels, c') /\
    length costs = 7%nat /\ length levels = 7%nat.
Proof.
  assert (E : { r | chart_points (fun _ => 0%Qc) demo_sliders 7 (range 1 8)
                      [] [] 0%nat = Ok r })
    by (vm_compute; eexists; reflexivity).
  destruct E as [[[costs levels] c'] E]. exists costs, levels, c'.
  split; [exact E |].
  destruct (chart_points_seven _ _ _ _ _ _ _ E) as (H1 & H2 & _).
  split; assumption.
Defined.

Lemma sweep_entries draws ui hub_days cands :
  forall c rs c',
    sweep draws ui hub_days cands c = Ok (rs, c') ->
    Forall (fun r => In (fst (fst r)) cands /\
                     ((0 <= snd (fst r))%Qc /\ (snd (fst r) <= 1)%Qc) /\
                     (costs_ok ui -> (0 <= snd r)%Qc)) rs.
Proof.
  induction cands as [| store_day rest IH]; intros c rs c' H.
  - cbn in H. unfold ret in H. injection H as <- <-. constructor.
  - cbn [sweep] in H. apply bind_inv in H as (r & c1 & Hr & H).
    destruct r as [[[[[s h] b] level] risk] total].
    apply bind_inv in H as (rs1 & c2 & Hs & H).
    unfold ret in H. injection H as <- <-.
    apply simulate_returns in Hr as (Hl & Hv).
    constructor.
    + cbn [fst snd]. split; [left; reflexivity | split; [exact Hl |]].
      intros Hc. destruct (Hv Hc) as (V1 & V2 & V3). qc_lra.
    + apply IH in Hs. revert Hs. apply Forall_impl.
      intros a (Hin & Ha). split; [right; exact Hin | exact Ha].
Qed.

(** X9. When the scan returns, [best_setting] is an entry, never [None]:
    its interval is one of 1 to 7, its fill rate is a percentage between 0
    and 100, [min_gap] is finite, and its cost is at least 0 when the
    holding costs are. *)
Theorem best_setting_found :
  forall draws ui hub_days c min_gap best_setting c',
    find_best_setting draws ui hub_days c = Ok (min_gap, best_setting, c') ->
    exists gap best,
      min_gap = Finite gap /\ best_setting = Some best /\
      1 <= freq_days best <= 7 /\
      ((0 <= fill_rate_pct best)%Qc /\ (fill_rate_pct best <= of_int 100)%Qc) /\
      (0 <= h_store ui -> 0 <= h_hub ui -> 0 <= h_bakery ui ->
       (0 <= total_cost best)%Qc).
Proof.
  intros draws ui hub_days c min_gap best_setting c' H.
  unfold find_best_setting in H. rewrite scan_sweep in H.
  apply bind_inv in H as (rs & c1 & Hs & H).
  unfold ret in H. injection H as H <-.
  assert (Hne : rs <> []).
  { intros ->. apply sweep_days in Hs. discriminate. }
  destruct (choose_first_best rs Hne) as (i & d & l & k & Hi & Hacc & _ & _).
  rewrite Hacc in H. injection H as <- <-.
  apply sweep_entries in Hs.
  apply nth_error_In in Hi.
  rewrite Forall_forall in Hs. specialize (Hs _ Hi).
  cbn [fst snd] in Hs. destruct Hs as (Hin & (L0 & L1) & Hc).
  eexists _, _. split; [reflexivity | split; [reflexivity |]].
  cbn [freq_days fill_rate_pct total_cost].
  split; [| split].
  - change (range 1 8) with [1; 2; 3; 4; 5; 6; 7] in Hin.
    cbn [In] in Hin. lia.
  - apply pct_bounds; assumption.
  - intros C1 C2 C3. apply Hc. repeat split; assumption.
Qed.

Lemma best_setting_found_witness :
  exists min_gap best c',
    find_best_setting (fun _ => 0%Qc) demo_sliders 7 0%nat
    = Ok (min_gap, Some best, c') /\
    1 <= freq_days best <= 7.
Proof.
  assert (E : { r | find_best_setting (fun _ => 0%Qc) demo_sliders 7 0%nat
                    = Ok r })
    by (vm_compute; eexists; reflexivity).
  destruct E as [[[g b] c'] E].
  destruct (best_setting_found _ _ _ _ _ _ _ E)
    as (gap & best & -> & -> & R & _).
  exists (Finite gap), best, c'. split; [exact E | exact R].
Defined.

(** ** How the runs can fail *)

Lemma chart_points_sweep draws ui hub_days points :
  forall costs levels c,
    chart_points draws ui hub_days points costs levels c
    = match sweep draws ui hub_days points c with
      | Ok (rs, c') =>
          Ok (costs ++ map snd rs,
              levels ++ map (fun r => (snd (fst r) * of_int 100)%Qc) rs, c')
      | Raise e => Raise e
      end.
Proof.
  induction points as [| freq rest IH]; intros costs levels c.
  - cbn. unfold ret. rewrite !app_nil_r. reflexivity.
  - cbn [chart_points sweep].
    destruct (simulate_inventory_cost draws ui freq hub_days (lit 2 10) c)
      as [[r c1] | e] eqn:E; [| unfold bind; rewrite E; reflexivity].
    rewrite !(bind_Ok _ _ _ _ _ E).
    destruct r as [[[[[s h] b] level] risk] total].
    rewrite IH. unfold bind.
    destruct (sweep draws ui hub_days rest c1) as [[rs c2] | e'];
      [| reflexivity].
    unfold ret. cbn [map fst snd]. rewrite <- !app_assoc. reflexivity.
Qed.

Section Failure.

Variable draws : nat -> Qc.
Variable ui : sliders.
Variable hub_days : Z.
Hypothesis hub_days_nz : hub_days <> 0.
Hypothesis scales : scales_ok ui (lit 2 10).

Lemma simulate_outcomes store_days c :
  store_days <> 0 ->
  exists s c',
    simulate_loop draws ui store_days hub_days (lit 2 10) c = Ok (s, c') /\
    ((total_demand s <> 0%Qc /\
      exists r, simulate_inventory_cost draws ui store_days hub_days
                  (lit 2 10) c = Ok (r, c')) \/
     (total_demand s = 0%Qc /\
      simulate_inventory_cost draws ui store_days hub_days (lit 2 10) c
      = Raise ZeroDivisionError)).
Proof.
  intros Hs.
  destruct (for_days_total draws ui store_days hub_days (lit 2 10) Hs
              hub_days_nz scales (range 0 n_periods) initial c)
    as (s & c' & Hloop).
  fold (simulate_loop draws ui store_days hub_days (lit 2 10) c) in Hloop.
  exists s, c'. split; [exact Hloop |].
  unfold simulate_inventory_cost. rewrite (bind_Ok _ _ _ _ _ Hloop).
  destruct (Qc_eq_dec (total_demand s) 0) as [E | N].
  - right. split; [exact E | apply aggregate_zero; exact E].
  - left. split; [exact N |].
    destruct (aggregate_nonzero ui s c' N) as (a & b & d & e & A).
    eexists. exact A.
Qed.

Lemma sweep_outcomes cands :
  Forall (fun store_day => store_day <> 0) cands ->
  forall c,
    (exists rs c', sweep draws ui hub_days cands c = Ok (rs, c')) \/
    (sweep draws ui hub_days cands c = Raise ZeroDivisionError /\
     exists k, run_without_demand draws ui hub_days cands c k).
Proof.
  induction cands as [| store_day rest IH]; intros Hp c.
  - left. eexists _, _. reflexivity.
  - inversion Hp as [| ? ? Hf Hrest]; subst. cbn [sweep].
    destruct (simulate_outcomes store_day c Hf)
      as (s & c1 & Hloop & [(N & r & E) | (Z0 & E)]).
    + rewrite (bind_Ok _ _ _ _ _ E).
      destruct r as [[[[[sv hv] bv] level] risk] total].
      destruct (IH Hrest c1) as [(rs & c2 & E2) | (E2 & k & Hk & W)].
      * left. rewrite (bind_Ok _ _ _ _ _ E2). eexists _, _. reflexivity.
      * right. split; [unfold bind; rewrite E2; reflexivity |].
        destruct W as (rs & ck & sk & ck' & Hpre & Hrun & Hz).
        exists (S k). split; [cbn [length]; lia |].
        exists ((store_day, level, (sv + hv + bv)%Qc) :: rs), ck, sk, ck'.
        cbn [firstn nth sweep].
        rewrite (bind_Ok _ _ _ _ _ E), (bind_Ok _ _ _ _ _ Hpre).
        repeat split; assumption.
    + right. split; [unfold bind; rewrite E; reflexivity |].
      exists 0%nat. split; [cbn [length]; lia |].
      exists [], c, s, c1. cbn [firstn nth sweep].
      repeat split; assumption.
Qed.

End Failure.

Lemma intervals_nonzero : Forall (fun n => n <> 0) (range 1 8).
Proof. repeat constructor; discriminate. Qed.

Lemma sliders_scales ui : sliders_in_range ui -> scales_ok ui (lit 2 10).
Proof.
  intros (_ & _ & _ & H1 & H2 & H3).
  repeat split; apply lit_scale_nonneg; lia.
Qed.

(** X10. With every slider in its range each of the three computations (a
    call of the simulator, the loop of the chart, the scan) has one way to
    fail.  The loop of the call always completes: no [%] divides by 0 and
    the generator is never handed a negative scale; the call returns when
    the total demand of this loop is not 0 and raises [ZeroDivisionError]
    when it is 0.  The loop of the chart and the scan return, or raise
    [ZeroDivisionError] at the first of their own seven runs, taken from the
    cursor the runs before it left, that completed with a total demand
    of 0. *)
Theorem runs_failure_mode :
  forall draws ui store_days hub_days c,
    sliders_in_range ui ->
    1 <= store_days <= 7 ->
    3 <= hub_days <= 14 ->
    (exists s c',
        simulate_loop draws ui store_days hub_days (lit 2 10) c = Ok (s, c') /\
        ((total_demand s <> 0%Qc /\
          exists r, simulate_inventory_cost draws ui store_days hub_days
                      (lit 2 10) c = Ok (r, c')) \/
         (total_demand s = 0%Qc /\
          simulate_inventory_cost draws ui store_days hub_days (lit 2 10) c
          = Raise ZeroDivisionError))) /\
    ((exists r c', chart_points draws ui hub_days (range 1 8) [] [] c
                   = Ok (r, c')) \/
     (chart_points draws ui hub_days (range 1 8) [] [] c
      = Raise ZeroDivisionError /\
      exists k rs ck s ck',
        (k < 7)%nat /\
        sweep draws ui hub_days (firstn k (range 1 8)) c = Ok (rs, ck) /\
        simulate_loop draws ui (nth k (range 1 8) 0) hub_days (lit 2 10) ck
        = Ok (s, ck') /\
        total_demand s = 0%Qc)) /\
    ((exists r c', find_best_setting draws ui hub_days c = Ok (r, c')) \/
     (find_best_setting draws ui hub_days c = Raise ZeroDivisionError /\
      exists k rs ck s ck',
        (k < 7)%nat /\
        sweep draws ui hub_days (firstn k (range 1 8)) c = Ok (rs, ck) /\
        simulate_loop draws ui (nth k (range 1 8) 0) hub_days (lit 2 10) ck
        = Ok (s, ck') /\
        total_demand s = 0%Qc)).
Proof.
  intros draws ui store_days hub_days c Hui Hs Hh.
  assert (Hnz : hub_days <> 0) by lia.
  pose proof (sliders_scales ui Hui) as Hsc.
  split; [apply simulate_outcomes; [assumption | assumption | lia] |].
  pose proof (sweep_outcomes draws ui hub_days Hnz Hsc (range 1 8)
                intervals_nonzero c) as Hsw.
  split.
  - rewrite chart_points_sweep.
    destruct Hsw as [(rs & c' & E) | (E & k & Hk & rs & ck & s & ck' & W)].
    + left. rewrite E. eexists _, _. reflexivity.
    + right. rewrite E. split; [reflexivity |].
      exists k, rs, ck, s, ck'. split; [exact Hk | exact W].
  - unfold find_best_setting. rewrite scan_sweep.
    destruct Hsw as [(rs & c' & E) | (E & k & Hk & rs & ck & s & ck' & W)].
    + left. rewrite (bind_Ok _ _ _ _ _ E). eexists _, _. reflexivity.
    + right. split; [unfold bind; rewrite E; reflexivity |].
      exists k, rs, ck, s, ck'. split; [exact Hk | exact W].
Qed.

Lemma runs_failure_mode_witness :
  exists s c',
    simulate_loop (fun _ => 0%Qc) demo_sliders 1 7 (lit 2 10) 0%nat
    = Ok (s, c') /\
    total_demand s <> 0%Qc /\
    exists r, simulate_inventory_cost (fun _ => 0%Qc) demo_sliders 1 7
                (lit 2 10) 0%nat = Ok (r, c').
Proof.
  assert (Hui : sliders_in_range demo_sliders)
    by (unfold sliders_in_range; cbn; lia).
  assert (Hs : 1 <= 1 <= 7) by lia.
  assert (Hh : 3 <= 7 <= 14) by lia.
  destruct (runs_failure_mode (fun _ => 0%Qc) demo_sliders 1 7 0%nat
              Hui Hs Hh) as ((s & c' & Hloop & Hcase) & _).
  exists s, c'. split; [exact Hloop |].
  destruct Hcase as [H | (_ & E)]; [exact H |].
  vm_compute in E. discriminate E.
Defined.

(** ** Intervals outside the sliders' range *)

Lemma range_In (a b d : Z) : In d (range a b) -> a <= d < b.
Proof.
  unfold range. intros H. apply in_map_iff in H as (i & <- & Hi).
  apply in_seq in Hi. lia.
Qed.

Section Unstocked.

Variable draws : nat -> Qc.
Variable ui : sliders.
Variables store_days hub_days : Z.
Variable lead_var : Qc.

Lemma day_without_delivery day s c s' c' :
  day mod store_days <> 0 ->
  store_inventory s = 0%Qc ->
  day_body draws ui store_days hub_days lead_var day s c = Ok (s', c') ->
  store_inventory s' = 0%Qc /\ fulfilled_demand s' = fulfilled_demand s.
Proof.
  intros Hm Hs H.
  pose proof (day_from_empty_store _ _ _ _ _ _ _ _ _ _ Hs H) as (F & _).
  split; [| exact F].
  apply day_body_inv in H as (s2 & c2 & s3 & c3 & s4 & H2 & H3 & H4 & ->).
  assert (Hn : store_days <> 0).
  { intros ->. unfold store_replenishment, bind, py_mod in H2.
    discriminate. }
  rewrite (store_replenishment_off draws ui store_days lead_var day _ _
             Hn Hm) in H2.
  injection H2 as <- <-.
  apply bakery_production_cases in H4 as [(-> & _) | (q4 & _ & -> & _)];
    apply hub_replenishment_cases in H3 as [(-> & _) | (q3 & _ & -> & _)];
    cbn [record bakery_made hub_moved fulfil store_inventory];
    rewrite Hs, (py_min_empty _ (demand_of_nonneg (draws c)));
    apply Qc_is_canon; reflexivity.
Qed.

Lemma days_without_delivery days :
  Forall (fun day => day mod store_days <> 0) days ->
  forall s c s' c',
    store_inventory s = 0%Qc ->
    for_days draws ui store_days hub_days lead_var days s c = Ok (s', c') ->
    store_inventory s' = 0%Qc /\ fulfilled_demand s' = fulfilled_demand s.
Proof.
  induction days as [| day rest IH]; intros Hd s c s' c' Hs H.
  - cbn in H. unfold ret in H. injection H as <- <-. auto.
  - inversion Hd as [| ? ? Hm Hrest]; subst.
    cbn [for_days] in H. apply bind_inv in H as (s1 & c1 & H1 & H).
    apply (day_without_delivery _ _ _ _ _ Hm Hs) in H1 as (S1 & F1).
    apply (IH Hrest _ _ _ _ S1) in H as (S2 & F2).
    split; [exact S2 | congruence].
Qed.

End Unstocked.

(** X11. A store interval of 365 days or more leaves day 0 as the only day
    of a store order, and on day 0 the hub is still empty: the store never
    receives anything, nothing is ever sold, and a call that returns gives a
    fill rate of 0. *)
Theorem long_store_interval_sells_nothing :
  forall draws ui store_days hub_days lead_var c
         store_val hub_val bakery_val service_level stockout_risk total c',
    n_periods <= store_days ->
    simulate_inventory_cost draws ui store_days hub_days lead_var c
    = Ok (store_val, hub_val, bakery_val, service_level, stockout_risk,
          total, c') ->
    service_level = 0%Qc /\
    (forall s c1,
        simulate_loop draws ui store_days hub_days lead_var c = Ok (s, c1) ->
        store_inventory s = 0%Qc /\ fulfilled_demand s = 0%Qc).
Proof.
  intros draws ui store_days hub_days lead_var c sv hv bv level risk total c'
         Hlong H.
  assert (Hend : forall s c1,
             simulate_loop draws ui store_days hub_days lead_var c
             = Ok (s, c1) ->
             store_inventory s = 0%Qc /\ fulfilled_demand s = 0%Qc).
  { intros s c1 Hloop. unfold simulate_loop in Hloop.
    rewrite range_from_zero in Hloop. cbn [for_days] in Hloop.
    apply bind_inv in Hloop as (s1 & c2 & D0 & Hrest).
    apply day_from_empty_store in D0 as (F0 & _ & _ & S0); [| reflexivity].
    specialize (S0 eq_refl).
    apply (days_without_delivery draws ui store_days hub_days lead_var)
      in Hrest as (S & F); [| | exact S0].
    - split; [exact S | rewrite F, F0; reflexivity].
    - apply Forall_forall. intros d Hd. apply range_In in Hd.
      unfold n_periods in *. rewrite Z.mod_small by lia. lia. }
  split; [| exact Hend].
  unfold simulate_inventory_cost in H.
  apply bind_inv in H as (s & c1 & Hloop & Hagg).
  apply aggregate_inv in Hagg as (_ & -> & _ & _).
  destruct (Hend s c1 Hloop) as (_ & ->).
  unfold Qcdiv. apply Qcmult_0_l.
Qed.

Lemma long_store_interval_sells_nothing_witness :
  exists store_val hub_val bakery_val stockout_risk total c',
    simulate_inventory_cost (fun _ => 0%Qc) demo_sliders 365 7 (lit 2 10)
      0%nat
    = Ok (store_val, hub_val, bakery_val, 0%Qc, stockout_risk, total, c').
Proof.
  assert (E : { r | simulate_inventory_cost (fun _ => 0%Qc) demo_sliders 365 7
                      (lit 2 10) 0%nat = Ok r })
    by (vm_compute; eexists; reflexivity).
  destruct E as [[[[[[[sv hv] bv] level] risk] total] c'] E].
  exists sv, hv, bv, risk, total, c'.
  assert (L : n_periods <= 365) by (unfold n_periods; lia).
  destruct (long_store_interval_sells_nothing _ _ _ _ _ _ _ _ _ _ _ _ _ L E)
    as (H0 & _).
  rewrite H0 in E. exact E.
Defined.

(** ** Negative intervals *)

Lemma mod_opp_zero (a b : Z) : (a mod (- b) =? 0) = (a mod b =? 0).
Proof.
  destruct (Z.eq_dec b 0) as [-> | Hb]; [reflexivity |].
  destruct (Z.eqb_spec (a mod b) 0) as [E | N].
  - apply Z.eqb_eq. apply Z.mod_opp_r_z; assumption.
  - apply Z.eqb_neq. intros C. apply N.
    apply Z.mod_divide in C; [| lia]. apply Z.mod_divide; [exact Hb |].
    apply Z.divide_opp_l in C. rewrite Z.opp_involutive in C. exact C.
Qed.

Lemma py_mod_opp {A : Type} (a b : Z) (k1 k2 : M A) (c : nat) :
  (r <- py_mod a (- b) ;; if r =? 0 then k1 else k2) c
  = (r <- py_mod a b ;; if r =? 0 then k1 else k2) c.
Proof.
  unfold bind, py_mod.
  destruct (Z.eqb_spec b 0) as [-> | Hb]; [reflexivity |].
  destruct (Z.eqb_spec (- b) 0) as [E | _]; [lia |].
  unfold ret. rewrite mod_opp_zero. reflexivity.
Qed.

Lemma store_replenishment_opp draws ui store_days lead_var day s c :
  store_replenishment draws ui (- store_days) lead_var day s c
  = store_replenishment draws ui store_days lead_var day s c.
Proof. unfold store_replenishment. apply py_mod_opp. Qed.

Lemma hub_replenishment_opp draws ui hub_days lead_var day s c :
  hub_replenishment draws ui (- hub_days) lead_var day s c
  = hub_replenishment draws ui hub_days lead_var day s c.
Proof. unfold hub_replenishment. apply py_mod_opp. Qed.

Lemma bakery_production_opp draws ui hub_days lead_var day s c :
  bakery_production draws ui (- hub_days) lead_var day s c
  = bakery_production draws ui hub_days lead_var day s c.
Proof. unfold bakery_production. apply py_mod_opp. Qed.

Lemma day_body_opp_store draws ui store_days hub_days lead_var day s c :
  day_body draws ui (- store_days) hub_days lead_var day s c
  = day_body draws ui store_days hub_days lead_var day s c.
Proof.
  rewrite !day_body_unfold. unfold bind.
  rewrite store_replenishment_opp. reflexivity.
Qed.

Lemma day_body_opp_hub draws ui store_days hub_days lead_var day s c :
  day_body draws ui store_days (- hub_days) lead_var day s c
  = day_body draws ui store_days hub_days lead_var day s c.
Proof.
  rewrite !day_body_unfold. unfold bind.
  destruct (store_replenishment draws ui store_days lead_var day _ (S c))
    as [[s2 c2] | e]; [| reflexivity].
  rewrite hub_replenishment_opp.
  destruct (hub_replenishment draws ui hub_days lead_var day s2 c2)
    as [[s3 c3] | e]; [| reflexivity].
  rewrite bakery_production_opp. reflexivity.
Qed.

Lemma for_days_same draws ui sd1 hd1 sd2 hd2 lead_var :
  (forall day s c,
      day_body draws ui sd1 hd1 lead_var day s c
      = day_body draws ui sd2 hd2 lead_var day s c) ->
  forall days s c,
    for_days draws ui sd1 hd1 lead_var days s c
    = for_days draws ui sd2 hd2 lead_var days s c.
Proof.
  intros Hd days. induction days as [| day rest IH]; intros s c;
    [reflexivity |].
  cbn [for_days]. unfold bind. rewrite Hd.
  destruct (day_body draws ui sd2 hd2 lead_var day s c)
    as [[s1 c1] | e]; [apply IH | reflexivity].
Qed.

Lemma simulate_same draws ui sd1 hd1 sd2 hd2 lead_var c :
  (forall day s c,
      day_body draws ui sd1 hd1 lead_var day s c
      = day_body draws ui sd2 hd2 lead_var day s c) ->
  simulate_inventory_cost draws ui sd1 hd1 lead_var c
  = simulate_inventory_cost draws ui sd2 hd2 lead_var c.
Proof.
  intros Hd. unfold simulate_inventory_cost, simulate_loop, bind.
  rewrite (for_days_same draws ui sd1 hd1 sd2 hd2 lead_var Hd).
  reflexivity.
Qed.

(** X12. A negative interval is accepted and acts as its absolute value:
    [%] by a negative number is 0 on the same days, so the call with an
    interval negated does what the call with the interval itself does, for
    the same deviates. *)
Theorem negative_interval_as_positive :
  forall draws ui store_days hub_days lead_var c,
    simulate_inventory_cost draws ui (- store_days) hub_days lead_var c
    = simulate_inventory_cost draws ui store_days hub_days lead_var c /\
    simulate_inventory_cost draws ui store_days (- hub_days) lead_var c
    = simulate_inventory_cost draws ui store_days hub_days lead_var c /\
    simulate_inventory_cost draws ui (- store_days) (- hub_days) lead_var c
    = simulate_inventory_cost draws ui store_days hub_days lead_var c.
Proof.
  intros draws ui store_days hub_days lead_var c.
  split; [| split]; apply simulate_same; intros day s c0.
  - apply day_body_opp_store.
  - apply day_body_opp_hub.
  - rewrite day_body_opp_store. apply day_body_opp_hub.
Qed.

(** ** No variability *)

Lemma lead_of_fixed (base : Z) (z : Qc) :
  1 <= base -> lead_of 0%Qc base z = base.
Proof.
  intros H. unfold lead_of. rewrite zero_scale, np_round_of_int. lia.
Qed.

Section Exact.

Variable draws : nat -> Qc.
Variable ui : sliders.
Variables store_days hub_days : Z.
Variable lead_var : Qc.

Lemma hub_replenishment_exact day s c s' c' :
  hub_replenishment draws ui hub_days lead_var day s c = Ok (s', c') ->
  s' = if day mod hub_days =? 0
       then hub_moved (store_demand_mean
                       * lead_of lead_var (lt_hub ui) (draws c)) s
       else s.
Proof.
  unfold hub_replenishment. intros H.
  apply bind_inv in H as (r & c1 & Hr & H).
  apply py_mod_inv in Hr as (_ & -> & ->).
  destruct (day mod hub_days =? 0).
  - apply bind_inv in H as (n & c2 & Hn & H).
    apply leadtime_variation_inv in Hn as (-> & ->).
    unfold ret in H. injection H as <- _. reflexivity.
  - unfold ret in H. injection H as <- _. reflexivity.
Qed.

Lemma bakery_production_exact day s c s' c' :
  bakery_production draws ui hub_days lead_var day s c = Ok (s', c') ->
  s' = if day mod hub_days =? 0
       then bakery_made (store_demand_mean
                         * lead_of lead_var (lt_bakery ui) (draws c)) s
       else s.
Proof.
  unfold bakery_production. intros H.
  apply bind_inv in H as (r & c1 & Hr & H).
  apply py_mod_inv in Hr as (_ & -> & ->).
  destruct (day mod hub_days =? 0).
  - apply bind_inv in H as (n & c2 & Hn & H).
    apply leadtime_variation_inv in Hn as (-> & ->).
    unfold ret in H. injection H as <- _. reflexivity.
  - unfold ret in H. injection H as <- _. reflexivity.
Qed.

End Exact.

Lemma for_days_bakery_fixed draws ui store_days hub_days days :
  1 <= lt_hub ui -> 1 <= lt_bakery ui ->
  forall s c s' c',
    for_days draws ui store_days hub_days 0%Qc days s c = Ok (s', c') ->
    bakery_inventory s'
    = bakery_inventory s
      + store_demand_mean * (lt_bakery ui - lt_hub ui)
        * Z.of_nat (length (eligible hub_days days)).
Proof.
  intros Hh Hb. induction days as [| day rest IH]; intros s c s' c' H.
  - cbn in H. unfold ret in H. injection H as <- <-. cbn. lia.
  - cbn [for_days] in H. apply bind_inv in H as (s1 & c1 & Hd & H).
    apply IH in H. rewrite H. clear H IH.
    apply day_body_inv in Hd as (s2 & c2 & s3 & c3 & s4 & H2 & H3 & H4 & ->).
    apply bakery_production_exact in H4. apply hub_replenishment_exact in H3.
    assert (E2 : bakery_inventory s2 = bakery_inventory s).
    { apply store_replenishment_cases in H2
        as [(-> & _) | (q & _ & _ & -> & _)]; reflexivity. }
    unfold eligible. cbn [filter].
    destruct (day mod hub_days =? 0); subst s4 s3;
      cbn [record bakery_made hub_moved bakery_inventory length];
      rewrite E2; [| lia].
    rewrite !lead_of_fixed by assumption. lia.
Qed.

(** X13. Without variability the bakery level is a multiple of the
    difference of the two lead times: with [lead_var = 0] and base lead
    times of at least 1, after any days of a run it is
    [store_demand_mean * (lt_bakery - lt_hub)] times the number of those
    days that the hub interval divides; so it is negative from day 0 on
    exactly when the hub lead time is the longer one. *)
Theorem bakery_level_without_variability :
  forall draws ui store_days hub_days days c s c',
    1 <= lt_hub ui -> 1 <= lt_bakery ui ->
    for_days draws ui store_days hub_days 0%Qc days initial c = Ok (s, c') ->
    bakery_inventory s
    = store_demand_mean * (lt_bakery ui - lt_hub ui)
      * Z.of_nat (length (eligible hub_days days)) /\
    (In 0 days -> (bakery_inventory s < 0 <-> lt_bakery ui < lt_hub ui)).
Proof.
  intros draws ui store_days hub_days days c s c' Hh Hb H.
  apply (for_days_bakery_fixed _ _ _ _ _ Hh Hb) in H.
  change (bakery_inventory initial) with 0 in H. rewrite Z.add_0_l in H.
  split; [exact H |].
  intros Hin.
  assert (Hpos : (0 < length (eligible hub_days days))%nat).
  { assert (I : In 0 (eligible hub_days days)).
    { unfold eligible. apply filter_In. split; [exact Hin |].
      destruct hub_days; reflexivity. }
    destruct (eligible hub_days days); [destruct I | cbn; lia]. }
  rewrite H. unfold store_demand_mean. split; intros L; nia.
Qed.

Lemma bakery_level_without_variability_witness :
  exists s c',
    for_days (fun _ => 0%Qc) demo_sliders 1 7 0%Qc (range 0 8) initial 0%nat
    = Ok (s, c') /\
    bakery_inventory s = 200.
Proof.
  assert (E : { r | for_days (fun _ => 0%Qc) demo_sliders 1 7 0%Qc (range 0 8)
                      initial 0%nat = Ok r })
    by (vm_compute; eexists; reflexivity).
  destruct E as [[s c'] E]. exists s, c'. split; [exact E |].
  assert (Hh : 1 <= lt_hub demo_sliders) by (cbn; lia).
  assert (Hb : 1 <= lt_bakery demo_sliders) by (cbn; lia).
  destruct (bakery_level_without_variability _ _ _ _ _ _ _ _ Hh Hb E)
    as (H & _).
  rewrite H. reflexivity.
Defined.

(** ** Holding costs *)

Lemma day_body_costs draws ui ui' store_days hub_days lead_var day s c :
  lt_store ui = lt_store ui' -> lt_hub ui = lt_hub ui' ->
  lt_bakery ui = lt_bakery ui' ->
  day_body draws ui store_days hub_days lead_var day s c
  = day_body draws ui' store_days hub_days lead_var day s c.
Proof.
  intros E1 E2 E3.
  unfold day_body, store_replenishment, hub_replenishment,
    bakery_production.
  rewrite E1, E2, E3. reflexivity.
Qed.

Lemma for_days_costs draws ui ui' store_days hub_days lead_var days :
  lt_store ui = lt_store ui' -> lt_hub ui = lt_hub ui' ->
  lt_bakery ui = lt_bakery ui' ->
  forall s c,
    for_days draws ui store_days hub_days lead_var days s c
    = for_days draws ui' store_days hub_days lead_var days s c.
Proof.
  intros E1 E2 E3. induction days as [| day rest IH]; intros s c;
    [reflexivity |].
  cbn [for_days]. unfold bind.
  rewrite (day_body_costs draws ui ui' _ _ _ _ _ _ E1 E2 E3).
  destruct (day_body draws ui' store_days hub_days lead_var day s c)
    as [[s1 c1] | e]; [apply IH | reflexivity].
Qed.

(** X14. The holding costs touch the three inventory values and nothing
    else: two calls that differ in the holding costs only run the same loop,
    fail together, and when they return give the same fill rate, stockout
    risk and total demand and leave the generator at the same place, each
    value being the mean of its trace times its own holding cost. *)
Theorem holding_costs_only_scale :
  forall draws ui ui' store_days hub_days lead_var c,
    lt_store ui = lt_store ui' -> lt_hub ui = lt_hub ui' ->
    lt_bakery ui = lt_bakery ui' ->
    simulate_loop draws ui store_days hub_days lead_var c
    = simulate_loop draws ui' store_days hub_days lead_var c /\
    (forall e,
        simulate_inventory_cost draws ui store_days hub_days lead_var c
        = Raise e <->
        simulate_inventory_cost draws ui' store_days hub_days lead_var c
        = Raise e) /\
    (forall sv hv bv level risk total c1,
        simulate_inventory_cost draws ui store_days hub_days lead_var c
        = Ok (sv, hv, bv, level, risk, total, c1) ->
        exists s,
          simulate_loop draws ui store_days hub_days lead_var c = Ok (s, c1) /\
          sv = (np_mean (store_inv s) * of_int (h_store ui))%Qc /\
          hv = (np_mean (map of_int (hub_inv s)) * of_int (h_hub ui))%Qc /\
          bv = (np_mean (map of_int (bakery_inv s))
                * of_int (h_bakery ui))%Qc /\
          simulate_inventory_cost draws ui' store_days hub_days lead_var c
          = Ok ((np_mean (store_inv s) * of_int (h_store ui'))%Qc,
                (np_mean (map of_int (hub_inv s)) * of_int (h_hub ui'))%Qc,
                (np_mean (map of_int (bakery_inv s))
                 * of_int (h_bakery ui'))%Qc,
                level, risk, total, c1)).
Proof.
  intros draws ui ui' store_days hub_days lead_var c E1 E2 E3.
  assert (EL : simulate_loop draws ui store_days hub_days lead_var c
               = simulate_loop draws ui' store_days hub_days lead_var c)
    by (unfold simulate_loop; apply for_days_costs; assumption).
  assert (ER : forall s c1 e, aggregate ui s c1 = Raise e <->
                              aggregate ui' s c1 = Raise e).
  { intros s c1 e. unfold aggregate, bind.
    destruct (py_div (fulfilled_demand s) (total_demand s) c1)
      as [[l c2] | e1]; [| reflexivity].
    destruct (py_div (of_int (stockout_days s)) (of_int n_periods) c2)
      as [[k c3] | e2]; [| reflexivity].
    unfold ret. split; discriminate. }
  split; [exact EL | split].
  - intros e. unfold simulate_inventory_cost, bind. rewrite <- EL.
    destruct (simulate_loop draws ui store_days hub_days lead_var c)
      as [[s c1] | e1]; [apply ER | reflexivity].
  - intros sv hv bv level risk total c1 H.
    unfold simulate_inventory_cost in *.
    apply bind_inv in H as (s & c2 & Hloop & Hagg).
    unfold aggregate in Hagg.
    apply bind_inv in Hagg as (l & c3 & Hl & Hagg).
    apply bind_inv in Hagg as (k & c4 & Hk & Hagg).
    pose proof (py_div_inv _ _ _ _ _ Hl) as (_ & _ & ->).
    pose proof (py_div_inv _ _ _ _ _ Hk) as (_ & _ & ->).
    unfold ret in Hagg. injection Hagg as <- <- <- <- <- <- <-.
    exists s. split; [exact Hloop |]. repeat split.
    rewrite EL in Hloop. rewrite (bind_Ok _ _ _ _ _ Hloop).
    unfold aggregate. rewrite (bind_Ok _ _ _ _ _ Hl), (bind_Ok _ _ _ _ _ Hk).
    reflexivity.
Qed.

Lemma holding_costs_only_scale_witness :
  simulate_loop (fun _ => 0%Qc) demo_sliders 1 7 (lit 2 10) 0%nat
  = simulate_loop (fun _ => 0%Qc) (Build_sliders 1 100 50 1 2 3) 1 7
      (lit 2 10) 0%nat.
Proof.
  destruct (holding_costs_only_scale (fun _ => 0%Qc) demo_sliders
              (Build_sliders 1 100 50 1 2 3) 1 7 (lit 2 10) 0%nat
              eq_refl eq_refl eq_refl) as (H & _).
  exact H.
Defined.
